(** * Crowd-Behavior-Evaluation: zone classifier and alert manager

    A shallow embedding of [src/classification/zone_classifier.py],
    [src/alerts/alert_manager.py] and [src/alerts/instruction_generator.py],
    with the properties of the specification stated and settled against
    it.

    Modelling conventions.
    - Python [float]s are idealised as exact rationals [Q]: no rounding, no
      infinities.  The one place where a not-a-number value is observable
      (pandas' mean and max of an empty column) has a type of its own,
      [pynum].
    - Python exceptions are values of [PyErr]; a function that may raise
      returns [result A].
    - [dict]s that are iterated over or written as a literal table are
      association lists in insertion order; [dict]s updated by key while the
      program runs are [gmap]s, and [set]s are [gset]s.
    - Mutation of [self] is explicit state passing: a method returns its
      value together with the new object.
    - [time.time()] is an input: each read of the clock made by a method is a
      parameter of the embedded method, in the order of the reads.
    - The file system is an input of the constructor that reads it: a path
      is missing, or cannot be opened, or does not hold JSON, or holds a
      JSON value. *)

From Stdlib Require Import QArith Qround Lqa ZArith String List Sorted.
From stdpp Require Import base option list strings gmap.

Local Open Scope string_scope.

(** ** Python primitives *)

Inductive PyErr : Type :=
  | KeyError (key : string)
  | ValueError
  | IndexError
  | ZeroDivisionError
  | FileNotFoundError (path : string)
  | IsADirectoryError (path : string)
  | PermissionError (path : string)
  | UnicodeDecodeError
  | JSONDecodeError
  | TypeError.

Inductive result (A : Type) : Type :=
  | Ok (a : A)
  | Raise (e : PyErr).
Arguments Ok {A} a.
Arguments Raise {A} e.

#[global] Instance result_ret : MRet result := fun A a => Ok a.
#[global] Instance result_bind : MBind result := fun A B f m =>
  match m with
  | Ok a => f a
  | Raise e => Raise e
  end.

(** [a < b] on floats. *)
Definition Qlt_bool (a b : Q) : bool := negb (Qle_bool b a).

(** Python's two-argument [min(a, b)]: [b] when [b < a], else [a]. *)
Definition py_min (a b : Q) : Q := if Qlt_bool b a then b else a.

(** Python's two-argument [max(a, b)]: [b] when [b > a], else [a]. *)
Definition py_max (a b : Q) : Q := if Qlt_bool a b then b else a.

(** Float division [a / b], which raises on a zero divisor. *)
Definition py_div (a b : Q) : result Q :=
  if Qeq_bool b 0 then Raise ZeroDivisionError else Ok (a / b)%Q.

(** [d[k]] on a dict kept as an association list. *)
Fixpoint assoc_lookup {V : Type} (k : string) (d : list (string * V)) : option V :=
  match d with
  | [] => None
  | (k', v) :: d' => if String.eqb k k' then Some v else assoc_lookup k d'
  end.

Definition dict_get {V : Type} (d : list (string * V)) (k : string) : result V :=
  match assoc_lookup k d with
  | Some v => Ok v
  | None => Raise (KeyError k)
  end.

(** [cfg[k]] where the section [k] of a JSON document may be absent. *)
Definition section {V : Type} (k : string) (s : option V) : result V :=
  match s with
  | Some v => Ok v
  | None => Raise (KeyError k)
  end.

(** [l.index(x)]: position of the first occurrence, or [ValueError]. *)
Fixpoint list_index (x : string) (l : list string) : result Z :=
  match l with
  | [] => Raise ValueError
  | y :: l' => if String.eqb y x then Ok 0%Z
               else i ← list_index x l'; Ok (i + 1)%Z
  end.

(** [l[i]] with Python's negative indices. *)
Definition list_getitem (l : list string) (i : Z) : result string :=
  let n := Z.of_nat (length l) in
  let j := if (i <? 0)%Z then (i + n)%Z else i in
  if ((0 <=? j) && (j <? n))%Z
  then match nth_error l (Z.to_nat j) with
       | Some x => Ok x
       | None => Raise IndexError
       end
  else Raise IndexError.

(** [round(x, 2)]: to the nearest hundredth, ties to even. *)
Definition round_half_even (q : Q) : Z :=
  let f := Qfloor q in
  let r := (q - inject_Z f)%Q in
  if Qlt_bool r (1 # 2) then f
  else if Qlt_bool (1 # 2) r then (f + 1)%Z
  else if Z.even f then f else (f + 1)%Z.

Definition py_round2 (q : Q) : Q :=
  (inject_Z (round_half_even (q * 100)) / 100)%Q.

(** ** The zone classifier ([zone_classifier.py]) *)

Module ZoneClassifier.

(** *** The configuration document

    [config/classification_config.json] is data outside the program; it is a
    parameter of everything below.  The path may be missing, unreadable, not
    JSON or hold a JSON value that is not an object; the top-level sections
    of an object may be absent; inside a section the entries the code reads
    are taken to be present and numeric. *)

(** One entry of [classification_thresholds]. *)
Record LevelInfo : Type := {
  density_min : Q;
  density_max : Q;
  color_hex : string;
  color_name : string;
  alert_level : string;
  requires_action : bool;
  description : string
}.

(** [movement_thresholds]: the two entries the code reads,
    [['speed']['fast']] and [['direction_variance']['panic']]. *)
Record MovementThresholds : Type := {
  speed_fast : Q;
  direction_variance_panic : Q
}.

Record SeverityWeights : Type := {
  density_weight : Q;
  speed_weight : Q;
  variance_weight : Q
}.

(** [elevation_rules['panic_detection']]. *)
Record PanicDetection : Type := {
  panic_enabled : bool;
  panic_speed_threshold : Q;
  panic_variance_threshold : Q;
  elevation_amount : Z
}.

(** [elevation_rules['orderly_evacuation']]. *)
Record OrderlyEvacuation : Type := {
  orderly_enabled : bool;
  orderly_speed_threshold : Q;
  orderly_variance_threshold : Q
}.

Record ElevationRules : Type := {
  panic_detection : PanicDetection;
  orderly_evacuation : OrderlyEvacuation
}.

Record CapacitySettings : Type := {
  absolute_max_density : Q
}.

Record Config : Type := {
  classification_thresholds : option (list (string * LevelInfo));
  movement_thresholds : option MovementThresholds;
  severity_weights : option SeverityWeights;
  elevation_rules : option ElevationRules;
  capacity_settings : option CapacitySettings
}.

(** The classification record built by [classify_zone]. *)
Record Classification : Type := {
  c_zone_id : option string;
  c_level : string;
  c_base_level : string;
  c_color : string;
  c_color_name : string;
  c_alert_level : string;
  c_severity_score : Q;
  c_requires_action : bool;
  c_description : string;
  c_density : Q;
  c_speed : option Q;
  c_variance : option Q;
  c_elevated : bool;
  c_elevation_reason : option string
}.

(** The object state ([self]). *)
Record t : Type := {
  config : Config;
  thresholds : list (string * LevelInfo);
  self_movement_thresholds : MovementThresholds;
  self_severity_weights : SeverityWeights;
  self_elevation_rules : ElevationRules;
  level_order : list string;
  classification_history : list Classification
}.

(** What [json.load] returns: an object, or one of the other JSON values,
    none of which can be subscripted with a string. *)
Inductive Document : Type :=
  | JObject (cfg : Config)
  | JArray
  | JString
  | JNumber
  | JBool
  | JNull.

(** What [_load_config] finds at a path for which [os.path.exists] holds:
    a directory or a file without read permission, which [open] refuses; a
    file that is not text in the default encoding or not JSON, which
    [json.load] refuses; or a JSON document. *)
Inductive FileState : Type :=
  | Directory
  | NoPermission
  | NotText
  | NotJson
  | Json (doc : Document).

(** The file system seen by [_load_config]: the state of a path, [None]
    when [os.path.exists] is false. *)
Definition FileSystem : Type := string -> option FileState.

(** [_load_config] has no handler: what [open] and [json.load] raise
    leaves the method. *)
Definition _load_config (fs : FileSystem) (config_path : string)
    : result Document :=
  match fs config_path with
  | None => Raise (FileNotFoundError config_path)
  | Some Directory => Raise (IsADirectoryError config_path)
  | Some NoPermission => Raise (PermissionError config_path)
  | Some NotText => Raise UnicodeDecodeError
  | Some NotJson => Raise JSONDecodeError
  | Some (Json doc) => Ok doc
  end.


Definition standard_level_order : list string :=
  ["safe"; "moderate"; "warning"; "critical"; "emergency"].

(** [self.config['classification_thresholds']], the first subscript of
    the constructor, raises [TypeError] unless the loaded document is an
    object; on an object each of the four subscripts raises [KeyError] when
    the section is absent.  An object that was constructed therefore holds
    an object in [self.config]. *)
Definition __init__ (fs : FileSystem) (config_path : string) : result t :=
  doc ← _load_config fs config_path;
  match doc with
  | JObject cfg =>
      th ← section "classification_thresholds" (classification_thresholds cfg);
      mt ← section "movement_thresholds" (movement_thresholds cfg);
      sw ← section "severity_weights" (severity_weights cfg);
      er ← section "elevation_rules" (elevation_rules cfg);
      Ok {| config := cfg;
            thresholds := th;
            self_movement_thresholds := mt;
            self_severity_weights := sw;
            self_elevation_rules := er;
            level_order := standard_level_order;
            classification_history := [] |}
  | _ => Raise TypeError
  end.


(** First band, in the table's order, with
    [density_min <= density < density_max]; ["emergency"] when there is
    none. *)
Fixpoint first_band (bands : list (string * LevelInfo)) (density : Q) : string :=
  match bands with
  | [] => "emergency"
  | (level, th) :: rest =>
      if Qle_bool (density_min th) density && Qlt_bool density (density_max th)
      then level
      else first_band rest density
  end.

Definition _classify_by_density (self : t) (density : Q) : string :=
  first_band (thresholds self) density.

Definition _calculate_severity_score (self : t) (density : Q)
    (speed variance : option Q) : result Q :=
  cap ← section "capacity_settings" (capacity_settings (config self));
  let max_density := absolute_max_density cap in
  r ← py_div density max_density;
  let density_score := py_min 100 (r * 100) in
  severity ←
    match speed, variance with
    | Some speed, Some variance =>
        let max_speed := speed_fast (self_movement_thresholds self) in
        rs ← py_div (py_min speed max_speed) max_speed;
        let speed_score := ((1 - rs) * 100)%Q in
        let max_variance := direction_variance_panic (self_movement_thresholds self) in
        rv ← py_div variance max_variance;
        let variance_score := py_min 100 (rv * 100) in
        Ok (density_score * density_weight (self_severity_weights self)
            + speed_score * speed_weight (self_severity_weights self)
            + variance_score * variance_weight (self_severity_weights self))%Q
    | _, _ => Ok density_score
    end;
  Ok (py_max 0 (py_min 100 severity)).

Definition _elevate_level (self : t) (current_level : string)
    (elevation_amount : Z) : result string :=
  match list_index current_level (level_order self) with
  | Raise ValueError => Ok current_level
  | Raise e => Raise e
  | Ok current_index =>
      let new_index :=
        Z.min (current_index + elevation_amount)
              (Z.of_nat (length (level_order self)) - 1) in
      list_getitem (level_order self) new_index
  end.

Definition panic_reason : string :=
  "Panic indicators detected (slow movement + chaos)".
Definition orderly_reason : string := "Orderly evacuation detected".

(** The comparisons of the two rules, as propositions:
    [speed < panic_speed and variance > panic_variance], and
    [speed > orderly_speed and variance < orderly_variance]. *)
Definition panic_condition (self : t) (speed variance : Q) : Prop :=
  let rule := panic_detection (self_elevation_rules self) in
  (speed < panic_speed_threshold rule)%Q
  /\ (panic_variance_threshold rule < variance)%Q.

Definition orderly_condition (self : t) (speed variance : Q) : Prop :=
  let rule := orderly_evacuation (self_elevation_rules self) in
  (orderly_speed_threshold rule < speed)%Q
  /\ (variance < orderly_variance_threshold rule)%Q.

(** The part of [_adjust_by_movement] after the panic block: the orderly
    rule and the final [return base_level, None]. *)
Definition orderly_check (self : t) (base_level : string)
    (speed variance : Q) : string * option string :=
  let rule := orderly_evacuation (self_elevation_rules self) in
  if orderly_enabled rule
  then
    if Qlt_bool (orderly_speed_threshold rule) speed
       && Qlt_bool variance (orderly_variance_threshold rule)
    then (base_level, Some orderly_reason)
    else (base_level, None)
  else (base_level, None).

Definition _adjust_by_movement (self : t) (base_level : string)
    (density speed variance : Q) : result (string * option string) :=
  let rule := panic_detection (self_elevation_rules self) in
  if panic_enabled rule
  then
    if Qlt_bool speed (panic_speed_threshold rule)
       && Qlt_bool (panic_variance_threshold rule) variance
    then
      elevated_level ← _elevate_level self base_level (elevation_amount rule);
      if negb (String.eqb elevated_level base_level)
      then Ok (elevated_level, Some panic_reason)
      else Ok (orderly_check self base_level speed variance)
    else Ok (orderly_check self base_level speed variance)
  else Ok (orderly_check self base_level speed variance).

Definition classify_zone (self : t) (density : Q) (speed variance : option Q)
    (zone_id : option string) : result (Classification * t) :=
  let base_level := _classify_by_density self density in
  severity_score ← _calculate_severity_score self density speed variance;
  '(adjusted_level, elevation_reason) ←
    match speed, variance with
    | Some s, Some v => _adjust_by_movement self base_level density s v
    | _, _ => Ok (base_level, None)
    end;
  level_info ← dict_get (thresholds self) adjusted_level;
  let result :=
    {| c_zone_id := zone_id;
       c_level := adjusted_level;
       c_base_level := base_level;
       c_color := color_hex level_info;
       c_color_name := color_name level_info;
       c_alert_level := alert_level level_info;
       c_severity_score := py_round2 severity_score;
       c_requires_action := requires_action level_info;
       c_description := description level_info;
       c_density := density;
       c_speed := speed;
       c_variance := variance;
       c_elevated := negb (String.eqb adjusted_level base_level);
       c_elevation_reason := elevation_reason |} in
  Ok (result,
      {| config := config self;
         thresholds := thresholds self;
         self_movement_thresholds := self_movement_thresholds self;
         self_severity_weights := self_severity_weights self;
         self_elevation_rules := self_elevation_rules self;
         level_order := level_order self;
         classification_history := classification_history self ++ [result] |}).

(** *** The batch interface

    [classify_all_zones] and [get_classification_summary] exchange pandas
    [DataFrame]s.  The part of pandas they rely on is modelled as follows:
    a frame built from a list of dicts has the dicts' keys as columns, so
    [pd.DataFrame([])] has no column at all; [df[c]] raises [KeyError] when
    [c] is not a column; [mean()] and [max()] of an empty column are NaN;
    [sum()] of an empty column is 0. *)

(** A zone of the input frame.  The columns read with [zone[...]] are taken
    to be present; those read with [zone.get(...)] are [None] when the
    column is missing. *)
Record Zone : Type := {
  z_zone_id : option string;
  z_x_coord : Q;
  z_y_coord : Q;
  z_density : Q;
  z_movement_speed : option Q;
  z_direction_variance : option Q
}.

(** A row of the frame returned by [classify_all_zones]. *)
Record ClassifiedZone : Type := {
  r_zone_id : option string;
  r_x : Q;
  r_y : Q;
  r_level : string;
  r_base_level : string;
  r_color : string;
  r_severity : Q;
  r_density : Q;
  r_speed : option Q;
  r_variance : option Q;
  r_requires_action : bool;
  r_elevated : bool;
  r_elevation_reason : option string
}.

Record DataFrame : Type := {
  columns : list string;
  rows : list ClassifiedZone
}.

Definition result_columns : list string :=
  ["zone_id"; "x"; "y"; "level"; "base_level"; "color"; "severity";
   "density"; "speed"; "variance"; "requires_action"; "elevated";
   "elevation_reason"].

(** [pd.DataFrame(results)]. *)
Definition pd_DataFrame (results : list ClassifiedZone) : DataFrame :=
  {| columns := match results with [] => [] | _ :: _ => result_columns end;
     rows := results |}.

(** [df[name]], the column as a list of cells. *)
Definition df_getitem {A : Type} (df : DataFrame) (name : string)
    (cell : ClassifiedZone -> A) : result (list A) :=
  if existsb (String.eqb name) (columns df)
  then Ok (map cell (rows df))
  else Raise (KeyError name).

(** A frame that has the result columns and no row, such as a selection
    [classified[classified['level'] == ...]] that matches nothing. *)
Definition empty_with_columns : DataFrame :=
  {| columns := result_columns; rows := [] |}.

(** A float that may be NaN. *)
Inductive pynum : Type :=
  | Num (q : Q)
  | NaN.

Definition Qsum (l : list Q) : Q := fold_left Qplus l 0%Q.

Definition series_mean (l : list Q) : pynum :=
  match l with
  | [] => NaN
  | _ :: _ => Num (Qsum l / inject_Z (Z.of_nat (length l)))
  end.

Definition series_max (l : list Q) : pynum :=
  match l with
  | [] => NaN
  | x :: l' => Num (fold_left py_max l' x)
  end.

(** [sum()] of a boolean column. *)
Definition series_sum (l : list bool) : nat := length (List.filter (fun b => b) l).

Definition append_result (results : list ClassifiedZone) (zone : Zone)
    (classification : Classification) : list ClassifiedZone :=
  results ++
  [{| r_zone_id := c_zone_id classification;
      r_x := z_x_coord zone;
      r_y := z_y_coord zone;
      r_level := c_level classification;
      r_base_level := c_base_level classification;
      r_color := c_color classification;
      r_severity := c_severity_score classification;
      r_density := c_density classification;
      r_speed := c_speed classification;
      r_variance := c_variance classification;
      r_requires_action := c_requires_action classification;
      r_elevated := c_elevated classification;
      r_elevation_reason := c_elevation_reason classification |}].

(** The [for] loop of [classify_all_zones]. *)
Fixpoint classify_loop (self : t) (zones : list Zone)
    (results : list ClassifiedZone) : result (list ClassifiedZone * t) :=
  match zones with
  | [] => Ok (results, self)
  | zone :: zones' =>
      '(classification, self') ←
        classify_zone self (z_density zone) (z_movement_speed zone)
                      (z_direction_variance zone) (z_zone_id zone);
      classify_loop self' zones' (append_result results zone classification)
  end.

Definition classify_all_zones (self : t) (frame_data : list Zone)
    : result (DataFrame * t) :=
  '(results, self') ← classify_loop self frame_data [];
  Ok (pd_DataFrame results, self').

(** [d[k] = v] on a dict kept as an association list. *)
Fixpoint dict_set {V : Type} (d : list (string * V)) (k : string) (v : V)
    : list (string * V) :=
  match d with
  | [] => [(k, v)]
  | (k', v') :: d' =>
      if String.eqb k k' then (k, v) :: d' else (k', v') :: dict_set d' k v
  end.

Record Summary : Type := {
  total_zones : nat;
  level_counts : list (string * nat);
  level_percentages : list (string * Q);
  average_severity : pynum;
  max_severity : pynum;
  zones_requiring_action : nat;
  elevated_zones : nat
}.

(** The [for level in self.level_order] loop of
    [get_classification_summary]. *)
Fixpoint count_levels (classified_zones : DataFrame) (levels : list string)
    (summary : Summary) : result Summary :=
  match levels with
  | [] => Ok summary
  | level :: levels' =>
      col ← df_getitem classified_zones "level" r_level;
      let count := length (List.filter (String.eqb level) col) in
      let total := total_zones summary in
      let pct :=
        if (0 <? total)%nat
        then (inject_Z (Z.of_nat count) / inject_Z (Z.of_nat total) * 100)%Q
        else 0%Q in
      count_levels classified_zones levels'
        {| total_zones := total_zones summary;
           level_counts := dict_set (level_counts summary) level count;
           level_percentages := dict_set (level_percentages summary) level pct;
           average_severity := average_severity summary;
           max_severity := max_severity summary;
           zones_requiring_action := zones_requiring_action summary;
           elevated_zones := elevated_zones summary |}
  end.

Definition get_classification_summary (self : t) (classified_zones : DataFrame)
    : result Summary :=
  let total_zones := length (rows classified_zones) in
  sev ← df_getitem classified_zones "severity" r_severity;
  sev' ← df_getitem classified_zones "severity" r_severity;
  req ← df_getitem classified_zones "requires_action" r_requires_action;
  elv ← df_getitem classified_zones "elevated" r_elevated;
  count_levels classified_zones (level_order self)
    {| total_zones := total_zones;
       level_counts := [];
       level_percentages := [];
       average_severity := series_mean sev;
       max_severity := series_max sev';
       zones_requiring_action := series_sum req;
       elevated_zones := series_sum elv |}.

(** *** Conditions on the object used by the further properties *)

(** A classifier whose level order is the constructor's, whose three
    divisors are not zero, whose elevation amount does not index before the
    start of the level order, and whose threshold table has an entry for
    each of the five levels. *)
Definition configured (self : t) : Prop :=
  level_order self = standard_level_order
  /\ (exists cap, capacity_settings (config self) = Some cap
                  /\ ~ (absolute_max_density cap == 0)%Q)
  /\ ~ (speed_fast (self_movement_thresholds self) == 0)%Q
  /\ ~ (direction_variance_panic (self_movement_thresholds self) == 0)%Q
  /\ (-5 <= elevation_amount (panic_detection (self_elevation_rules self)))%Z
  /\ (forall level, In level standard_level_order ->
        exists info, assoc_lookup level (thresholds self) = Some info).

(** The object with another classification history. *)
Definition with_history (self : t) (history : list Classification) : t :=
  {| config := config self;
     thresholds := thresholds self;
     self_movement_thresholds := self_movement_thresholds self;
     self_severity_weights := self_severity_weights self;
     self_elevation_rules := self_elevation_rules self;
     level_order := level_order self;
     classification_history := history |}.

(** The row [classify_all_zones] stores for a zone and its
    classification. *)
Definition result_row (zone : Zone) (classification : Classification)
    : ClassifiedZone :=
  {| r_zone_id := c_zone_id classification;
     r_x := z_x_coord zone;
     r_y := z_y_coord zone;
     r_level := c_level classification;
     r_base_level := c_base_level classification;
     r_color := c_color classification;
     r_severity := c_severity_score classification;
     r_density := c_density classification;
     r_speed := c_speed classification;
     r_variance := c_variance classification;
     r_requires_action := c_requires_action classification;
     r_elevated := c_elevated classification;
     r_elevation_reason := c_elevation_reason classification |}.

End ZoneClassifier.

(** ** Python primitives for the remaining methods *)

(** [sorted(l, key=...)] and [l.sort(key=..., reverse=...)] are stable: the
    result lists the elements by key and keeps the input order among
    elements of equal key.  [precedes y x] says that the key of [y] comes
    strictly before the key of [x] in the requested order; an element is
    moved in front of exactly those later elements. *)
Fixpoint insert_stable {A : Type} (precedes : A -> A -> bool) (x : A)
    (l : list A) : list A :=
  match l with
  | [] => [x]
  | y :: l' =>
      if precedes y x then y :: insert_stable precedes x l'
      else x :: y :: l'
  end.

Fixpoint py_sorted {A : Type} (precedes : A -> A -> bool) (l : list A)
    : list A :=
  match l with
  | [] => []
  | x :: l' => insert_stable precedes x (py_sorted precedes l')
  end.

(** Float [a % b]: the remainder has the sign of [b]; a zero divisor
    raises. *)
Definition py_mod (a b : Q) : result Q :=
  if Qeq_bool b 0 then Raise ZeroDivisionError
  else Ok (a - b * inject_Z (Qfloor (a / b)))%Q.

(** [int(x)] of a float: truncation towards zero. *)
Definition py_int (q : Q) : Z := Z.quot (Qnum q) (Z.pos (Qden q)).

(** ** The alert manager ([alert_manager.py]) *)

Module AlertManager.

Record Visual : Type := {
  color : string;
  flash : bool;
  flash_rate : Q;
  icon : string;
  message : string
}.

Record Audio : Type := {
  enabled : bool;
  frequency : Q;
  duration : Q;
  beeps : nat;
  pattern : list (string * Q)
}.

Record LevelConfig : Type := {
  priority : Z;
  visual : Visual;
  audio : Audio
}.

Record Alert : Type := {
  timestamp : Q;
  level : string;
  zone_id : string;
  severity : Q;
  a_priority : Z;
  a_visual : Visual;
  a_audio : Audio;
  alert_key : string
}.

(** The object state ([self]). *)
Record t : Type := {
  cooldown_seconds : Q;
  alert_config : list (string * LevelConfig);
  last_alert_time : gmap string Q;
  active_alerts : list Alert;
  alert_history : list Alert;
  total_alerts_triggered : nat;
  alerts_by_level : gmap string nat
}.

Definition no_audio : Audio :=
  {| enabled := false; frequency := 0; duration := 0; beeps := 0;
     pattern := [] |}.

Definition _initialize_alert_config : list (string * LevelConfig) :=
  [ ("safe",
     {| priority := 0;
        visual := {| color := "#00FF00"; flash := false; flash_rate := 0;
                     icon := "✓"; message := "Normal Operations" |};
        audio := no_audio |});
    ("moderate",
     {| priority := 1;
        visual := {| color := "#7FFF00"; flash := false; flash_rate := 0;
                     icon := "⚠"; message := "Increased Density - Monitor" |};
        audio := no_audio |});
    ("warning",
     {| priority := 2;
        visual := {| color := "#FFFF00"; flash := true; flash_rate := 1;
                     icon := "⚠️"; message := "HIGH DENSITY WARNING" |};
        audio := {| enabled := true; frequency := 800; duration := 3 # 10;
                    beeps := 1; pattern := [("beep", 3 # 10)] |} |});
    ("critical",
     {| priority := 3;
        visual := {| color := "#FF8C00"; flash := true; flash_rate := 2;
                     icon := "🔴"; message := "CRITICAL CONGESTION" |};
        audio := {| enabled := true; frequency := 1000; duration := 1 # 2;
                    beeps := 2;
                    pattern := [("beep", 1 # 2); ("pause", 1 # 5);
                                ("beep", 1 # 2)] |} |});
    ("emergency",
     {| priority := 4;
        visual := {| color := "#FF0000"; flash := true; flash_rate := 3;
                     icon := "🚨"; message := "EMERGENCY - EVACUATE NOW" |};
        audio := {| enabled := true; frequency := 1200; duration := 7 # 10;
                    beeps := 3;
                    pattern := [("beep", 7 # 10); ("pause", 1 # 5);
                                ("beep", 7 # 10); ("pause", 1 # 5);
                                ("beep", 7 # 10)] |} |}) ].

Definition __init__ (cooldown_seconds : Q) : t :=
  {| cooldown_seconds := cooldown_seconds;
     alert_config := _initialize_alert_config;
     last_alert_time := ∅;
     active_alerts := [];
     alert_history := [];
     total_alerts_triggered := 0;
     alerts_by_level := ∅ |}.

(** [check_cooldown]; [current_time] is its read of the clock. *)
Definition check_cooldown (self : t) (current_time : Q) (alert_key : string)
    : bool :=
  let last_time := default 0%Q (last_alert_time self !! alert_key) in
  Qle_bool (cooldown_seconds self) (current_time - last_time).

(** [current_time - last_time >= self.cooldown_seconds] as a proposition;
    [last_time] is 0 for a key the ledger does not hold. *)
Definition cooldown_elapsed (self : t) (current_time : Q) (alert_key : string)
    : Prop :=
  (cooldown_seconds self
   <= current_time - default 0%Q (last_alert_time self !! alert_key))%Q.

(** [x in ['warning', 'critical', 'emergency']]. *)
Definition alerting_level (level : string) : bool :=
  existsb (String.eqb level) ["warning"; "critical"; "emergency"].

(** [trigger_alert].  The clock is read three times: [now_check] inside
    [check_cooldown], [now_alert] for the alert's timestamp and
    [now_ledger] for the ledger entry. *)
Definition trigger_alert (self : t) (now_check now_alert now_ledger : Q)
    (level zone_id : string) (severity : Q) : result (option Alert * t) :=
  if negb (alerting_level level) then Ok (None, self)
  else
    let alert_key := level ++ "_" ++ zone_id in
    if negb (check_cooldown self now_check alert_key) then Ok (None, self)
    else
      config ← dict_get (alert_config self) level;
      let alert :=
        {| timestamp := now_alert;
           level := level;
           zone_id := zone_id;
           severity := severity;
           a_priority := priority config;
           a_visual := visual config;
           a_audio := audio config;
           alert_key := alert_key |} in
      Ok (Some alert,
          {| cooldown_seconds := cooldown_seconds self;
             alert_config := alert_config self;
             last_alert_time := <[alert_key := now_ledger]> (last_alert_time self);
             active_alerts := active_alerts self ++ [alert];
             alert_history := alert_history self ++ [alert];
             total_alerts_triggered := S (total_alerts_triggered self);
             alerts_by_level :=
               <[level := S (default 0%nat (alerts_by_level self !! level))]>
                 (alerts_by_level self) |}).

(** The summary while [generate_alert_summary] scans the list:
    [zones_affected] is still a set. *)
Record SummaryAcc : Type := {
  acc_total_alerts : nat;
  acc_by_level : gmap string nat;
  acc_highest_priority : option Alert;
  acc_highest_severity : Q;
  acc_zones_affected : gset string
}.

Record AlertSummary : Type := {
  total_alerts : nat;
  by_level : gmap string nat;
  highest_priority : option Alert;
  highest_severity : Q;
  zones_affected : nat
}.

(** One iteration of the [for alert in alerts] loop. *)
Definition summary_step (summary : SummaryAcc) (alert : Alert) : SummaryAcc :=
  let by_level' :=
    match acc_by_level summary !! level alert with
    | Some n => <[level alert := S n]> (acc_by_level summary)
    | None => acc_by_level summary
    end in
  let zones' := acc_zones_affected summary ∪ {[zone_id alert]} in
  if Qlt_bool (acc_highest_severity summary) (severity alert)
  then {| acc_total_alerts := acc_total_alerts summary;
          acc_by_level := by_level';
          acc_highest_priority := Some alert;
          acc_highest_severity := severity alert;
          acc_zones_affected := zones' |}
  else {| acc_total_alerts := acc_total_alerts summary;
          acc_by_level := by_level';
          acc_highest_priority := acc_highest_priority summary;
          acc_highest_severity := acc_highest_severity summary;
          acc_zones_affected := zones' |}.

Definition summary_init (alerts : list Alert) : SummaryAcc :=
  {| acc_total_alerts := length alerts;
     acc_by_level := <["warning" := 0%nat]> (<["critical" := 0%nat]>
                       (<["emergency" := 0%nat]> ∅));
     acc_highest_priority := None;
     acc_highest_severity := 0;
     acc_zones_affected := ∅ |}.

Definition generate_alert_summary (alerts : list Alert) : AlertSummary :=
  let summary := fold_left summary_step alerts (summary_init alerts) in
  {| total_alerts := acc_total_alerts summary;
     by_level := acc_by_level summary;
     highest_priority := acc_highest_priority summary;
     highest_severity := acc_highest_severity summary;
     zones_affected := size (acc_zones_affected summary) |}.

(** An alert with the given level, zone, severity and priority, for the
    examples; the descriptors are not read by the summary. *)
Definition sample_alert (level zone_id : string) (severity : Q) (priority : Z)
    : Alert :=
  {| timestamp := 0; level := level; zone_id := zone_id;
     severity := severity; a_priority := priority;
     a_visual := {| color := ""; flash := false; flash_rate := 0;
                    icon := ""; message := "" |};
     a_audio := no_audio;
     alert_key := level ++ "_" ++ zone_id |}.

(** An emergency alert of severity 40 followed by a warning of severity
    55. *)
Definition emergency_then_warning : list Alert :=
  [sample_alert "emergency" "Zone_5_5" 40 4;
   sample_alert "warning" "Zone_3_3" 55 2].

(** A single alert of level ["safe"]. *)
Definition one_safe_alert : list Alert :=
  [sample_alert "safe" "Zone_1_1" 15 0].

(** [alert['level'] in d]: the alerts the loop of the summary counts. *)
Definition counted (d : gmap string nat) (alert : Alert) : bool :=
  bool_decide (is_Some (d !! level alert)).

(** [sum(d.values())] for a dict of counters. *)
Definition sum_counts (d : gmap string nat) : nat :=
  map_fold (fun _ n acc => (n + acc)%nat) 0%nat d.

(** *** The other methods of the manager *)

(** A row of the frame read by [process_classified_zones]: the columns
    ['level'], ['zone_id'] and ['severity']. *)
Record ZoneRow : Type := {
  row_level : string;
  row_zone_id : string;
  row_severity : Q
}.

(** The [for] loop of [process_classified_zones]; [clock i] gives the
    three reads of the clock that [trigger_alert] makes for row [i]. *)
Fixpoint process_loop (self : t) (clock : nat -> Q * Q * Q) (i : nat)
    (zones : list ZoneRow) (triggered_alerts : list Alert)
    : result (list Alert * t) :=
  match zones with
  | [] => Ok (triggered_alerts, self)
  | zone :: zones' =>
      '(alert, self') ←
        trigger_alert self (clock i).1.1 (clock i).1.2 (clock i).2
                      (row_level zone) (row_zone_id zone) (row_severity zone);
      process_loop self' clock (S i) zones'
        match alert with
        | Some a => triggered_alerts ++ [a]
        | None => triggered_alerts
        end
  end.

Definition process_classified_zones (self : t) (clock : nat -> Q * Q * Q)
    (classified_zones : list ZoneRow) : result (list Alert * t) :=
  process_loop self clock 0 classified_zones [].

(** [current_time - alert['timestamp'] <= max_age_seconds]. *)
Definition within_age (current_time max_age_seconds : Q) (alert : Alert)
    : bool :=
  Qle_bool (current_time - timestamp alert) max_age_seconds.

(** [get_active_alerts]: the recent alerts, highest priority first. *)
Definition get_active_alerts (self : t) (current_time max_age_seconds : Q)
    : list Alert :=
  let active :=
    List.filter (within_age current_time max_age_seconds) (active_alerts self) in
  py_sorted (fun y x => (a_priority x <? a_priority y)%Z) active.

(** [priority_order.get(level, 99)]. *)
Definition priority_rank (level : string) : Z :=
  match assoc_lookup level
          [("emergency", 0%Z); ("critical", 1%Z); ("warning", 2%Z)] with
  | Some r => r
  | None => 99%Z
  end.

(** [<] on the sort keys [(rank, -severity)], compared as tuples. *)
Definition key_lt (k1 k2 : Z * Q) : bool :=
  (k1.1 <? k2.1)%Z || ((k1.1 =? k2.1)%Z && Qlt_bool k1.2 k2.2).

Definition priority_key (alert : Alert) : Z * Q :=
  (priority_rank (level alert), (- severity alert)%Q).

Definition get_priority_alerts (alerts : list Alert) : list Alert :=
  py_sorted (fun y x => key_lt (priority_key y) (priority_key x)) alerts.

Record VisualAlert : Type := {
  v_color : string;
  v_flash : bool;
  v_flash_on : bool;
  v_icon : string;
  v_message : string;
  v_level : string;
  v_zone_id : string;
  v_severity : Q
}.

(** [generate_visual_alert]; [now] is its read of the clock. *)
Definition generate_visual_alert (alert : Alert) (now : Q)
    : result VisualAlert :=
  let visual := a_visual alert in
  flash_on ←
    (if flash visual
     then
       let elapsed := (now - timestamp alert)%Q in
       flash_cycle ← py_div 1 (flash_rate visual);
       phase ← py_mod elapsed flash_cycle;
       Ok (Qlt_bool phase (flash_cycle / 2))
     else Ok true);
  Ok {| v_color := if flash_on || negb (flash visual) then color visual
                   else "#FFFFFF";
        v_flash := flash visual;
        v_flash_on := flash_on;
        v_icon := icon visual;
        v_message := message visual;
        v_level := level alert;
        v_zone_id := zone_id alert;
        v_severity := severity alert |}.

Record AudioAlert : Type := {
  au_frequency : Q;
  au_duration : Q;
  au_beeps : nat;
  au_pattern : list (string * Q);
  au_level : string
}.

Definition generate_audio_alert (alert : Alert) : option AudioAlert :=
  let audio := a_audio alert in
  if negb (enabled audio) then None
  else Some {| au_frequency := frequency audio;
               au_duration := duration audio;
               au_beeps := beeps audio;
               au_pattern := pattern audio;
               au_level := level alert |}.

Record Indicator : Type := {
  i_severity : Q;
  i_percentage : Q;
  i_color : string;
  i_level_text : string;
  i_bar_filled : Z
}.

Definition get_severity_indicator (severity : Q) : Indicator :=
  let '(color, level_text) :=
    if Qlt_bool severity 20 then ("#00FF00", "LOW")
    else if Qlt_bool severity 40 then ("#7FFF00", "MODERATE")
    else if Qlt_bool severity 60 then ("#FFFF00", "ELEVATED")
    else if Qlt_bool severity 80 then ("#FF8C00", "HIGH")
    else ("#FF0000", "CRITICAL") in
  {| i_severity := severity;
     i_percentage := severity;
     i_color := color;
     i_level_text := level_text;
     i_bar_filled := py_int (severity / 100 * 50) |}.

(** [clear_old_alerts]; [current_time] is its read of the clock. *)
Definition clear_old_alerts (self : t) (current_time max_age_seconds : Q) : t :=
  {| cooldown_seconds := cooldown_seconds self;
     alert_config := alert_config self;
     last_alert_time := last_alert_time self;
     active_alerts :=
       List.filter (within_age current_time max_age_seconds) (active_alerts self);
     alert_history := alert_history self;
     total_alerts_triggered := total_alerts_triggered self;
     alerts_by_level := alerts_by_level self |}.

Definition reset_alerts (self : t) : t :=
  {| cooldown_seconds := cooldown_seconds self;
     alert_config := alert_config self;
     last_alert_time := ∅;
     active_alerts := [];
     alert_history := alert_history self;
     total_alerts_triggered := total_alerts_triggered self;
     alerts_by_level := alerts_by_level self |}.

Record Statistics : Type := {
  st_total_alerts_triggered : nat;
  st_alerts_by_level : gmap string nat;
  st_active_alerts_count : nat;
  st_cooldown_seconds : Q
}.

Definition get_statistics (self : t) : Statistics :=
  {| st_total_alerts_triggered := total_alerts_triggered self;
     st_alerts_by_level := alerts_by_level self;
     st_active_alerts_count := length (active_alerts self);
     st_cooldown_seconds := cooldown_seconds self |}.

(** Whether a point in time, counted in flash cycles, lies in the first
    half of its cycle. *)
Definition first_half (cycles : Q) : bool :=
  Qlt_bool (cycles - inject_Z (Qfloor cycles)) (1 # 2).

(** An alert as [trigger_alert] builds it: an alerting level, the
    descriptors of that level, and the key made of level and zone. *)
Definition well_described (alert : Alert) : Prop :=
  alerting_level (level alert) = true
  /\ dict_get _initialize_alert_config (level alert)
     = Ok {| priority := a_priority alert; visual := a_visual alert;
             audio := a_audio alert |}
  /\ alert_key alert = level alert ++ "_" ++ zone_id alert.

(** The relations between the fields of a manager that its methods keep. *)
Definition consistent (self : t) : Prop :=
  alert_config self = _initialize_alert_config
  /\ total_alerts_triggered self = length (alert_history self)
  /\ sum_counts (alerts_by_level self) = total_alerts_triggered self
  /\ sublist (active_alerts self) (alert_history self)
  /\ Forall well_described (alert_history self).

(** A call of one of the methods that change the manager, with the clock
    reads it makes. *)
Inductive Call : Type :=
  | CallTrigger (now_check now_alert now_ledger : Q)
                (level zone_id : string) (severity : Q)
  | CallProcess (clock : nat -> Q * Q * Q) (zones : list ZoneRow)
  | CallClear (current_time max_age_seconds : Q)
  | CallReset.

Definition call (self : t) (c : Call) : result t :=
  match c with
  | CallTrigger t1 t2 t3 level zone_id severity =>
      r ← trigger_alert self t1 t2 t3 level zone_id severity; Ok r.2
  | CallProcess clock zones =>
      r ← process_classified_zones self clock zones; Ok r.2
  | CallClear now max_age => Ok (clear_old_alerts self now max_age)
  | CallReset => Ok (reset_alerts self)
  end.

(** A sequence of calls on one manager. *)
Fixpoint calls (self : t) (cs : list Call) : result t :=
  match cs with
  | [] => Ok self
  | c :: cs' => self' ← call self c; calls self' cs'
  end.

End AlertManager.

(** ** The instruction generator ([instruction_generator.py])

    The consumer of the classified frame.  Its region and exit functions
    and its summary report are embedded; the text of an instruction, built
    with [str.format], is not. *)

Module InstructionGenerator.

(** [range(n)]. *)
Definition py_range (n : Z) : list Z := map Z.of_nat (seq 0 (Z.to_nat n)).

(** [l[:stop]]: a negative [stop] counts from the end. *)
Definition py_slice_to {A : Type} (l : list A) (stop : Z) : list A :=
  if (stop <? 0)%Z
  then firstn (Z.to_nat (Z.max 0 (Z.of_nat (length l) + stop))) l
  else firstn (Z.to_nat stop) l.

(** The fields of the object that the embedded methods read. *)
Record t : Type := {
  grid_rows : Z;
  grid_cols : Z;
  exit_map : list (string * list (Z * Z))
}.

(** The [if]/[elif] chain of [_define_exit_regions]. *)
Definition region_of_cell (i j : Z) : string :=
  if (i <=? 2)%Z then "North"
  else if (7 <=? i)%Z then "South"
  else if (7 <=? j)%Z then "East"
  else if (j <=? 2)%Z then "West"
  else "Central".

(** [d[k].append(x)]; the five keys are those of the literal dict. *)
Fixpoint dict_append (d : list (string * list (Z * Z))) (k : string)
    (x : Z * Z) : list (string * list (Z * Z)) :=
  match d with
  | [] => []
  | (k', v) :: d' =>
      if String.eqb k k' then (k', (v ++ [x])%list) :: d'
      else (k', v) :: dict_append d' k x
  end.

Definition _define_exit_regions (rows cols : Z)
    : list (string * list (Z * Z)) :=
  fold_left
    (fun exit_regions i =>
       fold_left
         (fun exit_regions j =>
            dict_append exit_regions (region_of_cell i j) (i, j))
         (py_range cols) exit_regions)
    (py_range rows)
    [("North", []); ("South", []); ("East", []); ("West", []);
     ("Central", [])].

Definition __init__ (grid_size : Z * Z) : t :=
  {| grid_rows := grid_size.1;
     grid_cols := grid_size.2;
     exit_map := _define_exit_regions grid_size.1 grid_size.2 |}.

Definition cell_eqb (a b : Z * Z) : bool :=
  (a.1 =? b.1)%Z && (a.2 =? b.2)%Z.

(** The loop of [get_zone_region] over [exit_map.items()]. *)
Fixpoint region_lookup (items : list (string * list (Z * Z))) (x y : Z)
    : string :=
  match items with
  | [] => "Central"
  | (region, zones) :: rest =>
      if existsb (cell_eqb (x, y)) zones then region
      else region_lookup rest x y
  end.

Definition get_zone_region (self : t) (x y : Z) : string :=
  region_lookup (exit_map self) x y.

Definition exit_locations : list (string * (Z * Z)) :=
  [("North", (0, 5)%Z); ("South", (9, 5)%Z); ("East", (5, 9)%Z);
   ("West", (5, 0)%Z)].

(** Manhattan distance from [(x, y)] to a location. *)
Definition manhattan (x y : Z) (location : Z * Z) : Z :=
  (Z.abs (x - location.1) + Z.abs (y - location.2))%Z.

(** [<] on the tuples [(distance, exit_name)]. *)
Definition distance_lt (a b : Z * string) : bool :=
  (a.1 <? b.1)%Z || ((a.1 =? b.1)%Z && String.ltb a.2 b.2).

Definition get_nearest_exits (x y max_exits : Z) : list string :=
  let distances :=
    map (fun e : string * (Z * Z) => (manhattan x y e.2, e.1))
        exit_locations in
  let distances := py_sorted distance_lt distances in
  map snd (py_slice_to distances max_exits).

(** An instruction as [generate_instruction] builds it. *)
Record Instruction : Type := {
  zone_id : string;
  x : Z;
  y : Z;
  level : string;
  severity : Q;
  primary_exit : string;
  alternative_exits : list string;
  region : string;
  instruction_text : string;
  icon : string;
  priority : string
}.

Record Report : Type := {
  total_instructions : nat;
  priority_breakdown : gmap string nat;
  exit_usage : gmap string nat;
  requires_immediate_action : nat;
  zones_monitored : nat
}.

(** [d[k]] on a [gmap]. *)
Definition counts_get (d : gmap string nat) (k : string) : result nat :=
  match d !! k with
  | Some n => Ok n
  | None => Raise (KeyError k)
  end.

(** The first loop of [generate_summary_report]:
    [priority_counts[inst['priority']] += 1]. *)
Fixpoint count_priorities (instructions : list Instruction)
    (priority_counts : gmap string nat) : result (gmap string nat) :=
  match instructions with
  | [] => Ok priority_counts
  | inst :: rest =>
      n ← counts_get priority_counts (priority inst);
      count_priorities rest (<[priority inst := S n]> priority_counts)
  end.

(** The second loop:
    [exit_usage[exit_name] = exit_usage.get(exit_name, 0) + 1]. *)
Definition count_exits (instructions : list Instruction) : gmap string nat :=
  fold_left
    (fun exit_usage inst =>
       <[primary_exit inst :=
           (default 0%nat (exit_usage !! primary_exit inst) + 1)%nat]>
         exit_usage)
    instructions ∅.

Definition initial_priority_counts : gmap string nat :=
  <["LOW" := 0%nat]> (<["MEDIUM" := 0%nat]> (<["HIGH" := 0%nat]>
    (<["CRITICAL" := 0%nat]> (<["EMERGENCY" := 0%nat]> ∅)))).

Definition generate_summary_report (instructions : list Instruction)
    : result Report :=
  let total := length instructions in
  priority_counts ← count_priorities instructions initial_priority_counts;
  let exit_usage := count_exits instructions in
  emergency ← counts_get priority_counts "EMERGENCY";
  critical ← counts_get priority_counts "CRITICAL";
  medium ← counts_get priority_counts "MEDIUM";
  low ← counts_get priority_counts "LOW";
  Ok {| total_instructions := total;
        priority_breakdown := priority_counts;
        exit_usage := exit_usage;
        requires_immediate_action := (emergency + critical)%nat;
        zones_monitored := (medium + low)%nat |}.

(** The literal [priority_order] of [get_priority_instructions]. *)
Definition priority_order : list (string * Z) :=
  [("EMERGENCY", 0%Z); ("CRITICAL", 1%Z); ("HIGH", 2%Z); ("MEDIUM", 3%Z);
   ("LOW", 4%Z)].

(** [inst['priority'] in ['EMERGENCY', 'CRITICAL', 'HIGH']]. *)
Definition actionable (inst : Instruction) : bool :=
  existsb (String.eqb (priority inst)) ["EMERGENCY"; "CRITICAL"; "HIGH"].

(** The [key] of the sort:
    [(priority_order[x['priority']], -x['severity'])]. *)
Definition sort_key (inst : Instruction) : result (Z * Q) :=
  rank ← dict_get priority_order (priority inst);
  Ok (rank, (- severity inst)%Q).

(** [list.sort(key=...)] computes the key of every element, in the order of
    the list, before it compares any two. *)
Fixpoint decorate {A K : Type} (key : A -> result K) (l : list A)
    : result (list (K * A)) :=
  match l with
  | [] => Ok []
  | a :: l' =>
      k ← key a;
      rest ← decorate key l';
      Ok ((k, a) :: rest)
  end.

Definition get_priority_instructions (instructions : list Instruction)
    : result (list Instruction) :=
  let priority_instructions := List.filter actionable instructions in
  decorated ← decorate sort_key priority_instructions;
  Ok (map snd
        (py_sorted (fun y x => AlertManager.key_lt y.1 x.1) decorated)).

(** The cells of the grid in the order of the two loops. *)
Definition grid_cells (rows cols : Z) : list (Z * Z) :=
  flat_map (fun i => map (pair i) (py_range cols)) (py_range rows).

(** The exit regions of a list of cells. *)
Definition regions_of_cells (cells : list (Z * Z))
    : list (string * list (Z * Z)) :=
  map (fun name =>
         (name,
          List.filter (fun c => String.eqb (region_of_cell c.1 c.2) name)
                      cells))
      ["North"; "South"; "East"; "West"; "Central"].

(** The five priorities counted by the report. *)
Definition known_priorities : list string :=
  ["EMERGENCY"; "CRITICAL"; "HIGH"; "MEDIUM"; "LOW"].

(** The number of instructions of a priority. *)
Definition with_priority (p : string) (instructions : list Instruction) : nat :=
  length (List.filter (fun i => String.eqb (priority i) p) instructions).

End InstructionGenerator.

(** ** Sample configurations

    The configuration file is not part of the sources.  The values below are
    one document of the expected shape, chosen to agree with the scenarios of
    [test_classifier] ([1.5] is safe, [2.8] and [3.8] moderate, [4.0] and
    [4.2] warning, [6.0] critical, [7.8] emergency) and with the panic rule
    of the specification's end-to-end scenario (speed below [0.5], variance
    above [120], two levels up). *)

Module Samples.
Import ZoneClassifier.

Definition band (lo hi : Q) (hex name tag : string) (action : bool)
    (descr : string) : LevelInfo :=
  {| density_min := lo; density_max := hi; color_hex := hex;
     color_name := name; alert_level := tag; requires_action := action;
     description := descr |}.

Definition sample_thresholds : list (string * LevelInfo) :=
  [ ("safe", band 0 2 "#00FF00" "Green" "none" false "Normal flow");
    ("moderate", band 2 4 "#7FFF00" "Yellow-Green" "low" false "Increased density");
    ("warning", band 4 (11 # 2) "#FFFF00" "Yellow" "medium" true "High density");
    ("critical", band (11 # 2) 7 "#FF8C00" "Orange" "high" true "Critical congestion");
    ("emergency", band 7 100 "#FF0000" "Red" "critical" true "Dangerous crush risk") ].

Definition sample_rules (amount : Z) : ElevationRules :=
  {| panic_detection :=
       {| panic_enabled := true; panic_speed_threshold := 1 # 2;
          panic_variance_threshold := 120; elevation_amount := amount |};
     orderly_evacuation :=
       {| orderly_enabled := true; orderly_speed_threshold := 6 # 5;
          orderly_variance_threshold := 60 |} |}.

(** Rules whose two conditions can hold together: panic below speed [2] and
    above variance [10], orderly above speed [1] and below variance [100]. *)
Definition overlapping_rules : ElevationRules :=
  {| panic_detection :=
       {| panic_enabled := true; panic_speed_threshold := 2;
          panic_variance_threshold := 10; elevation_amount := 1 |};
     orderly_evacuation :=
       {| orderly_enabled := true; orderly_speed_threshold := 1;
          orderly_variance_threshold := 100 |} |}.

Definition sample_config_with (th : list (string * LevelInfo))
    (rules : ElevationRules) : Config :=
  {| classification_thresholds := Some th;
     movement_thresholds :=
       Some {| speed_fast := 3 # 2; direction_variance_panic := 120 |};
     severity_weights :=
       Some {| density_weight := 1 # 2; speed_weight := 1 # 4;
               variance_weight := 1 # 4 |};
     elevation_rules := Some rules;
     capacity_settings := Some {| absolute_max_density := 10 |} |}.

Definition sample_config : Config :=
  sample_config_with sample_thresholds (sample_rules 2).

Definition default_path : string := "config/classification_config.json".

(** A file system with one entry, at the default path. *)
Definition fs_of (state : FileState) : FileSystem :=
  fun path => if String.eqb path default_path then Some state else None.

(** A file system holding the document [cfg] at the default path and
    nothing else. *)
Definition fs_with (cfg : Config) : FileSystem := fs_of (Json (JObject cfg)).

(** The classifier constructed from a complete document. *)
Definition classifier_of (th : list (string * LevelInfo))
    (rules : ElevationRules) : t :=
  {| config := sample_config_with th rules;
     thresholds := th;
     self_movement_thresholds :=
       {| speed_fast := 3 # 2; direction_variance_panic := 120 |};
     self_severity_weights :=
       {| density_weight := 1 # 2; speed_weight := 1 # 4;
          variance_weight := 1 # 4 |};
     self_elevation_rules := rules;
     level_order := standard_level_order;
     classification_history := [] |}.

Definition sample_classifier : t := classifier_of sample_thresholds (sample_rules 2).

(** The sample classifier with the panic rule raising by one level. *)
Definition one_step : t := classifier_of sample_thresholds (sample_rules 1).

(** A classifier whose panic and orderly conditions overlap. *)
Definition overlapping : t := classifier_of sample_thresholds overlapping_rules.



(** The sample rules, raising by one level, with both rules switched
    off. *)
Definition rules_off : ElevationRules :=
  {| panic_detection :=
       {| panic_enabled := false; panic_speed_threshold := 1 # 2;
          panic_variance_threshold := 120; elevation_amount := 1 |};
     orderly_evacuation :=
       {| orderly_enabled := false; orderly_speed_threshold := 6 # 5;
          orderly_variance_threshold := 60 |} |}.

Definition switched_off : t := classifier_of sample_thresholds rules_off.

End Samples.

(** ** Sample objects for the further properties *)

Module MoreSamples.

(** A manager with the default cooldown of 2.5 seconds. *)
Definition new_manager : AlertManager.t := AlertManager.__init__ (5 # 2).

(** The alert of a warning for zone [Z1] triggered at time 1000 on the new
    manager, and the manager after it. *)
Definition first_warning : AlertManager.Alert :=
  {| AlertManager.timestamp := 1000;
     AlertManager.level := "warning";
     AlertManager.zone_id := "Z1";
     AlertManager.severity := 50;
     AlertManager.a_priority := 2;
     AlertManager.a_visual :=
       {| AlertManager.color := "#FFFF00"; AlertManager.flash := true;
          AlertManager.flash_rate := 1; AlertManager.icon := "⚠️";
          AlertManager.message := "HIGH DENSITY WARNING" |};
     AlertManager.a_audio :=
       {| AlertManager.enabled := true; AlertManager.frequency := 800;
          AlertManager.duration := 3 # 10; AlertManager.beeps := 1;
          AlertManager.pattern := [("beep", 3 # 10)] |};
     AlertManager.alert_key := "warning_Z1" |}.

Definition after_first_warning : AlertManager.t :=
  {| AlertManager.cooldown_seconds := 5 # 2;
     AlertManager.alert_config := AlertManager._initialize_alert_config;
     AlertManager.last_alert_time := <["warning_Z1" := 1000%Q]> ∅;
     AlertManager.active_alerts := [first_warning];
     AlertManager.alert_history := [first_warning];
     AlertManager.total_alerts_triggered := 1;
     AlertManager.alerts_by_level := <["warning" := 1%nat]> ∅ |}.

(** Three rows of a classified frame, and a clock that advances by one
    second per row. *)
Definition sample_rows : list AlertManager.ZoneRow :=
  [ {| AlertManager.row_level := "safe"; AlertManager.row_zone_id := "Zone_1_1";
       AlertManager.row_severity := 15 |};
    {| AlertManager.row_level := "critical";
       AlertManager.row_zone_id := "Zone_4_4";
       AlertManager.row_severity := 68 |};
    {| AlertManager.row_level := "critical";
       AlertManager.row_zone_id := "Zone_4_4";
       AlertManager.row_severity := 70 |} ].

Definition sample_clock (i : nat) : Q * Q * Q :=
  let now := (1000 + inject_Z (Z.of_nat i))%Q in (now, now, now).

(** Two zones of an input frame, the second without movement data. *)
Definition sample_zones : list ZoneClassifier.Zone :=
  [ {| ZoneClassifier.z_zone_id := Some "Zone_0_0";
       ZoneClassifier.z_x_coord := 0; ZoneClassifier.z_y_coord := 0;
       ZoneClassifier.z_density := 19 # 5;
       ZoneClassifier.z_movement_speed := Some (2 # 5);
       ZoneClassifier.z_direction_variance := Some 135%Q |};
    {| ZoneClassifier.z_zone_id := Some "Zone_0_1";
       ZoneClassifier.z_x_coord := 0; ZoneClassifier.z_y_coord := 1;
       ZoneClassifier.z_density := 3 # 2;
       ZoneClassifier.z_movement_speed := None;
       ZoneClassifier.z_direction_variance := None |} ].

(** A table whose second band overlaps the first. *)
Definition overlapping_thresholds
    : list (string * ZoneClassifier.LevelInfo) :=
  [ ("safe", Samples.band 0 3 "#00FF00" "Green" "none" false "Normal flow");
    ("moderate",
     Samples.band 2 4 "#7FFF00" "Yellow-Green" "low" false "Increased density") ].

(** A frame with the result columns and one row. *)
Definition one_row_frame : ZoneClassifier.DataFrame :=
  ZoneClassifier.pd_DataFrame
    [ {| ZoneClassifier.r_zone_id := Some "Zone_0_0";
         ZoneClassifier.r_x := 0; ZoneClassifier.r_y := 0;
         ZoneClassifier.r_level := "critical";
         ZoneClassifier.r_base_level := "moderate";
         ZoneClassifier.r_color := "#FF8C00";
         ZoneClassifier.r_severity := 6357 # 100;
         ZoneClassifier.r_density := 19 # 5;
         ZoneClassifier.r_speed := Some (2 # 5);
         ZoneClassifier.r_variance := Some 135%Q;
         ZoneClassifier.r_requires_action := true;
         ZoneClassifier.r_elevated := true;
         ZoneClassifier.r_elevation_reason :=
           Some ZoneClassifier.panic_reason |} ].

(** Two instructions with the fields that the report and the priority
    view read; the texts are shortened. *)
Definition sample_instructions : list InstructionGenerator.Instruction :=
  [ {| InstructionGenerator.zone_id := "Zone_5_5";
       InstructionGenerator.x := 5; InstructionGenerator.y := 5;
       InstructionGenerator.level := "critical";
       InstructionGenerator.severity := 723 # 10;
       InstructionGenerator.primary_exit := "East";
       InstructionGenerator.alternative_exits := ["South"];
       InstructionGenerator.region := "Central";
       InstructionGenerator.instruction_text := "Zone Zone_5_5: CRITICAL";
       InstructionGenerator.icon := "!";
       InstructionGenerator.priority := "CRITICAL" |};
    {| InstructionGenerator.zone_id := "Zone_1_5";
       InstructionGenerator.x := 1; InstructionGenerator.y := 5;
       InstructionGenerator.level := "safe";
       InstructionGenerator.severity := 152 # 10;
       InstructionGenerator.primary_exit := "North";
       InstructionGenerator.alternative_exits := ["East"];
       InstructionGenerator.region := "North";
       InstructionGenerator.instruction_text := "Zone Zone_1_5: NORMAL";
       InstructionGenerator.icon := "-";
       InstructionGenerator.priority := "LOW" |} ].

(** An instruction whose priority is not one of the five counted. *)
Definition urgent_instruction : InstructionGenerator.Instruction :=
  {| InstructionGenerator.zone_id := "Zone_2_1";
     InstructionGenerator.x := 2; InstructionGenerator.y := 1;
     InstructionGenerator.level := "emergency";
     InstructionGenerator.severity := 895 # 10;
     InstructionGenerator.primary_exit := "North";
     InstructionGenerator.alternative_exits := ["West"];
     InstructionGenerator.region := "North";
     InstructionGenerator.instruction_text := "Zone Zone_2_1: EVACUATE";
     InstructionGenerator.icon := "!";
     InstructionGenerator.priority := "URGENT" |}.

End MoreSamples.

(** * Properties *)

(** ** Arithmetic of the primitives *)

Lemma Qlt_bool_iff (a b : Q) : Qlt_bool a b = true <-> (a < b)%Q.
Proof.
  unfold Qlt_bool. rewrite negb_true_iff.
  destruct (Qle_bool b a) eqn:E.
  - apply Qle_bool_iff in E. split; [discriminate | intros H; lra].
  - split; [intros _ | reflexivity].
    destruct (Qlt_le_dec a b) as [Hlt | Hle]; [exact Hlt |].
    apply Qle_bool_iff in Hle. congruence.
Qed.

Lemma Qlt_bool_false (a b : Q) : Qlt_bool a b = false <-> (b <= a)%Q.
Proof.
  unfold Qlt_bool. rewrite negb_false_iff. apply Qle_bool_iff.
Qed.

Lemma py_min_cases (a b : Q) :
  ((b < a)%Q /\ py_min a b = b) \/ ((a <= b)%Q /\ py_min a b = a).
Proof.
  unfold py_min. destruct (Qlt_bool b a) eqn:E.
  - left. split; [by apply Qlt_bool_iff | done].
  - right. split; [by apply Qlt_bool_false | done].
Qed.

Lemma py_max_cases (a b : Q) :
  ((a < b)%Q /\ py_max a b = b) \/ ((b <= a)%Q /\ py_max a b = a).
Proof.
  unfold py_max. destruct (Qlt_bool a b) eqn:E.
  - left. split; [by apply Qlt_bool_iff | done].
  - right. split; [by apply Qlt_bool_false | done].
Qed.

Lemma py_min_idem (a b : Q) : py_min a (py_min a b) = py_min a b.
Proof.
  unfold py_min. destruct (Qlt_bool b a) eqn:E.
  - by rewrite E.
  - assert (Qlt_bool a a = false) as -> by (apply Qlt_bool_false; lra).
    reflexivity.
Qed.

Lemma py_div_nonzero (a b : Q) : ~ (b == 0)%Q -> py_div a b = Ok (a / b)%Q.
Proof.
  intros Hb. unfold py_div. destruct (Qeq_bool b 0) eqn:E; [| done].
  apply Qeq_bool_iff in E. contradiction.
Qed.

Lemma py_div_zero (a b : Q) : (b == 0)%Q -> py_div a b = Raise ZeroDivisionError.
Proof.
  intros Hb. unfold py_div. apply Qeq_bool_iff in Hb. by rewrite Hb.
Qed.

Lemma Qdiv_le_mono (a b c : Q) : (0 < c)%Q -> (a <= b)%Q -> (a / c <= b / c)%Q.
Proof.
  intros Hc Hab. unfold Qdiv. apply Qmult_le_compat_r; [exact Hab |].
  apply Qlt_le_weak, Qinv_lt_0_compat, Hc.
Qed.

Lemma Qdiv_ge_one (a c : Q) : (0 < c)%Q -> (c <= a)%Q -> (1 <= a / c)%Q.
Proof.
  intros Hc Hca. apply Qle_shift_div_l; [exact Hc | lra].
Qed.

Lemma Qdiv_nonneg (a c : Q) : (0 < c)%Q -> (0 <= a)%Q -> (0 <= a / c)%Q.
Proof.
  intros Hc Ha. apply Qle_shift_div_l; [exact Hc | lra].
Qed.

(** ** The severity score without movement data *)

Section DensityOnlyScore.
Import ZoneClassifier.

Variable self : t.
Variable cap : CapacitySettings.
Hypothesis Hcap : capacity_settings (config self) = Some cap.
Hypothesis Hpos : (0 < absolute_max_density cap)%Q.

Local Abbreviation max_density := (absolute_max_density cap).

(** What the function computes when speed and variance are absent. *)
Lemma score_density_only (d : Q) :
  _calculate_severity_score self d None None
  = Ok (py_max 0 (py_min 100 (py_min 100 (d / max_density * 100)))).
Proof.
  unfold _calculate_severity_score. rewrite Hcap. cbn.
  rewrite py_div_nonzero; [done |].
  intros H0. lra.
Qed.

Lemma score_density_only_eq (d : Q) :
  (0 <= d)%Q ->
  (py_max 0 (py_min 100 (py_min 100 (d / max_density * 100)))
   == py_min 100 (d / max_density * 100))%Q.
Proof.
  intros Hd.
  assert (0 <= d / max_density)%Q as Hq by (by apply Qdiv_nonneg).
  rewrite py_min_idem.
  destruct (py_min_cases 100 (d / max_density * 100)) as [[? E] | [? E]];
    rewrite E;
    match goal with
    | |- (py_max 0 ?y == _)%Q =>
        destruct (py_max_cases 0 y) as [[? ->] | [? ->]]
    end; lra.
Qed.

(** C1.  With a positive [absolute_max_density] and speed and variance
    absent, the severity score of every density [d >= 0] is defined, lies
    in [0, 100], equals the density component
    [min(100, d / max_density * 100)], is non-decreasing in [d], and is
    100 for every [d >= max_density]. *)
Theorem severity_score_density_only :
  (forall d, (0 <= d)%Q ->
     exists s, _calculate_severity_score self d None None = Ok s
               /\ (0 <= s)%Q /\ (s <= 100)%Q
               /\ (s == py_min 100 (d / max_density * 100))%Q)
  /\ (forall d1 d2, (0 <= d1)%Q -> (d1 <= d2)%Q ->
        exists s1 s2,
          _calculate_severity_score self d1 None None = Ok s1
          /\ _calculate_severity_score self d2 None None = Ok s2
          /\ (s1 <= s2)%Q)
  /\ (forall d, (max_density <= d)%Q ->
        _calculate_severity_score self d None None = Ok 100%Q).
Proof.
  split; [| split].
  - intros d Hd. eexists. split; [apply score_density_only |].
    rewrite (score_density_only_eq d Hd).
    assert (0 <= d / max_density)%Q by (by apply Qdiv_nonneg).
    destruct (py_min_cases 100 (d / max_density * 100)) as [[? ->] | [? ->]];
      repeat split; lra.
  - intros d1 d2 Hd1 Hd12.
    do 2 eexists. rewrite !score_density_only.
    split; [reflexivity |]. split; [reflexivity |].
    rewrite (score_density_only_eq d1), (score_density_only_eq d2) by lra.
    assert (d1 / max_density <= d2 / max_density)%Q by (by apply Qdiv_le_mono).
    destruct (py_min_cases 100 (d1 / max_density * 100)) as [[? ->] | [? ->]];
      destruct (py_min_cases 100 (d2 / max_density * 100)) as [[? ->] | [? ->]];
      lra.
  - intros d Hd. rewrite score_density_only.
    assert (1 <= d / max_density)%Q by (by apply Qdiv_ge_one).
    assert (Qlt_bool (d / max_density * 100) 100 = false) as E
      by (apply Qlt_bool_false; lra).
    unfold py_min at 2. rewrite E. reflexivity.
Qed.

End DensityOnlyScore.

(** ** The density classifier *)

Section DensityClassifier.
Import ZoneClassifier.

Lemma first_band_no_match (bands : list (string * LevelInfo)) (d : Q) :
  (forall level th, In (level, th) bands ->
     ~ ((density_min th <= d)%Q /\ (d < density_max th)%Q)) ->
  first_band bands d = "emergency".
Proof.
  induction bands as [| [level th] rest IH]; intros Hnone; [reflexivity |].
  cbn [first_band].
  destruct (Qle_bool (density_min th) d && Qlt_bool d (density_max th)) eqn:E.
  - apply andb_prop in E as [E1 E2].
    apply Qle_bool_iff in E1. apply Qlt_bool_iff in E2.
    exfalso. apply (Hnone level th); [by left | done].
  - apply IH. intros level' th' Hin. apply (Hnone level' th'). by right.
Qed.

(** C9.  A density that lies in no configured band
    [density_min <= d < density_max] -- above all of them, below the
    lowest, or in a gap -- is classified ["emergency"]. *)
Theorem unmatched_density_is_emergency (self : t) (d : Q) :
  (forall level th, In (level, th) (thresholds self) ->
     ~ ((density_min th <= d)%Q /\ (d < density_max th)%Q)) ->
  _classify_by_density self d = "emergency".
Proof. apply first_band_no_match. Qed.

End DensityClassifier.

(** ** The movement adjuster *)

Section MovementAdjuster.
Import ZoneClassifier.

Variable self : t.

Local Abbreviation panic := (panic_detection (self_elevation_rules self)).
Local Abbreviation orderly := (orderly_evacuation (self_elevation_rules self)).

Lemma panic_test_true (speed variance : Q) :
  panic_condition self speed variance ->
  Qlt_bool speed (panic_speed_threshold panic)
  && Qlt_bool (panic_variance_threshold panic) variance = true.
Proof.
  intros [H1 H2]. apply andb_true_intro.
  split; by apply Qlt_bool_iff.
Qed.

Lemma panic_test_false (speed variance : Q) :
  ~ panic_condition self speed variance ->
  Qlt_bool speed (panic_speed_threshold panic)
  && Qlt_bool (panic_variance_threshold panic) variance = false.
Proof.
  intros Hn. apply not_true_is_false. intros E.
  apply andb_prop in E as [E1 E2]. apply Hn.
  split; by apply Qlt_bool_iff.
Qed.

Lemma orderly_test_true (speed variance : Q) :
  orderly_condition self speed variance ->
  Qlt_bool (orderly_speed_threshold orderly) speed
  && Qlt_bool variance (orderly_variance_threshold orderly) = true.
Proof.
  intros [H1 H2]. apply andb_true_intro.
  split; by apply Qlt_bool_iff.
Qed.

Lemma orderly_test_false (speed variance : Q) :
  ~ orderly_condition self speed variance ->
  Qlt_bool (orderly_speed_threshold orderly) speed
  && Qlt_bool variance (orderly_variance_threshold orderly) = false.
Proof.
  intros Hn. apply not_true_is_false. intros E.
  apply andb_prop in E as [E1 E2]. apply Hn.
  split; by apply Qlt_bool_iff.
Qed.

(** The three ways out of [_adjust_by_movement]. *)
Lemma adjust_no_panic (base : string) (d s v : Q) :
  panic_enabled panic = false \/ ~ panic_condition self s v ->
  _adjust_by_movement self base d s v = Ok (orderly_check self base s v).
Proof.
  intros H. unfold _adjust_by_movement.
  destruct H as [-> | Hn]; [reflexivity |].
  rewrite (panic_test_false _ _ Hn). by destruct (panic_enabled _).
Qed.

Lemma adjust_panic (base l : string) (d s v : Q) :
  panic_enabled panic = true ->
  panic_condition self s v ->
  _elevate_level self base (elevation_amount panic) = Ok l ->
  _adjust_by_movement self base d s v
  = if String.eqb l base then Ok (orderly_check self base s v)
    else Ok (l, Some panic_reason).
Proof.
  intros Hen Hc Hl. unfold _adjust_by_movement.
  rewrite Hen, (panic_test_true _ _ Hc), Hl. cbn.
  by destruct (String.eqb l base).
Qed.

Lemma orderly_check_fires (base : string) (s v : Q) :
  orderly_enabled orderly = true ->
  orderly_condition self s v ->
  orderly_check self base s v = (base, Some orderly_reason).
Proof.
  intros Hen Hc. unfold orderly_check.
  by rewrite Hen, (orderly_test_true _ _ Hc).
Qed.

Lemma orderly_check_reason (base : string) (s v : Q) :
  orderly_check self base s v = (base, Some orderly_reason)
  \/ orderly_check self base s v = (base, None).
Proof.
  unfold orderly_check.
  destruct (orderly_enabled _); [| by right].
  destruct (_ && _); [by left | by right].
Qed.

Hypothesis Horder : level_order self = standard_level_order.

Lemma elevate_emergency (n : Z) :
  (0 <= n)%Z -> _elevate_level self "emergency" n = Ok "emergency".
Proof.
  intros Hn. unfold _elevate_level. rewrite Horder. cbn.
  replace (Z.min _ _) with 4%Z by lia. reflexivity.
Qed.

(** C2, as the code has it.  With the standard level order: when panic
    detection is enabled with elevation amount 1, a ["warning"] base level
    with speed below the panic speed threshold and variance above the panic
    variance threshold is adjusted to ["critical"], the reason starting
    with "Panic indicators detected"; and when orderly-evacuation
    detection is enabled, speed above the orderly speed threshold and
    variance below the orderly variance threshold, the panic condition not
    holding, the base level comes back unchanged with reason
    "Orderly evacuation detected".  A rule that is switched off never
    fires: with panic detection disabled the base level comes back,
    whatever the movement, with the orderly reason or none; with
    orderly-evacuation detection disabled and the panic condition not
    holding, the base level comes back with no reason. *)
Theorem adjuster_warning_panic_and_orderly (d s v : Q) :
  (panic_enabled panic = true ->
   elevation_amount panic = 1%Z ->
   panic_condition self s v ->
   _adjust_by_movement self "warning" d s v = Ok ("critical", Some panic_reason)
   /\ String.prefix "Panic indicators detected" panic_reason = true)
  /\ (orderly_enabled orderly = true ->
      orderly_condition self s v ->
      ~ panic_condition self s v ->
      forall base,
        _adjust_by_movement self base d s v = Ok (base, Some orderly_reason)
        /\ orderly_reason = "Orderly evacuation detected")
  /\ (panic_enabled panic = false ->
      forall base,
        (_adjust_by_movement self base d s v = Ok (base, Some orderly_reason)
         /\ orderly_enabled orderly = true /\ orderly_condition self s v)
        \/ (_adjust_by_movement self base d s v = Ok (base, None)
            /\ (orderly_enabled orderly = false
                \/ ~ orderly_condition self s v)))
  /\ (orderly_enabled orderly = false ->
      ~ panic_condition self s v ->
      forall base, _adjust_by_movement self base d s v = Ok (base, None)).
Proof.
  split; [| split; [| split]].
  - intros Hen Hamt Hc. split; [| reflexivity].
    rewrite (adjust_panic "warning" "critical"); try done.
    unfold _elevate_level. rewrite Horder, Hamt. reflexivity.
  - intros Hen Hc Hn base. split; [| reflexivity].
    rewrite adjust_no_panic by (by right).
    by rewrite orderly_check_fires.
  - intros Hoff base. rewrite adjust_no_panic by (by left).
    unfold orderly_check. destruct (orderly_enabled orderly) eqn:Hen;
      [| right; split; [reflexivity | by left]].
    destruct (Qlt_bool (orderly_speed_threshold orderly) s
              && Qlt_bool v (orderly_variance_threshold orderly)) eqn:E.
    + left. split; [reflexivity | split; [reflexivity |]].
      apply andb_prop in E as [E1 E2]. split; by apply Qlt_bool_iff.
    + right. split; [reflexivity | right]. intros Hc.
      rewrite (orderly_test_true _ _ Hc) in E. discriminate.
  - intros Hoff Hn base. rewrite adjust_no_panic by (by right).
    unfold orderly_check. by rewrite Hoff.
Qed.

Lemma severity_defined (d s v : Q) (cap : CapacitySettings) :
  capacity_settings (config self) = Some cap ->
  ~ (absolute_max_density cap == 0)%Q ->
  ~ (speed_fast (self_movement_thresholds self) == 0)%Q ->
  ~ (direction_variance_panic (self_movement_thresholds self) == 0)%Q ->
  exists q, _calculate_severity_score self d (Some s) (Some v) = Ok q.
Proof.
  intros Hcap Hd Hs Hv. unfold _calculate_severity_score.
  rewrite Hcap. cbn.
  rewrite (py_div_nonzero d _ Hd). cbn.
  rewrite (py_div_nonzero _ _ Hs). cbn.
  rewrite (py_div_nonzero _ _ Hv). cbn.
  by eexists.
Qed.

(** C3.  With the standard level order, elevating ["emergency"] by a
    positive amount gives ["emergency"]; and for a zone whose base level
    is ["emergency"] and whose movement satisfies the panic condition
    (rule enabled, positive amount), [classify_zone] returns a record with
    level ["emergency"], [elevated = false], and an elevation reason that
    is not the panic reason (it is the orderly reason or none). *)
Theorem elevation_clamped_at_emergency :
  (forall n, (0 < n)%Z -> _elevate_level self "emergency" n = Ok "emergency")
  /\ (forall d s v zone_id cap info,
        panic_enabled panic = true ->
        (0 < elevation_amount panic)%Z ->
        panic_condition self s v ->
        _classify_by_density self d = "emergency" ->
        capacity_settings (config self) = Some cap ->
        ~ (absolute_max_density cap == 0)%Q ->
        ~ (speed_fast (self_movement_thresholds self) == 0)%Q ->
        ~ (direction_variance_panic (self_movement_thresholds self) == 0)%Q ->
        assoc_lookup "emergency" (thresholds self) = Some info ->
        exists record self',
          classify_zone self d (Some s) (Some v) zone_id = Ok (record, self')
          /\ c_base_level record = "emergency"
          /\ c_level record = "emergency"
          /\ c_elevated record = false
          /\ c_elevation_reason record <> Some panic_reason
          /\ (c_elevation_reason record = Some orderly_reason
              \/ c_elevation_reason record = None)).
Proof.
  split; [intros n Hn; apply elevate_emergency; lia |].
  intros d s v zone_id cap info Hen Hamt Hc Hbase Hcap Hd Hs Hv Hinfo.
  destruct (severity_defined d s v cap Hcap Hd Hs Hv) as [q Hq].
  unfold classify_zone. rewrite Hbase, Hq. cbn.
  rewrite (adjust_panic "emergency" "emergency" d s v Hen Hc)
    by (apply elevate_emergency; lia).
  cbn.
  destruct (orderly_check_reason "emergency" s v) as [-> | ->]; cbn;
    unfold dict_get; rewrite Hinfo; cbn;
    do 2 eexists; (split; [reflexivity |]); cbn;
    repeat split; try done; first [by left | by right].
Qed.

(** C4, as the code has it.  With both rules enabled and the elevation of
    the base level defined, say [l]: when the panic condition holds and
    [l] differs from the base level, the panic result [(l, panic reason)]
    is returned, whether or not the orderly condition holds too; and the
    orderly result [(base, orderly reason)] is returned exactly when the
    orderly condition holds and either the panic condition does not hold
    or [l] equals the base level. *)
Theorem panic_precedes_orderly_when_elevating (base l : string) (d s v : Q) :
  panic_enabled panic = true ->
  orderly_enabled orderly = true ->
  _elevate_level self base (elevation_amount panic) = Ok l ->
  (panic_condition self s v -> l <> base ->
   _adjust_by_movement self base d s v = Ok (l, Some panic_reason))
  /\ (_adjust_by_movement self base d s v = Ok (base, Some orderly_reason)
      <-> orderly_condition self s v
          /\ (~ panic_condition self s v \/ l = base)).
Proof.
  intros Hp Ho Hl.
  assert (forall b, orderly_check self b s v = (b, Some orderly_reason)
                    <-> orderly_condition self s v) as Hchk.
  { intros b. split; [| by apply orderly_check_fires].
    unfold orderly_check. rewrite Ho. cbn.
    destruct (_ && _) eqn:E; [| discriminate]. intros _.
    apply andb_prop in E as [E1 E2]. split; by apply Qlt_bool_iff. }
  assert (Decision (panic_condition self s v)) as Hdec.
  { unfold panic_condition, Decision.
    destruct (Qlt_le_dec s (panic_speed_threshold (panic_detection (self_elevation_rules self))));
      destruct (Qlt_le_dec (panic_variance_threshold (panic_detection (self_elevation_rules self))) v);
      first [left; split; assumption | right; intros [? ?]; lra]. }
  split.
  - intros Hc Hne. rewrite (adjust_panic base l d s v Hp Hc Hl).
    destruct (String.eqb_spec l base); [contradiction | reflexivity].
  - destruct Hdec as [Hc | Hn].
    + rewrite (adjust_panic base l d s v Hp Hc Hl).
      destruct (String.eqb_spec l base) as [-> | Hne].
      * split.
        -- intros [= E]. split; [by apply (Hchk base) | by right].
        -- intros [Hoc _]. f_equal. by apply Hchk.
      * split; [discriminate |].
        intros [_ [Hn | ->]]; contradiction.
    + rewrite adjust_no_panic by (by right). split.
      * intros [= E]. split; [by apply (Hchk base) | by left].
      * intros [Hoc _]. f_equal. by apply Hchk.
Qed.

End MovementAdjuster.

(** ** Construction *)

Section Construction.
Import ZoneClassifier.


End Construction.

(** ** Triggering alerts *)

Section Trigger.
Import AlertManager.

Lemma alerting_level_iff (level : string) :
  alerting_level level = true
  <-> In level ["warning"; "critical"; "emergency"].
Proof.
  unfold alerting_level. rewrite existsb_exists. split.
  - intros (x & Hin & E). apply String.eqb_eq in E. by subst.
  - intros Hin. exists level. split; [done | apply String.eqb_refl].
Qed.

Lemma alerting_level_configured (level : string) :
  alerting_level level = true ->
  exists c, dict_get _initialize_alert_config level = Ok c.
Proof.
  intros H. apply alerting_level_iff in H. cbn in H.
  destruct H as [<- | [<- | [<- | []]]]; by eexists.
Qed.

(** The ledger key determines the level and the zone, for the levels that
    pass the first test of [trigger_alert]. *)
Lemma alert_key_injective (l1 l2 z1 z2 : string) :
  alerting_level l1 = true -> alerting_level l2 = true ->
  l1 ++ "_" ++ z1 = l2 ++ "_" ++ z2 -> l1 = l2 /\ z1 = z2.
Proof.
  intros H1 H2. apply alerting_level_iff in H1, H2. cbn in H1, H2.
  destruct H1 as [<- | [<- | [<- | []]]];
    destruct H2 as [<- | [<- | [<- | []]]];
    cbn; intros E; first [discriminate E | by injection E].
Qed.

Variable self : t.
Hypothesis Hconfig : alert_config self = _initialize_alert_config.

Variables now_check now_alert now_ledger : Q.
Variables level zone_id : string.
Variable severity : Q.

Local Abbreviation key := (level ++ "_" ++ zone_id).

(** The gate of [trigger_alert]: an alerting level, and the cooldown
    elapsed since the ledger's timestamp for the key. *)
Local Abbreviation passes_gate :=
  (In level ["warning"; "critical"; "emergency"]
   /\ cooldown_elapsed self now_check key).

Lemma gate_decide :
  (alerting_level level && check_cooldown self now_check key = true
   /\ passes_gate)
  \/ (alerting_level level && check_cooldown self now_check key = false
      /\ ~ passes_gate).
Proof.
  unfold cooldown_elapsed.
  destruct (alerting_level level) eqn:E1; cbn [andb].
  - destruct (check_cooldown self now_check key) eqn:E2.
    + left. split; [done |]. split; [by apply alerting_level_iff |].
      by apply Qle_bool_iff in E2.
    + right. split; [done |]. intros [_ H].
      apply Qle_bool_iff in H. unfold check_cooldown in E2.
      congruence.
  - right. split; [done |]. intros [H _].
    apply alerting_level_iff in H. congruence.
Qed.

(** C5.  [trigger_alert] returns an alert exactly when the level is
    warning, critical or emergency and the time elapsed since the ledger's
    timestamp for the key is at least the cooldown; otherwise it returns
    [None] and leaves the object as it was; when it returns an alert it
    has stored the ledger timestamp under the key, appended the alert to
    the active list and to the history, and incremented the counters. *)
Theorem trigger_alert_gate :
  ((exists alert self',
      trigger_alert self now_check now_alert now_ledger level zone_id severity
      = Ok (Some alert, self'))
   <-> passes_gate)
  /\ (~ passes_gate ->
      trigger_alert self now_check now_alert now_ledger level zone_id severity
      = Ok (None, self))
  /\ (forall alert self',
        trigger_alert self now_check now_alert now_ledger level zone_id severity
        = Ok (Some alert, self') ->
        AlertManager.level alert = level
        /\ AlertManager.zone_id alert = zone_id
        /\ AlertManager.severity alert = severity
        /\ timestamp alert = now_alert
        /\ alert_key alert = key
        /\ last_alert_time self' = <[key := now_ledger]> (last_alert_time self)
        /\ active_alerts self' = (active_alerts self ++ [alert])%list
        /\ alert_history self' = (alert_history self ++ [alert])%list
        /\ total_alerts_triggered self' = S (total_alerts_triggered self)
        /\ alerts_by_level self'
           = <[level := S (default 0%nat (alerts_by_level self !! level))]>
               (alerts_by_level self)
        /\ cooldown_seconds self' = cooldown_seconds self
        /\ alert_config self' = alert_config self).
Proof.
  unfold trigger_alert.
  destruct gate_decide as [[E Hgate] | [E Hgate]].
  - apply andb_prop in E as [E1 E2]. rewrite E1, E2. cbn.
    destruct (alerting_level_configured level E1) as [c Hc].
    rewrite Hconfig, Hc. cbn.
    split; [split; [done | intros _; by do 2 eexists] |].
    split; [intros Hn; contradiction |].
    intros alert self' [= <- <-]. cbn. by repeat split.
  - assert (trigger_alert self now_check now_alert now_ledger level zone_id
              severity = Ok (None, self)) as Hres.
    { unfold trigger_alert.
      apply andb_false_iff in E as [-> | E2]; [done |].
      destruct (negb (alerting_level level)); [done |].
      rewrite E2. reflexivity. }
    unfold trigger_alert in Hres. rewrite Hres.
    split; [split; [intros (? & ? & [=]) | intros H; contradiction] |].
    split; [done | intros ? ? [=]].
Qed.

End Trigger.

(** ** The alert summary *)

Section AlertSummaries.
Import AlertManager.

(** *** Counters *)

Lemma sum_counts_insert_fresh (d : gmap string nat) (k : string) (n : nat) :
  d !! k = None -> sum_counts (<[k := n]> d) = (n + sum_counts d)%nat.
Proof.
  intros Hk. unfold sum_counts.
  rewrite map_fold_insert_L; [done | intros; lia | done].
Qed.

Lemma sum_counts_bump (d : gmap string nat) (k : string) (n : nat) :
  d !! k = Some n -> sum_counts (<[k := S n]> d) = S (sum_counts d).
Proof.
  intros Hk.
  rewrite <- (insert_delete_eq d k (S n)).
  rewrite sum_counts_insert_fresh by apply lookup_delete_eq.
  rewrite <- (insert_delete_id d k n Hk) at 2.
  rewrite sum_counts_insert_fresh by apply lookup_delete_eq.
  reflexivity.
Qed.

Lemma step_by_level (acc : SummaryAcc) (alert : Alert) :
  dom (acc_by_level (summary_step acc alert)) = dom (acc_by_level acc)
  /\ sum_counts (acc_by_level (summary_step acc alert))
     = ((if counted (acc_by_level acc) alert then 1 else 0)
        + sum_counts (acc_by_level acc))%nat
  /\ acc_total_alerts (summary_step acc alert) = acc_total_alerts acc.
Proof.
  assert (forall by',
    by' = match acc_by_level acc !! level alert with
          | Some n => <[level alert := S n]> (acc_by_level acc)
          | None => acc_by_level acc
          end ->
    dom by' = dom (acc_by_level acc)
    /\ sum_counts by'
       = ((if counted (acc_by_level acc) alert then 1 else 0)
          + sum_counts (acc_by_level acc))%nat) as Hby.
  { intros by' ->. unfold counted.
    destruct (acc_by_level acc !! level alert) as [n |] eqn:E.
    - rewrite bool_decide_eq_true_2 by done. split.
      + by apply dom_insert_lookup_L.
      + by apply sum_counts_bump.
    - rewrite bool_decide_eq_false_2 by (intros [? [=]]). done. }
  unfold summary_step.
  destruct (Qlt_bool _ _); cbn;
    (split; [by apply Hby | split; [by apply Hby | reflexivity]]).
Qed.

Lemma fold_by_level (alerts : list Alert) (acc : SummaryAcc) :
  dom (acc_by_level (fold_left summary_step alerts acc))
  = dom (acc_by_level acc)
  /\ sum_counts (acc_by_level (fold_left summary_step alerts acc))
     = (length (List.filter (counted (acc_by_level acc)) alerts)
        + sum_counts (acc_by_level acc))%nat
  /\ acc_total_alerts (fold_left summary_step alerts acc)
     = acc_total_alerts acc.
Proof.
  revert acc. induction alerts as [| a alerts IH]; intros acc; [done |].
  cbn [fold_left List.filter].
  destruct (IH (summary_step acc a)) as (Hdom & Hsum & Htot).
  destruct (step_by_level acc a) as (Hdom1 & Hsum1 & Htot1).
  split; [congruence |]. split; [| congruence].
  rewrite Hsum, Hsum1.
  assert (forall b, counted (acc_by_level (summary_step acc a)) b
                    = counted (acc_by_level acc) b) as Hc.
  { intros b. unfold counted. apply bool_decide_ext.
    by rewrite <- !elem_of_dom, Hdom1. }
  rewrite (filter_ext _ _ Hc).
  destruct (counted (acc_by_level acc) a); cbn [length]; lia.
Qed.

Lemma counted_init (alerts : list Alert) (alert : Alert) :
  counted (acc_by_level (summary_init alerts)) alert
  = alerting_level (level alert).
Proof.
  unfold counted, summary_init, alerting_level, acc_by_level.
  cbn [existsb orb].
  destruct (String.eqb_spec (level alert) "warning") as [-> | H1];
    [by rewrite lookup_insert_eq |].
  destruct (String.eqb_spec (level alert) "critical") as [-> | H2];
    [rewrite lookup_insert_ne by done; by rewrite lookup_insert_eq |].
  destruct (String.eqb_spec (level alert) "emergency") as [-> | H3];
    [rewrite !lookup_insert_ne by done; by rewrite lookup_insert_eq |].
  rewrite !lookup_insert_ne, lookup_empty by done.
  apply bool_decide_eq_false_2. intros [? [=]].
Qed.

Lemma sum_counts_init (alerts : list Alert) :
  sum_counts (acc_by_level (summary_init alerts)) = 0%nat.
Proof.
  unfold summary_init. cbn.
  rewrite !sum_counts_insert_fresh; [done | done | |].
  - by rewrite lookup_insert_ne.
  - by rewrite !lookup_insert_ne.
Qed.

(** What the two fields of the summary hold, for any list. *)
Lemma summary_counts (alerts : list Alert) :
  sum_counts (by_level (generate_alert_summary alerts))
  = length (List.filter (fun a => alerting_level (level a)) alerts)
  /\ total_alerts (generate_alert_summary alerts) = length alerts.
Proof.
  unfold generate_alert_summary. cbn.
  destruct (fold_by_level alerts (summary_init alerts)) as (_ & Hsum & Htot).
  rewrite Hsum, Htot, sum_counts_init. split; [| done].
  rewrite (filter_ext _ _ (counted_init alerts)), Nat.add_0_r.
  reflexivity.
Qed.

(** C8, as the code has it.  The per-level counts of the summary add up to
    the number of alerts whose level is warning, critical or emergency;
    this is at most [total_alerts], and equals [total_alerts] when every
    alert of the list has one of these three levels. *)
Theorem summary_counts_consistent (alerts : list Alert) :
  sum_counts (by_level (generate_alert_summary alerts))
  = length (List.filter (fun a => alerting_level (level a)) alerts)
  /\ (sum_counts (by_level (generate_alert_summary alerts))
      <= total_alerts (generate_alert_summary alerts))%nat
  /\ ((forall a, In a alerts ->
         In (level a) ["warning"; "critical"; "emergency"]) ->
      sum_counts (by_level (generate_alert_summary alerts))
      = total_alerts (generate_alert_summary alerts)).
Proof.
  destruct (summary_counts alerts) as [-> ->].
  split; [done |]. split; [apply List.filter_length_le |].
  intros Hall. f_equal. apply forallb_filter_id.
  apply forallb_forall. intros a Ha. by apply alerting_level_iff, Hall.
Qed.

(** *** The highest-severity alert *)

(** Scanning [alerts] from the state [acc] either leaves the running
    maximum alone, every alert being at or below it, or ends on the first
    alert of the list that attains the greatest severity, which is above
    the maximum the scan started from. *)
Lemma fold_highest (alerts : list Alert) (acc : SummaryAcc) :
  let acc' := fold_left summary_step alerts acc in
  (acc_highest_priority acc' = acc_highest_priority acc
   /\ acc_highest_severity acc' = acc_highest_severity acc
   /\ forall b, In b alerts -> (severity b <= acc_highest_severity acc)%Q)
  \/ (exists pre a post,
        alerts = (pre ++ a :: post)%list
        /\ acc_highest_priority acc' = Some a
        /\ acc_highest_severity acc' = severity a
        /\ (acc_highest_severity acc < severity a)%Q
        /\ (forall b, In b pre -> (severity b < severity a)%Q)
        /\ (forall b, In b post -> (severity b <= severity a)%Q)).
Proof.
  induction alerts as [| x l IH] using rev_ind; cbn zeta.
  - left. by repeat split.
  - rewrite fold_left_app. cbn [fold_left].
    set (mid := fold_left summary_step l acc) in *.
    assert (Hstep :
      (Qlt_bool (acc_highest_severity mid) (severity x) = true
       /\ acc_highest_priority (summary_step mid x) = Some x
       /\ acc_highest_severity (summary_step mid x) = severity x)
      \/ (Qlt_bool (acc_highest_severity mid) (severity x) = false
          /\ acc_highest_priority (summary_step mid x)
             = acc_highest_priority mid
          /\ acc_highest_severity (summary_step mid x)
             = acc_highest_severity mid)).
    { unfold summary_step.
      destruct (Qlt_bool (acc_highest_severity mid) (severity x));
        [left | right]; by repeat split. }
    destruct Hstep as [(Hlt & Hp & Hs) | (Hge & Hp & Hs)].
    + apply Qlt_bool_iff in Hlt. right. exists l, x, []. rewrite Hp, Hs.
      destruct IH as [(_ & Hs0 & Hall) | (pre & a & post & -> & _ & Hs0 & Hgt & Hpre & Hpost)].
      * rewrite Hs0 in Hlt. repeat split; try done.
        intros b Hb. specialize (Hall b Hb). lra.
      * rewrite Hs0 in Hlt. repeat split; try done; [lra |].
        intros b Hb. apply in_app_or in Hb as [Hb | [<- | Hb]].
        -- specialize (Hpre b Hb). lra.
        -- done.
        -- specialize (Hpost b Hb). lra.
    + apply Qlt_bool_false in Hge. rewrite Hp, Hs.
      destruct IH as [(Hp0 & Hs0 & Hall) | (pre & a & post & -> & Hp0 & Hs0 & Hgt & Hpre & Hpost)].
      * left. repeat split; try done.
        intros b Hb. apply in_app_or in Hb as [Hb | [<- | []]].
        -- by apply Hall.
        -- by rewrite <- Hs0.
      * right. exists pre, a, (post ++ [x])%list.
        rewrite <- app_assoc. repeat split; try done.
        intros b Hb. apply in_app_or in Hb as [Hb | [<- | []]].
        -- by apply Hpost.
        -- by rewrite <- Hs0.
Qed.

(** C10.  When the summary reports a [highest_priority] alert, it is the
    first alert of the list whose severity is the greatest of the list
    (every earlier alert is strictly below it, every later one at or
    below it), [highest_severity] is its severity, and that severity is
    positive; when it reports none, no alert has a positive severity.
    The alert need not have the highest level: a list exists where a
    warning is reported although an emergency alert of higher priority and
    lower severity is present. *)
Theorem highest_priority_is_first_max_severity :
  (forall alerts a,
     highest_priority (generate_alert_summary alerts) = Some a ->
     highest_severity (generate_alert_summary alerts) = severity a
     /\ (0 < severity a)%Q
     /\ exists pre post,
          alerts = (pre ++ a :: post)%list
          /\ (forall b, In b pre -> (severity b < severity a)%Q)
          /\ (forall b, In b post -> (severity b <= severity a)%Q))
  /\ (forall alerts,
        highest_priority (generate_alert_summary alerts) = None ->
        forall b, In b alerts -> (severity b <= 0)%Q)
  /\ (exists alerts w e,
        highest_priority (generate_alert_summary alerts) = Some w
        /\ level w = "warning"
        /\ In e alerts /\ level e = "emergency"
        /\ (a_priority w < a_priority e)%Z
        /\ (severity e < severity w)%Q).
Proof.
  split; [| split].
  - intros alerts a. unfold generate_alert_summary. cbn.
    destruct (fold_highest alerts (summary_init alerts))
      as [(Hp & _ & _) | (pre & a' & post & Heq & Hp & Hs & Hgt & Hpre & Hpost)];
      rewrite Hp; [discriminate |].
    intros [= <-]. cbn in Hgt. split; [done |]. split; [done |].
    by exists pre, post.
  - intros alerts. unfold generate_alert_summary. cbn.
    destruct (fold_highest alerts (summary_init alerts))
      as [(_ & _ & Hall) | (pre & a' & post & _ & Hp & _)];
      rewrite ?Hp; [| discriminate].
    intros _. exact Hall.
  - exists [sample_alert "emergency" "Zone_5_5" 40 4;
            sample_alert "warning" "Zone_3_3" 55 2],
           (sample_alert "warning" "Zone_3_3" 55 2),
           (sample_alert "emergency" "Zone_5_5" 40 4).
    repeat split; try done. by left.
Qed.

End AlertSummaries.

(** ** The batch interface on an empty frame *)

Section EmptyBatch.
Import ZoneClassifier Samples.

(** C6.  An empty batch is classified to a frame without rows and the
    object is unchanged; that frame, built by [pd.DataFrame([])], has no
    columns, and summarising it raises [KeyError] on the first column
    read, ['severity'].  On an empty frame that does have the columns the
    counts and percentages are 0, and the mean and the maximum severity
    are NaN. *)
Theorem empty_batch_summary (self : t) :
  (classify_all_zones self [] = Ok (pd_DataFrame [], self)
   /\ rows (pd_DataFrame []) = [])
  /\ get_classification_summary self (pd_DataFrame [])
     = Raise (KeyError "severity")
  /\ get_classification_summary sample_classifier empty_with_columns
     = Ok {| total_zones := 0;
             level_counts :=
               [("safe", 0%nat); ("moderate", 0%nat); ("warning", 0%nat);
                ("critical", 0%nat); ("emergency", 0%nat)];
             level_percentages :=
               [("safe", 0%Q); ("moderate", 0%Q); ("warning", 0%Q);
                ("critical", 0%Q); ("emergency", 0%Q)];
             average_severity := NaN;
             max_severity := NaN;
             zones_requiring_action := 0;
             elevated_zones := 0 |}.
Proof. repeat split. Qed.

End EmptyBatch.

(** ** Instances and counterexamples *)

Section Instances.
Import ZoneClassifier Samples.

Lemma severity_score_density_only_witness :
  capacity_settings (config sample_classifier)
  = Some {| absolute_max_density := 10 |}
  /\ (0 < 10)%Q
  /\ (exists s, _calculate_severity_score sample_classifier 4 None None = Ok s
                /\ (0 <= s)%Q /\ (s <= 100)%Q
                /\ (s == py_min 100 (4 / 10 * 100))%Q)
  /\ _calculate_severity_score sample_classifier 12 None None = Ok 100%Q.
Proof.
  assert (0 < 10)%Q as Hpos by reflexivity.
  pose proof (severity_score_density_only sample_classifier
                {| absolute_max_density := 10 |} eq_refl Hpos)
    as (Hrange & _ & Hconst).
  split; [reflexivity |]. split; [exact Hpos |]. split.
  - apply (Hrange 4%Q). discriminate.
  - apply (Hconst 12%Q). discriminate.
Defined.

Lemma adjuster_warning_panic_and_orderly_witness :
  (_adjust_by_movement one_step "warning" (21 # 5) (2 # 5) 135
   = Ok ("critical", Some panic_reason)
   /\ String.prefix "Panic indicators detected" panic_reason = true)
  /\ (_adjust_by_movement one_step "warning" 4 (8 # 5) 50
      = Ok ("warning", Some orderly_reason)
      /\ orderly_reason = "Orderly evacuation detected")
  /\ _adjust_by_movement switched_off "warning" 4 (8 # 5) 50
     = Ok ("warning", None).
Proof.
  split; [| split].
  - apply (proj1 (adjuster_warning_panic_and_orderly one_step eq_refl
                    (21 # 5) (2 # 5) 135)); [reflexivity | reflexivity |].
    split; reflexivity.
  - apply (proj1 (proj2 (adjuster_warning_panic_and_orderly one_step eq_refl
                           4 (8 # 5) 50)));
      [reflexivity | split; reflexivity |].
    intros [H _]. discriminate H.
  - apply (proj2 (proj2 (proj2 (adjuster_warning_panic_and_orderly
                                  switched_off eq_refl 4 (8 # 5) 50))));
      [reflexivity |].
    intros [H _]. discriminate H.
Defined.

(** Everything the claim asks for holds -- base level ["warning"],
    elevation amount 1, speed below the panic speed threshold and variance
    above the panic variance threshold; then speed above the orderly speed
    threshold and variance below the orderly variance threshold, the panic
    condition not holding -- but the rules are switched off in the
    document: the adjuster returns the base level with no reason both
    times. *)
Lemma adjuster_disabled_rules_counterexample :
  level_order switched_off = standard_level_order
  /\ elevation_amount (panic_detection (self_elevation_rules switched_off))
     = 1%Z
  /\ panic_condition switched_off (2 # 5) 135
  /\ _adjust_by_movement switched_off "warning" (21 # 5) (2 # 5) 135
     = Ok ("warning", None)
  /\ _adjust_by_movement switched_off "warning" (21 # 5) (2 # 5) 135
     <> Ok ("critical", Some panic_reason)
  /\ orderly_condition switched_off (8 # 5) 50
  /\ ~ panic_condition switched_off (8 # 5) 50
  /\ _adjust_by_movement switched_off "warning" 4 (8 # 5) 50
     = Ok ("warning", None)
  /\ _adjust_by_movement switched_off "warning" 4 (8 # 5) 50
     <> Ok ("warning", Some orderly_reason).
Proof.
  repeat split; try reflexivity; try discriminate.
  intros [H _]. discriminate H.
Qed.

Lemma elevation_clamped_at_emergency_witness :
  _elevate_level sample_classifier "emergency" 2 = Ok "emergency"
  /\ exists record self',
       classify_zone sample_classifier (39 # 5) (Some (3 # 10)) (Some 150%Q)
                     (Some "Zone_5_5") = Ok (record, self')
       /\ c_base_level record = "emergency"
       /\ c_level record = "emergency"
       /\ c_elevated record = false
       /\ c_elevation_reason record <> Some panic_reason
       /\ (c_elevation_reason record = Some orderly_reason
           \/ c_elevation_reason record = None).
Proof.
  destruct (elevation_clamped_at_emergency sample_classifier eq_refl)
    as [Helev Hrec].
  split; [apply Helev; reflexivity |].
  apply (Hrec (39 # 5) (3 # 10) 150%Q (Some "Zone_5_5")
           {| absolute_max_density := 10 |}
           (band 7 100 "#FF0000" "Red" "critical" true "Dangerous crush risk"));
    try reflexivity; try discriminate.
  split; reflexivity.
Defined.

Lemma panic_precedes_orderly_when_elevating_witness :
  panic_condition overlapping (3 # 2) 50
  /\ orderly_condition overlapping (3 # 2) 50
  /\ _adjust_by_movement overlapping "warning" 5 (3 # 2) 50
     = Ok ("critical", Some panic_reason)
  /\ (_adjust_by_movement overlapping "emergency" 8 (3 # 2) 50
      = Ok ("emergency", Some orderly_reason)
      <-> orderly_condition overlapping (3 # 2) 50
          /\ (~ panic_condition overlapping (3 # 2) 50
              \/ "emergency" = "emergency")).
Proof.
  split; [split; reflexivity |]. split; [split; reflexivity |]. split.
  - apply (panic_precedes_orderly_when_elevating overlapping
             "warning" "critical" 5 (3 # 2) 50 eq_refl eq_refl eq_refl);
      [split; reflexivity | discriminate].
  - apply (panic_precedes_orderly_when_elevating overlapping
             "emergency" "emergency" 8 (3 # 2) 50 eq_refl eq_refl eq_refl).
Defined.

(** Both rules enabled, both conditions true, base level ["emergency"]:
    the orderly rule's result comes back, not the panic rule's. *)
Lemma panic_precedence_counterexample :
  panic_enabled (panic_detection (self_elevation_rules overlapping)) = true
  /\ orderly_enabled (orderly_evacuation (self_elevation_rules overlapping)) = true
  /\ panic_condition overlapping (3 # 2) 50
  /\ orderly_condition overlapping (3 # 2) 50
  /\ _adjust_by_movement overlapping "emergency" 8 (3 # 2) 50
     = Ok ("emergency", Some orderly_reason)
  /\ forall l, _adjust_by_movement overlapping "emergency" 8 (3 # 2) 50
               <> Ok (l, Some panic_reason).
Proof.
  repeat split; try reflexivity. intros l. discriminate.
Qed.

Lemma unmatched_density_is_emergency_witness :
  (forall level th, In (level, th) (thresholds sample_classifier) ->
     ~ ((density_min th <= -1)%Q /\ (-1 < density_max th)%Q))
  /\ _classify_by_density sample_classifier (-1) = "emergency".
Proof.
  assert (forall level th, In (level, th) (thresholds sample_classifier) ->
            ~ ((density_min th <= -1)%Q /\ (-1 < density_max th)%Q)) as Hnone.
  { intros level th Hin [Hlo _]. cbn in Hin.
    repeat (destruct Hin as [[= <- <-] | Hin];
            [apply Hlo; reflexivity |]).
    destruct Hin. }
  split; [exact Hnone |].
  apply (unmatched_density_is_emergency sample_classifier (-1) Hnone).
Defined.



End Instances.

(** ** Instances for the alert manager *)

Section AlertInstances.
Import AlertManager.

Lemma trigger_alert_gate_witness :
  alert_config (__init__ (5 # 2)) = _initialize_alert_config
  /\ ((exists alert self',
         trigger_alert (__init__ (5 # 2)) 1000 1000 1000 "warning" "Z1" 50
         = Ok (Some alert, self'))
      <-> In "warning" ["warning"; "critical"; "emergency"]
          /\ cooldown_elapsed (__init__ (5 # 2)) 1000 ("warning" ++ "_" ++ "Z1"))
  /\ trigger_alert (__init__ (5 # 2)) 1000 1000 1000 "safe" "Z1" 50
     = Ok (None, __init__ (5 # 2)).
Proof.
  split; [reflexivity |]. split.
  - apply (trigger_alert_gate (__init__ (5 # 2)) eq_refl 1000 1000 1000
             "warning" "Z1" 50).
  - apply (trigger_alert_gate (__init__ (5 # 2)) eq_refl 1000 1000 1000
             "safe" "Z1" 50).
    intros [Hin _]. cbn in Hin.
    destruct Hin as [H | [H | [H | []]]]; discriminate H.
Defined.

(** A list holding one ["safe"] alert: the per-level counts add up to 0,
    the total is 1. *)
Lemma summary_counts_mismatch :
  (forall a, In a one_safe_alert ->
     In (level a) ["safe"; "moderate"; "warning"; "critical"; "emergency"])
  /\ sum_counts (by_level (generate_alert_summary one_safe_alert)) = 0%nat
  /\ total_alerts (generate_alert_summary one_safe_alert) = 1%nat
  /\ sum_counts (by_level (generate_alert_summary one_safe_alert))
     <> total_alerts (generate_alert_summary one_safe_alert).
Proof.
  destruct (summary_counts one_safe_alert) as [Hs Ht].
  rewrite Hs, Ht. cbn. repeat split; [| discriminate].
  intros a [<- | []]. by left.
Qed.

Lemma summary_counts_consistent_witness :
  (forall a, In a emergency_then_warning ->
     In (level a) ["warning"; "critical"; "emergency"])
  /\ sum_counts (by_level (generate_alert_summary emergency_then_warning))
     = total_alerts (generate_alert_summary emergency_then_warning).
Proof.
  assert (forall a, In a emergency_then_warning ->
                    In (level a) ["warning"; "critical"; "emergency"]) as Hall.
  { intros a [<- | [<- | []]]; cbn; auto. }
  split; [exact Hall |].
  apply (summary_counts_consistent _), Hall.
Defined.

Lemma highest_priority_is_first_max_severity_witness :
  highest_priority (generate_alert_summary emergency_then_warning)
  = Some (sample_alert "warning" "Zone_3_3" 55 2)
  /\ highest_severity (generate_alert_summary emergency_then_warning) = 55%Q
  /\ (0 < 55)%Q
  /\ exists pre post,
       emergency_then_warning
       = (pre ++ sample_alert "warning" "Zone_3_3" 55 2 :: post)%list
       /\ (forall b, In b pre -> (severity b < 55)%Q)
       /\ (forall b, In b post -> (severity b <= 55)%Q).
Proof.
  split; [reflexivity |].
  apply (proj1 highest_priority_is_first_max_severity
           emergency_then_warning (sample_alert "warning" "Zone_3_3" 55 2)).
  reflexivity.
Defined.

End AlertInstances.

(** ** Scenarios of [test_classifier] on the sample configuration *)

Section Scenarios.
Import ZoneClassifier Samples.

Example init_sample :
  __init__ (fs_with sample_config) default_path = Ok sample_classifier.
Proof. reflexivity. Qed.

Example density_levels :
  map (_classify_by_density sample_classifier) [3 # 2; 14 # 5; 21 # 5; 6 # 1; 39 # 5]
  = ["safe"; "moderate"; "warning"; "critical"; "emergency"].
Proof. reflexivity. Qed.

Example panic_scenario :
  (fun r => (c_level r, c_base_level r, c_elevated r, c_elevation_reason r))
    <$> (fst <$> match classify_zone sample_classifier (19 # 5) (Some (2 # 5))
                         (Some 135%Q) (Some "Test_Zone_6") with
                 | Ok x => Some x | Raise _ => None end)
  = Some ("critical", "moderate", true, Some panic_reason).
Proof. vm_compute. reflexivity. Qed.

Example orderly_scenario :
  (fun r => (c_level r, c_base_level r, c_elevated r, c_elevation_reason r))
    <$> (fst <$> match classify_zone sample_classifier 4%Q (Some (8 # 5))
                         (Some 50%Q) (Some "Test_Zone_7") with
                 | Ok x => Some x | Raise _ => None end)
  = Some ("warning", "warning", false, Some orderly_reason).
Proof. vm_compute. reflexivity. Qed.

End Scenarios.

(** ** The cooldown scenario of [test_alert_manager] *)

Section CooldownScenario.
Import AlertManager.

(** A warning for zone [Z1] at time 1000 with the default cooldown of 2.5;
    the same key one second later is blocked and changes nothing; at
    1002.5 it triggers again. *)
Example cooldown_scenario :
  exists first after_first second after_second,
    trigger_alert (__init__ (5 # 2)) 1000 1000 1000 "warning" "Z1" 50
    = Ok (Some first, after_first)
    /\ trigger_alert after_first 1001 1001 1001 "warning" "Z1" 50
       = Ok (None, after_first)
    /\ trigger_alert after_first (2005 # 2) (2005 # 2) (2005 # 2) "warning" "Z1" 50
       = Ok (Some second, after_second)
    /\ active_alerts after_second = [first; second]
    /\ last_alert_time after_second !! "warning_Z1" = Some (2005 # 2).
Proof.
  do 4 eexists. split; [reflexivity |].
  split; [reflexivity |]. split; [reflexivity |].
  split; reflexivity.
Qed.

End CooldownScenario.

(** * Further properties of the code *)

(** ** Stable sorting *)

Section StableSort.
Context {A : Type} (precedes : A -> A -> bool).

Lemma insert_stable_perm (x : A) (l : list A) :
  insert_stable precedes x l ≡ₚ x :: l.
Proof.
  induction l as [| y l IH]; cbn; [done |].
  destruct (precedes y x); [| done].
  rewrite IH. apply Permutation_swap.
Qed.

Lemma py_sorted_perm (l : list A) : py_sorted precedes l ≡ₚ l.
Proof.
  induction l as [| x l IH]; cbn; [done |].
  by rewrite insert_stable_perm, IH.
Qed.

(** Elements selected by [p] that never precede one another keep their
    input order. *)
Lemma insert_stable_filter (p : A -> bool) (x : A) (l : list A) :
  (forall y, p y = true -> p x = true -> precedes y x = false) ->
  List.filter p (insert_stable precedes x l) = List.filter p (x :: l).
Proof.
  intros Hp. induction l as [| y l IH]; [done |].
  cbn [insert_stable]. destruct (precedes y x) eqn:E; [| done].
  cbn [List.filter] in *. rewrite IH.
  destruct (p y) eqn:Ey, (p x) eqn:Ex; try done.
  rewrite (Hp y Ey eq_refl) in E. discriminate.
Qed.

Lemma py_sorted_filter (p : A -> bool) (l : list A) :
  (forall x y, p x = true -> p y = true -> precedes x y = false) ->
  List.filter p (py_sorted precedes l) = List.filter p l.
Proof.
  intros Hp. induction l as [| x l IH]; [done |].
  cbn [py_sorted]. rewrite insert_stable_filter by (intros; by apply Hp).
  cbn [List.filter]. by rewrite IH.
Qed.

Hypothesis precedes_asym :
  forall x y, precedes x y = true -> precedes y x = false.
Hypothesis precedes_negtrans :
  forall x y z, precedes x y = false -> precedes y z = false ->
                precedes x z = false.

(** No element of the list precedes an element placed before it. *)
Local Abbreviation in_order :=
  (StronglySorted (fun a b => precedes b a = false)).

Lemma insert_stable_in_order (x : A) (l : list A) :
  in_order l -> in_order (insert_stable precedes x l).
Proof.
  induction 1 as [| y l Hl IH Hy]; cbn.
  - constructor; [constructor | constructor].
  - destruct (precedes y x) eqn:E.
    + constructor; [exact IH |].
      rewrite insert_stable_perm. constructor; [by apply precedes_asym | exact Hy].
    + constructor; [by constructor |].
      constructor; [exact E |].
      rewrite Forall_forall in *. intros z Hz.
      apply (precedes_negtrans z y x); [by apply Hy | exact E].
Qed.

Lemma py_sorted_in_order (l : list A) : in_order (py_sorted precedes l).
Proof.
  induction l as [| x l IH]; cbn; [constructor |].
  by apply insert_stable_in_order.
Qed.

Lemma py_sorted_fixed (l : list A) : in_order l -> py_sorted precedes l = l.
Proof.
  induction 1 as [| x l Hl IH Hx]; cbn; [done |].
  rewrite IH. destruct l as [| y l']; [done |].
  cbn. apply Forall_inv in Hx. by rewrite Hx.
Qed.

End StableSort.

Lemma StronglySorted_weaken {A : Type} (R R' : A -> A -> Prop) (l : list A) :
  (forall a b, R a b -> R' a b) -> StronglySorted R l -> StronglySorted R' l.
Proof.
  intros HR. induction 1 as [| x l Hl IH Hx]; constructor; [exact IH |].
  eapply Forall_impl; [exact Hx | auto].
Qed.

(** Filtering by [q] after [p] is filtering by [q] when [q] implies [p]. *)
Lemma filter_subsumed {A : Type} (p q : A -> bool) (l : list A) :
  (forall a, q a = true -> p a = true) ->
  List.filter q (List.filter p l) = List.filter q l.
Proof.
  intros Hqp. induction l as [| a l IH]; [done |].
  cbn [List.filter]. destruct (p a) eqn:Ep.
  - cbn [List.filter]. by rewrite IH.
  - rewrite IH. destruct (q a) eqn:Eq; [| done].
    rewrite (Hqp a Eq) in Ep. discriminate.
Qed.

(** ** Views of the alert lists *)

Section AlertViews.
Import AlertManager.

Lemma key_lt_true (k1 k2 : Z * Q) :
  key_lt k1 k2 = true
  <-> (k1.1 < k2.1)%Z \/ (k1.1 = k2.1 /\ (k1.2 < k2.2)%Q).
Proof.
  unfold key_lt. rewrite orb_true_iff, andb_true_iff.
  rewrite Z.ltb_lt, Z.eqb_eq, Qlt_bool_iff. reflexivity.
Qed.

Lemma key_lt_false (k1 k2 : Z * Q) :
  key_lt k1 k2 = false
  <-> (k2.1 < k1.1)%Z \/ (k1.1 = k2.1 /\ (k2.2 <= k1.2)%Q).
Proof.
  unfold key_lt. rewrite orb_false_iff, andb_false_iff.
  rewrite Z.ltb_ge, Z.eqb_neq, Qlt_bool_false. split.
  - intros [H1 [H2 | H2]]; [left; lia | ].
    destruct (Z.eq_dec k1.1 k2.1); [right; by split | left; lia].
  - intros [H | [H1 H2]]; (split; [lia |]); [left; lia | by right].
Qed.

(** X1.  [get_active_alerts] returns exactly the active alerts whose age is
    at most [max_age_seconds], ordered by non-increasing priority, alerts of
    equal priority in the order they were triggered; evicting with the same
    clock and window first does not change the view. *)
Theorem active_alerts_view (self : t) (now max_age : Q) :
  get_active_alerts self now max_age
    ≡ₚ List.filter (within_age now max_age) (active_alerts self)
  /\ (forall a, In a (get_active_alerts self now max_age)
                <-> In a (active_alerts self)
                    /\ (now - timestamp a <= max_age)%Q)
  /\ StronglySorted (fun a b => (a_priority b <= a_priority a)%Z)
                    (get_active_alerts self now max_age)
  /\ (forall p,
        List.filter (fun a => (a_priority a =? p)%Z)
                    (get_active_alerts self now max_age)
        = List.filter (fun a => (a_priority a =? p)%Z)
            (List.filter (within_age now max_age) (active_alerts self)))
  /\ get_active_alerts (clear_old_alerts self now max_age) now max_age
     = get_active_alerts self now max_age.
Proof.
  unfold get_active_alerts.
  set (recent := List.filter (within_age now max_age) (active_alerts self)).
  assert (py_sorted (fun y x => (a_priority x <? a_priority y)%Z) recent
            ≡ₚ recent) as Hperm by apply py_sorted_perm.
  split; [exact Hperm |]. split; [| split; [| split]].
  - intros a. rewrite <- !list_elem_of_In, Hperm. unfold recent.
    rewrite !list_elem_of_In, filter_In. unfold within_age.
    by rewrite Qle_bool_iff.
  - eapply StronglySorted_weaken; [| apply py_sorted_in_order].
    + intros a b H. cbn in H. by apply Z.ltb_ge in H.
    + intros x y H. apply Z.ltb_lt in H. apply Z.ltb_ge. lia.
    + intros x y z H1 H2. apply Z.ltb_ge in H1, H2. apply Z.ltb_ge. lia.
  - intros p. apply py_sorted_filter.
    intros x y Hx Hy. apply Z.eqb_eq in Hx, Hy. apply Z.ltb_ge. lia.
  - cbn [clear_old_alerts active_alerts]. unfold recent.
    by rewrite filter_subsumed.
Qed.

(** X2.  [get_priority_alerts] permutes its argument so that emergency
    alerts come first, then critical, then warning, then every other
    level, and within one rank the severities do not increase; equal keys
    keep their input order, so sorting a second time changes nothing. *)
Theorem priority_alerts_order (alerts : list Alert) :
  get_priority_alerts alerts ≡ₚ alerts
  /\ StronglySorted
       (fun a b =>
          (priority_rank (level a) < priority_rank (level b))%Z
          \/ (priority_rank (level a) = priority_rank (level b)
              /\ (severity b <= severity a)%Q))
       (get_priority_alerts alerts)
  /\ (forall r sev,
        List.filter (fun a => (priority_rank (level a) =? r)%Z
                              && Qeq_bool (severity a) sev)
                    (get_priority_alerts alerts)
        = List.filter (fun a => (priority_rank (level a) =? r)%Z
                                && Qeq_bool (severity a) sev) alerts)
  /\ get_priority_alerts (get_priority_alerts alerts)
     = get_priority_alerts alerts.
Proof.
  unfold get_priority_alerts.
  assert (forall x y : Alert,
            key_lt (priority_key x) (priority_key y) = true ->
            key_lt (priority_key y) (priority_key x) = false) as Hasym.
  { intros x y H. apply key_lt_true in H. apply key_lt_false.
    destruct H as [H | [H1 H2]]; [by left | right; split; [done | lra]]. }
  assert (forall x y z : Alert,
            key_lt (priority_key x) (priority_key y) = false ->
            key_lt (priority_key y) (priority_key z) = false ->
            key_lt (priority_key x) (priority_key z) = false) as Htrans.
  { intros x y z H1 H2. apply key_lt_false in H1, H2. apply key_lt_false.
    destruct H1 as [H1 | [H1 H1']], H2 as [H2 | [H2 H2']];
      first [left; lia | right; split; [congruence | lra]]. }
  split; [apply py_sorted_perm |]. split; [| split].
  - eapply StronglySorted_weaken; [| by apply py_sorted_in_order].
    intros a b H. cbn beta in H. apply key_lt_false in H. cbn in H.
    destruct H as [H | [H1 H2]]; [by left | right; split; [done | lra]].
  - intros r sev. apply py_sorted_filter.
    intros x y Hx Hy. apply andb_prop in Hx as [Hx1 Hx2].
    apply andb_prop in Hy as [Hy1 Hy2].
    apply Z.eqb_eq in Hx1, Hy1. apply Qeq_bool_iff in Hx2, Hy2.
    apply key_lt_false. right. cbn. split; [congruence | lra].
  - apply py_sorted_fixed. by apply py_sorted_in_order.
Qed.

End AlertViews.

(** ** The life cycle of alerts *)

Section LifeCycle.
Import AlertManager.

Local Abbreviation alerting := ["warning"; "critical"; "emergency"].

Local Abbreviation built_alert c now_alert level zone_id severity :=
  {| timestamp := now_alert; AlertManager.level := level;
     AlertManager.zone_id := zone_id; AlertManager.severity := severity;
     a_priority := priority c; a_visual := visual c; a_audio := audio c;
     alert_key := level ++ "_" ++ zone_id |}.

Local Abbreviation recorded self alert now_ledger :=
  {| cooldown_seconds := cooldown_seconds self;
     alert_config := alert_config self;
     last_alert_time :=
       <[alert_key alert := now_ledger]> (last_alert_time self);
     active_alerts := active_alerts self ++ [alert];
     alert_history := alert_history self ++ [alert];
     total_alerts_triggered := S (total_alerts_triggered self);
     alerts_by_level :=
       <[level alert := S (default 0%nat (alerts_by_level self !! level alert))]>
         (alerts_by_level self) |}.

(** The two outcomes of [trigger_alert] on a manager with the built-in
    table. *)
Lemma trigger_alert_outcome (self : t) (t1 t2 t3 : Q) (level zone_id : string)
    (severity : Q) :
  alert_config self = _initialize_alert_config ->
  (In level alerting
   /\ cooldown_elapsed self t1 (level ++ "_" ++ zone_id)
   /\ exists c,
        dict_get _initialize_alert_config level = Ok c
        /\ trigger_alert self t1 t2 t3 level zone_id severity
           = Ok (Some (built_alert c t2 level zone_id severity),
                 recorded self (built_alert c t2 level zone_id severity) t3))
  \/ (~ (In level alerting
         /\ cooldown_elapsed self t1 (level ++ "_" ++ zone_id))
      /\ trigger_alert self t1 t2 t3 level zone_id severity = Ok (None, self)).
Proof.
  intros Hcfg. unfold trigger_alert.
  destruct (gate_decide self t1 level zone_id) as [[E Hgate] | [E Hgate]].
  - left. apply andb_prop in E as [E1 E2]. rewrite E1, E2. cbn [negb].
    destruct (alerting_level_configured level E1) as [c Hc].
    destruct Hgate as [Hin Hcool]. split; [done |]. split; [done |].
    exists c. split; [done |]. by rewrite Hcfg, Hc.
  - right. split; [done |].
    apply andb_false_iff in E as [-> | E2]; [done |].
    destruct (negb (alerting_level level)); [done |]. by rewrite E2.
Qed.

Lemma trigger_alert_accepts_iff (self : t) (t1 t2 t3 : Q)
    (level zone_id : string) (severity : Q) :
  alert_config self = _initialize_alert_config ->
  (exists alert self',
     trigger_alert self t1 t2 t3 level zone_id severity = Ok (Some alert, self'))
  <-> In level alerting /\ cooldown_elapsed self t1 (level ++ "_" ++ zone_id).
Proof.
  intros Hcfg.
  destruct (trigger_alert_outcome self t1 t2 t3 level zone_id severity Hcfg)
    as [(Hin & Hcool & c & _ & ->) | [Hn ->]].
  - split; [done | intros _; by do 2 eexists].
  - split; [intros (? & ? & [=]) | done].
Qed.

(** X3.  After [trigger_alert] has returned an alert for a level and a
    zone, writing [now_ledger] in the ledger, a later call for the same
    level and zone returns an alert exactly when its clock read is at least
    the cooldown after [now_ledger]; for any other pair of an alerting
    level and a zone the outcome is what it would have been without the
    first call. *)
Theorem cooldown_after_trigger (self self' : t) (t1 t2 t3 : Q)
    (level zone_id : string) (severity : Q) (alert : Alert) :
  alert_config self = _initialize_alert_config ->
  trigger_alert self t1 t2 t3 level zone_id severity = Ok (Some alert, self') ->
  (forall now r2 r3 severity',
     (exists alert' self'',
        trigger_alert self' now r2 r3 level zone_id severity'
        = Ok (Some alert', self''))
     <-> (cooldown_seconds self <= now - t3)%Q)
  /\ (forall level' zone_id' now r2 r3 severity',
        In level' alerting ->
        (level', zone_id') <> (level, zone_id) ->
        (exists alert' self'',
           trigger_alert self' now r2 r3 level' zone_id' severity'
           = Ok (Some alert', self''))
        <-> (exists alert' self'',
               trigger_alert self now r2 r3 level' zone_id' severity'
               = Ok (Some alert', self''))).
Proof.
  intros Hcfg Htrig.
  destruct (trigger_alert_outcome self t1 t2 t3 level zone_id severity Hcfg)
    as [(Hin & Hcool & c & Hc & E) | [_ E]]; rewrite E in Htrig;
    [| discriminate].
  injection Htrig as <- <-.
  split.
  - intros now r2 r3 severity'.
    rewrite trigger_alert_accepts_iff by done.
    unfold cooldown_elapsed. cbn. rewrite lookup_insert_eq. cbn.
    split; [by intros [_ H] | by intros H].
  - intros level' zone_id' now r2 r3 severity' Hin' Hne.
    rewrite !trigger_alert_accepts_iff by done.
    unfold cooldown_elapsed. cbn. rewrite lookup_insert_ne; [done |].
    intros Hkey. apply Hne.
    apply alert_key_injective in Hkey as [-> ->];
      [done | by apply alerting_level_iff | by apply alerting_level_iff].
Qed.

Lemma sum_counts_incr (d : gmap string nat) (k : string) :
  sum_counts (<[k := S (default 0%nat (d !! k))]> d) = S (sum_counts d).
Proof.
  destruct (d !! k) as [n |] eqn:E; cbn.
  - by apply sum_counts_bump.
  - by rewrite sum_counts_insert_fresh.
Qed.

Lemma filter_sublist {A : Type} (p : A -> bool) (l : list A) :
  sublist (List.filter p l) l.
Proof.
  induction l as [| a l IH]; cbn; [constructor |].
  destruct (p a); by constructor.
Qed.

(** What a call of [trigger_alert] does to the manager. *)
Lemma trigger_alert_effects (self self' : t) (t1 t2 t3 : Q)
    (level zone_id : string) (severity : Q) (r : option Alert) :
  alert_config self = _initialize_alert_config ->
  trigger_alert self t1 t2 t3 level zone_id severity = Ok (r, self') ->
  (r = None /\ self' = self)
  \/ (exists alert,
        r = Some alert /\ self' = recorded self alert t3
        /\ well_described alert
        /\ AlertManager.level alert = level
        /\ AlertManager.zone_id alert = zone_id
        /\ AlertManager.severity alert = severity).
Proof.
  intros Hcfg Htrig.
  destruct (trigger_alert_outcome self t1 t2 t3 level zone_id severity Hcfg)
    as [(Hin & Hcool & c & Hc & E) | [_ E]]; rewrite E in Htrig;
    injection Htrig as <- <-; [right | by left].
  eexists. split; [reflexivity |]. split; [reflexivity |].
  split; [| done]. split; [by apply alerting_level_iff |].
  split; [| done]. cbn. rewrite Hc. by destruct c.
Qed.

Lemma trigger_alert_returns (self : t) (t1 t2 t3 : Q) (level zone_id : string)
    (severity : Q) :
  alert_config self = _initialize_alert_config ->
  exists r self',
    trigger_alert self t1 t2 t3 level zone_id severity = Ok (r, self').
Proof.
  intros Hcfg.
  destruct (trigger_alert_outcome self t1 t2 t3 level zone_id severity Hcfg)
    as [(_ & _ & c & _ & ->) | [_ ->]]; by do 2 eexists.
Qed.

Local Abbreviation row_triple :=
  (fun z : ZoneRow => (row_level z, row_zone_id z, row_severity z)).
Local Abbreviation alert_triple :=
  (fun a : Alert =>
     (AlertManager.level a, AlertManager.zone_id a, AlertManager.severity a)).

Lemma process_loop_effects (clock : nat -> Q * Q * Q) (zones : list ZoneRow) :
  forall (self : t) (i : nat) (acc : list Alert),
    alert_config self = _initialize_alert_config ->
    exists new self',
      process_loop self clock i zones acc = Ok ((acc ++ new)%list, self')
      /\ alert_config self' = _initialize_alert_config
      /\ cooldown_seconds self' = cooldown_seconds self
      /\ active_alerts self' = (active_alerts self ++ new)%list
      /\ alert_history self' = (alert_history self ++ new)%list
      /\ total_alerts_triggered self'
         = (total_alerts_triggered self + length new)%nat
      /\ sum_counts (alerts_by_level self')
         = (sum_counts (alerts_by_level self) + length new)%nat
      /\ Forall well_described new
      /\ sublist (map alert_triple new) (map row_triple zones).
Proof.
  induction zones as [| zone zones IH]; intros self i acc Hcfg.
  - exists [], self. cbn. rewrite !app_nil_r, !Nat.add_0_r.
    repeat split; try done; constructor.
  - cbn [process_loop].
    destruct (trigger_alert_returns self (clock i).1.1 (clock i).1.2
                (clock i).2 (row_level zone) (row_zone_id zone)
                (row_severity zone) Hcfg) as (r & mid & Htrig).
    rewrite Htrig. cbn.
    destruct (trigger_alert_effects _ _ _ _ _ _ _ _ _ Hcfg Htrig)
      as [[-> ->] | (a & -> & -> & Hwd & Hl & Hz & Hs)].
    + destruct (IH self (S i) acc Hcfg)
        as (new & self' & -> & H1 & H2 & H3 & H4 & H5 & H6 & H7 & H8).
      exists new, self'. repeat split; try done. by constructor.
    + destruct (IH (recorded self a (clock i).2) (S i) (acc ++ [a])%list Hcfg)
        as (new & self' & -> & H1 & H2 & H3 & H4 & H5 & H6 & H7 & H8).
      exists (a :: new), self'. cbn in *.
      rewrite <- !app_assoc in *. cbn in *.
      repeat split; try done.
      * rewrite H5. lia.
      * rewrite H6, sum_counts_incr. lia.
      * by constructor.
      * rewrite Hl, Hz, Hs. by constructor.
Qed.

(** X4.  On a manager with the built-in table [process_classified_zones]
    does not raise; the alerts it returns are the ones it has appended, in
    order, to the active list and to the history; they come from a
    subsequence of the rows, with the row's level, zone and severity; and
    the counter of triggered alerts grows by their number. *)
Theorem process_classified_zones_effects (self : t)
    (clock : nat -> Q * Q * Q) (zones : list ZoneRow) :
  alert_config self = _initialize_alert_config ->
  exists triggered self',
    process_classified_zones self clock zones = Ok (triggered, self')
    /\ active_alerts self' = (active_alerts self ++ triggered)%list
    /\ alert_history self' = (alert_history self ++ triggered)%list
    /\ total_alerts_triggered self'
       = (total_alerts_triggered self + length triggered)%nat
    /\ sublist (map alert_triple triggered) (map row_triple zones)
    /\ Forall (fun a => In (AlertManager.level a) alerting) triggered
    /\ (length triggered <= length zones)%nat.
Proof.
  intros Hcfg. unfold process_classified_zones.
  destruct (process_loop_effects clock zones self 0%nat [] Hcfg)
    as (new & self' & E & _ & _ & H3 & H4 & H5 & _ & H7 & H8).
  exists new, self'. repeat split; try done.
  - eapply Forall_impl; [exact H7 |].
    intros a (Ha & _). by apply alerting_level_iff.
  - apply sublist_length in H8. by rewrite !length_map in H8.
Qed.

Lemma call_consistent (self : t) (c : Call) :
  consistent self ->
  exists self',
    call self c = Ok self' /\ consistent self'
    /\ cooldown_seconds self' = cooldown_seconds self.
Proof.
  intros (Hcfg & Htot & Hsum & Hsub & Hall).
  destruct c as [t1 t2 t3 level zone_id severity | clock zones | now max_age |];
    cbn [call].
  - destruct (trigger_alert_returns self t1 t2 t3 level zone_id severity Hcfg)
      as (r & self' & Htrig).
    rewrite Htrig. cbn. exists self'.
    destruct (trigger_alert_effects _ _ _ _ _ _ _ _ _ Hcfg Htrig)
      as [[-> ->] | (a & -> & -> & Hwd & _)].
    + by repeat split.
    + split; [done |]. split; [| done]. unfold consistent. cbn.
      rewrite length_app, sum_counts_incr, Hsum, Htot. cbn.
      repeat split; try done; try lia.
      * by apply sublist_app.
      * apply Forall_app. split; [done | by constructor].
  - unfold process_classified_zones.
    destruct (process_loop_effects clock zones self 0%nat [] Hcfg)
      as (new & self' & -> & H1 & H2 & H3 & H4 & H5 & H6 & H7 & _).
    cbn. exists self'. split; [done |]. split; [| done].
    unfold consistent. rewrite H1, H3, H4, H5, H6, length_app.
    repeat split; try done; try lia.
    + by apply sublist_app.
    + by apply Forall_app.
  - eexists. split; [reflexivity |]. split; [| done].
    unfold consistent. cbn. repeat split; try done.
    etrans; [apply filter_sublist | done].
  - eexists. split; [reflexivity |]. split; [| done].
    unfold consistent. cbn. repeat split; try done.
    apply sublist_nil_l.
Qed.

(** X5.  Whatever sequence of [trigger_alert], [process_classified_zones],
    [clear_old_alerts] and [reset_alerts] is run on a new manager, no call
    raises, and afterwards the counter of triggered alerts is the length of
    the history, the per-level counters add up to it, the active alerts are
    a subsequence of the history, and every alert of the history has a
    level among warning, critical and emergency, carries the descriptors of
    that level and the key made of its level and zone. *)
Theorem manager_stays_consistent (cooldown : Q) (cs : list Call) :
  exists self,
    calls (__init__ cooldown) cs = Ok self
    /\ consistent self
    /\ cooldown_seconds self = cooldown.
Proof.
  assert (forall self, consistent self ->
            exists self', calls self cs = Ok self' /\ consistent self'
                          /\ cooldown_seconds self' = cooldown_seconds self)
    as Hrun.
  { induction cs as [| c cs IH]; intros self Hc; [by exists self |].
    destruct (call_consistent self c Hc) as (mid & E & Hmid & Hcd).
    destruct (IH mid Hmid) as (self' & E' & Hc' & Hcd').
    exists self'. cbn. rewrite E. cbn. rewrite E'.
    split; [done |]. split; [done | congruence]. }
  apply (Hrun (__init__ cooldown)).
  unfold consistent. cbn. repeat split; constructor.
Qed.

End LifeCycle.

(** ** Eviction and reset *)

Section EvictionAndReset.
Import AlertManager.

(** X6.  [clear_old_alerts] keeps, in order, exactly the active alerts whose
    age is at most [max_age_seconds]; it leaves the history, the ledger and
    the counters alone, so the cooldown of every key is as before; and with
    the same clock read a second eviction with a window that is not wider
    gives what that eviction alone gives. *)
Theorem clear_old_alerts_window (self : t) (now max_age : Q) :
  (forall a, In a (active_alerts (clear_old_alerts self now max_age))
             <-> In a (active_alerts self)
                 /\ (now - timestamp a <= max_age)%Q)
  /\ sublist (active_alerts (clear_old_alerts self now max_age))
             (active_alerts self)
  /\ alert_history (clear_old_alerts self now max_age) = alert_history self
  /\ last_alert_time (clear_old_alerts self now max_age) = last_alert_time self
  /\ total_alerts_triggered (clear_old_alerts self now max_age)
     = total_alerts_triggered self
  /\ (forall t key,
        cooldown_elapsed (clear_old_alerts self now max_age) t key
        <-> cooldown_elapsed self t key)
  /\ (forall narrower, (narrower <= max_age)%Q ->
        clear_old_alerts (clear_old_alerts self now max_age) now narrower
        = clear_old_alerts self now narrower).
Proof.
  split; [| split; [apply filter_sublist | repeat split; try done]].
  - intros a. cbn. rewrite filter_In. unfold within_age.
    by rewrite Qle_bool_iff.
  - intros narrower Hle. unfold clear_old_alerts. cbn. f_equal.
    apply filter_subsumed. intros a. unfold within_age.
    rewrite !Qle_bool_iff. lra.
Qed.

(** X7.  [reset_alerts] empties the active list and the ledger and keeps
    the history and the counters; after it, on a manager with the built-in
    table, a call of [trigger_alert] for an alerting level returns an alert
    exactly when its clock read is at least the cooldown, whatever was
    triggered before the reset. *)
Theorem reset_alerts_reopens (self : t) :
  active_alerts (reset_alerts self) = []
  /\ last_alert_time (reset_alerts self) = ∅
  /\ alert_history (reset_alerts self) = alert_history self
  /\ total_alerts_triggered (reset_alerts self) = total_alerts_triggered self
  /\ alerts_by_level (reset_alerts self) = alerts_by_level self
  /\ (forall now max_age, get_active_alerts (reset_alerts self) now max_age = [])
  /\ (alert_config self = _initialize_alert_config ->
      forall now r2 r3 level zone_id severity,
        In level ["warning"; "critical"; "emergency"] ->
        (exists alert self',
           trigger_alert (reset_alerts self) now r2 r3 level zone_id severity
           = Ok (Some alert, self'))
        <-> (cooldown_seconds self <= now)%Q).
Proof.
  do 6 (split; [done |]).
  intros Hcfg now r2 r3 level zone_id severity Hin.
  rewrite trigger_alert_accepts_iff by exact Hcfg.
  unfold cooldown_elapsed. cbn. rewrite lookup_empty. cbn.
  split; [intros [_ H]; lra | intros H; split; [done | lra]].
Qed.

End EvictionAndReset.

(** ** Rendering *)

Section Rendering.
Import AlertManager.

Lemma bind_Ok {A B : Type} (a : A) (f : A -> result B) :
  (Ok a ≫= f) = f a.
Proof. reflexivity. Qed.

Lemma Qfloor_unique (x : Q) (n : Z) :
  (inject_Z n <= x)%Q -> (x < inject_Z (n + 1))%Q -> Qfloor x = n.
Proof.
  intros Hlo Hhi.
  pose proof (Qfloor_le x) as H1. pose proof (Qlt_floor x) as H2.
  assert (inject_Z n < inject_Z (Qfloor x + 1))%Q as H3 by lra.
  assert (inject_Z (Qfloor x) < inject_Z (n + 1))%Q as H4 by lra.
  rewrite <- Zlt_Qlt in H3, H4. lia.
Qed.

Lemma Qfloor_plus_Z (x : Q) (k : Z) :
  Qfloor (x + inject_Z k) = (Qfloor x + k)%Z.
Proof.
  apply Qfloor_unique.
  - rewrite inject_Z_plus. pose proof (Qfloor_le x). lra.
  - pose proof (Qlt_floor x) as H. rewrite !inject_Z_plus in *. lra.
Qed.

Lemma first_half_shift (x y : Q) (k : Z) :
  (y == x + inject_Z k)%Q -> first_half y = first_half x.
Proof.
  intros E. unfold first_half.
  rewrite (Qfloor_comp _ _ E), Qfloor_plus_Z, inject_Z_plus.
  destruct (Qlt_bool (x - inject_Z (Qfloor x)) (1 # 2)) eqn:Ex.
  - apply Qlt_bool_iff in Ex. apply Qlt_bool_iff. lra.
  - apply Qlt_bool_false in Ex. apply Qlt_bool_false. lra.
Qed.

(** The record returned for a given flash state. *)
Local Abbreviation rendered alert on :=
  {| v_color := if on || negb (flash (a_visual alert))
                then color (a_visual alert) else "#FFFFFF";
     v_flash := flash (a_visual alert);
     v_flash_on := on;
     v_icon := icon (a_visual alert);
     v_message := message (a_visual alert);
     v_level := level alert;
     v_zone_id := zone_id alert;
     v_severity := severity alert |}.

Lemma visual_flashing (alert : Alert) (now : Q) :
  flash (a_visual alert) = true ->
  (0 < flash_rate (a_visual alert))%Q ->
  generate_visual_alert alert now
  = Ok (rendered alert
          (first_half ((now - timestamp alert) * flash_rate (a_visual alert)))).
Proof.
  intros Hflash Hrate. unfold generate_visual_alert. rewrite Hflash.
  set (r := flash_rate (a_visual alert)) in *.
  set (e := (now - timestamp alert)%Q).
  rewrite py_div_nonzero, bind_Ok by lra.
  assert (0 < 1 / r)%Q as Hc.
  { apply Qlt_shift_div_l; lra. }
  unfold py_mod.
  destruct (Qeq_bool (1 / r) 0) eqn:E0;
    [apply Qeq_bool_iff in E0; lra |].
  rewrite !bind_Ok.
  assert (e / (1 / r) == e * r)%Q as Hq by (field; lra).
  rewrite (Qfloor_comp _ _ Hq). unfold first_half.
  set (F := inject_Z (Qfloor (e * r))).
  assert ((e - 1 / r * F) * r == e * r - F)%Q as H1 by (field; lra).
  assert (1 / r / 2 * r == 1 # 2)%Q as H2 by (field; lra).
  assert (Qlt_bool (e - 1 / r * F) (1 / r / 2)
          = Qlt_bool (e * r - F) (1 # 2)) as ->; [| reflexivity].
  destruct (Qlt_bool (e * r - F) (1 # 2)) eqn:Ex.
  - apply Qlt_bool_iff in Ex. apply Qlt_bool_iff.
    apply (Qmult_lt_r _ _ r Hrate). rewrite H1, H2. exact Ex.
  - apply Qlt_bool_false in Ex. apply Qlt_bool_false.
    apply Qnot_lt_le. intros Hlt.
    apply (Qmult_lt_r _ _ r Hrate) in Hlt. rewrite H1, H2 in Hlt. lra.
Qed.

(** X8.  [generate_visual_alert] on an alert that does not flash returns
    its colour with [flash_on] true; on a flashing alert with a positive
    rate it is on, with the alert's colour, during the first half of every
    cycle of [1 / flash_rate] counted from the alert's timestamp, and off,
    with colour [#FFFFFF], during the second half, so that the result is the
    same a whole number of cycles later; a flashing alert with rate 0 raises
    [ZeroDivisionError]. *)
Theorem visual_alert_phase (alert : Alert) (now : Q) :
  (flash (a_visual alert) = false ->
   generate_visual_alert alert now = Ok (rendered alert true)
   /\ v_color (rendered alert true) = color (a_visual alert))
  /\ (flash (a_visual alert) = true ->
      (flash_rate (a_visual alert) == 0)%Q ->
      generate_visual_alert alert now = Raise ZeroDivisionError)
  /\ (flash (a_visual alert) = true ->
      (0 < flash_rate (a_visual alert))%Q ->
      exists v,
        generate_visual_alert alert now = Ok v
        /\ v_flash_on v
           = first_half ((now - timestamp alert) * flash_rate (a_visual alert))
        /\ v_color v = (if v_flash_on v then color (a_visual alert)
                        else "#FFFFFF")
        /\ forall k : Z,
             generate_visual_alert alert
               (now + inject_Z k / flash_rate (a_visual alert))
             = Ok v).
Proof.
  split; [| split].
  - intros Hflash. unfold generate_visual_alert. rewrite Hflash.
    split; reflexivity.
  - intros Hflash Hrate. unfold generate_visual_alert. rewrite Hflash.
    by rewrite py_div_zero.
  - intros Hflash Hrate. eexists. split; [by apply visual_flashing |].
    split; [reflexivity |]. split.
    + cbn. by rewrite Hflash, orb_false_r.
    + intros k. rewrite visual_flashing by done.
      rewrite (first_half_shift
                 ((now - timestamp alert) * flash_rate (a_visual alert)) _ k);
        [reflexivity | field; lra].
Qed.

(** X9.  An alert returned by [trigger_alert] on a manager with the
    built-in table has priority 2, 3 or 4, flashes, and is rendered without
    error at any time; its audio descriptor is present, carries the alert's
    level and has one beep less than the priority. *)
Theorem triggered_alert_renders (self self' : t) (t1 t2 t3 : Q)
    (level zone_id : string) (severity : Q) (alert : Alert) :
  alert_config self = _initialize_alert_config ->
  trigger_alert self t1 t2 t3 level zone_id severity = Ok (Some alert, self') ->
  (2 <= a_priority alert <= 4)%Z
  /\ (forall now, exists v,
        generate_visual_alert alert now = Ok v
        /\ v_flash v = true /\ v_level v = level /\ v_zone_id v = zone_id)
  /\ (exists audio,
        generate_audio_alert alert = Some audio
        /\ au_level audio = level
        /\ Z.of_nat (au_beeps audio) = (a_priority alert - 1)%Z).
Proof.
  intros Hcfg Htrig.
  destruct (trigger_alert_effects _ _ _ _ _ _ _ _ _ Hcfg Htrig)
    as [[[=] _] | (a & [= <-] & _ & (Hlev & Hdesc & _) & Hl & Hz & _)].
  apply alerting_level_iff in Hlev. subst level zone_id.
  assert (flash (a_visual alert) = true
          /\ (0 < flash_rate (a_visual alert))%Q
          /\ enabled (a_audio alert) = true
          /\ (2 <= a_priority alert <= 4)%Z
          /\ Z.of_nat (beeps (a_audio alert)) = (a_priority alert - 1)%Z)
    as (Hflash & Hrate & Hen & Hprio & Hbeeps).
  { destruct alert as [ts lv zn sv pr vis aud key]. cbn in *.
    destruct Hlev as [<- | [<- | [<- | []]]]; cbn in Hdesc;
      injection Hdesc as <- <- <-; cbn; repeat split; lia. }
  split; [exact Hprio |]. split.
  - intros now. eexists. split; [by apply visual_flashing |].
    by repeat split.
  - unfold generate_audio_alert. rewrite Hen. cbn.
    eexists. split; [reflexivity |]. by split.
Qed.

End Rendering.

(** ** The severity indicator *)

Section SeverityIndicator.
Import AlertManager.

Lemma Qnum_sign (q : Q) : (Qnum q < 0)%Z <-> (q < 0)%Q.
Proof. unfold Qlt. cbn. lia. Qed.

(** Truncation is the floor of a non-negative number and the ceiling of a
    negative one. *)
Lemma py_int_floor_ceiling (q : Q) :
  py_int q = if (Qnum q <? 0)%Z then Qceiling q else Qfloor q.
Proof.
  unfold py_int, Qceiling. destruct q as [n d]. cbn.
  destruct (n <? 0)%Z eqn:E.
  - apply Z.ltb_lt in E.
    replace n with (- - n)%Z at 1 by lia.
    rewrite Z.quot_opp_l by lia.
    rewrite Z.quot_div_nonneg by lia. reflexivity.
  - apply Z.ltb_ge in E. apply Z.quot_div_nonneg; lia.
Qed.

Lemma py_int_monotone (q1 q2 : Q) :
  (q1 <= q2)%Q -> (py_int q1 <= py_int q2)%Z.
Proof.
  intros Hle. rewrite !py_int_floor_ceiling.
  destruct (Qnum q1 <? 0)%Z eqn:E1, (Qnum q2 <? 0)%Z eqn:E2.
  - by apply Qceiling_resp_le.
  - apply Z.ltb_lt, Qnum_sign in E1.
    assert (~ (q2 < 0)%Q) as H2.
    { intros H. apply Qnum_sign in H. apply Z.ltb_ge in E2. lia. }
    transitivity 0%Z.
    + change 0%Z with (Qceiling 0). apply Qceiling_resp_le. lra.
    + change 0%Z with (Qfloor 0). apply Qfloor_resp_le. lra.
  - apply Z.ltb_lt, Qnum_sign in E2.
    assert (~ (q1 < 0)%Q) as H1.
    { intros H. apply Qnum_sign in H. apply Z.ltb_ge in E1. lia. }
    lra.
  - by apply Qfloor_resp_le.
Qed.

(** X10.  The number of filled cells of the severity bar does not decrease
    when the severity grows, is 0 at severity 0 and 50 at severity 100, and
    so lies between 0 and 50 for every severity between 0 and 100; at
    severity 80 and above, and only there, the indicator is the red
    ["CRITICAL"] one. *)
Theorem severity_indicator_bar :
  (forall s1 s2, (s1 <= s2)%Q ->
     (i_bar_filled (get_severity_indicator s1)
      <= i_bar_filled (get_severity_indicator s2))%Z)
  /\ (forall s, (0 <= s)%Q -> (s <= 100)%Q ->
        (0 <= i_bar_filled (get_severity_indicator s) <= 50)%Z)
  /\ (forall s, (i_level_text (get_severity_indicator s) = "CRITICAL"
                 <-> (80 <= s)%Q)
                /\ (i_color (get_severity_indicator s) = "#FF0000"
                    <-> (80 <= s)%Q)).
Proof.
  assert (forall s, i_bar_filled (get_severity_indicator s)
                    = py_int (s / 100 * 50)) as Hbar.
  { intros s. unfold get_severity_indicator.
    by destruct (if Qlt_bool s 20 then _ else _). }
  split; [| split].
  - intros s1 s2 Hle. rewrite !Hbar. apply py_int_monotone.
    unfold Qdiv. apply Qmult_le_compat_r; [| done].
    apply Qmult_le_compat_r; [exact Hle | done].
  - intros s H0 H100. rewrite Hbar. split.
    + change 0%Z with (py_int (0 / 100 * 50)). apply py_int_monotone.
      unfold Qdiv. apply Qmult_le_compat_r; [| done].
      apply Qmult_le_compat_r; [exact H0 | done].
    + change 50%Z with (py_int (100 / 100 * 50)). apply py_int_monotone.
      unfold Qdiv. apply Qmult_le_compat_r; [| done].
      apply Qmult_le_compat_r; [exact H100 | done].
  - intros s. unfold get_severity_indicator.
    destruct (Qlt_bool s 20) eqn:E20;
      [apply Qlt_bool_iff in E20; cbn; split; (split; [discriminate | lra]) |].
    destruct (Qlt_bool s 40) eqn:E40;
      [apply Qlt_bool_iff in E40; cbn; split; (split; [discriminate | lra]) |].
    destruct (Qlt_bool s 60) eqn:E60;
      [apply Qlt_bool_iff in E60; cbn; split; (split; [discriminate | lra]) |].
    destruct (Qlt_bool s 80) eqn:E80;
      [apply Qlt_bool_iff in E80; cbn; split; (split; [discriminate | lra]) |].
    apply Qlt_bool_false in E80. cbn. by split.
Qed.

End SeverityIndicator.

(** ** More on the alert summary *)

Section SummaryExtremes.
Import AlertManager.

Lemma fold_zones (alerts : list Alert) (acc : SummaryAcc) :
  acc_zones_affected (fold_left summary_step alerts acc)
  = acc_zones_affected acc ∪ list_to_set (map zone_id alerts).
Proof.
  revert acc. induction alerts as [| a alerts IH]; intros acc; cbn.
  - by rewrite union_empty_r_L.
  - rewrite IH.
    assert (acc_zones_affected (summary_step acc a)
            = acc_zones_affected acc ∪ {[zone_id a]}) as ->.
    { unfold summary_step. by destruct (Qlt_bool _ _). }
    symmetry. apply (assoc_L (∪)).
Qed.

Lemma size_list_to_set_le (l : list string) :
  (size (list_to_set l : gset string) <= length l)%nat.
Proof.
  induction l as [| x l IH]; cbn.
  - by rewrite size_empty.
  - rewrite size_union_alt, size_singleton.
    assert (size (list_to_set l ∖ {[x]} : gset string)
            <= size (list_to_set l : gset string))%nat
      by (by apply subseteq_size, subseteq_difference_l).
    lia.
Qed.

(** X11.  In the alert summary [zones_affected] is the number of distinct
    zone identifiers of the list, hence at most [total_alerts];
    [highest_severity] is at least 0 and at least the severity of every
    alert, and it is either 0, no severity being positive, or the severity
    of the alert reported as [highest_priority]. *)
Theorem summary_extremes (alerts : list Alert) :
  zones_affected (generate_alert_summary alerts)
  = size (list_to_set (map zone_id alerts) : gset string)
  /\ (zones_affected (generate_alert_summary alerts)
      <= total_alerts (generate_alert_summary alerts))%nat
  /\ (0 <= highest_severity (generate_alert_summary alerts))%Q
  /\ (forall a, In a alerts ->
        (severity a <= highest_severity (generate_alert_summary alerts))%Q)
  /\ ((highest_priority (generate_alert_summary alerts) = None
       /\ highest_severity (generate_alert_summary alerts) = 0%Q)
      \/ (exists a, In a alerts
                    /\ highest_priority (generate_alert_summary alerts) = Some a
                    /\ highest_severity (generate_alert_summary alerts)
                       = severity a)).
Proof.
  destruct (summary_counts alerts) as [_ Htot]. rewrite Htot.
  unfold generate_alert_summary. cbn.
  rewrite fold_zones. cbn. rewrite union_empty_l_L.
  split; [done |]. split.
  { etrans; [apply size_list_to_set_le | by rewrite length_map]. }
  destruct (fold_highest alerts (summary_init alerts))
    as [(Hp & Hs & Hall) | (pre & a & post & -> & Hp & Hs & Hgt & Hpre & Hpost)];
    rewrite Hp, Hs; cbn in *.
  - split; [done |]. split; [exact Hall | by left].
  - split; [lra |]. split.
    + intros b Hb. apply in_app_or in Hb as [Hb | [<- | Hb]].
      * specialize (Hpre b Hb). lra.
      * lra.
      * by apply Hpost.
    + right. exists a. split; [| done]. apply in_or_app. right. by left.
Qed.

End SummaryExtremes.

(** ** The severity score with movement data *)

Section SeverityScore.
Import ZoneClassifier.

Lemma clamp_range (x : Q) :
  (0 <= py_max 0 (py_min 100 x))%Q /\ (py_max 0 (py_min 100 x) <= 100)%Q.
Proof.
  destruct (py_min_cases 100 x) as [[? ->] | [? ->]];
    match goal with
    | |- context [py_max 0 ?y] =>
        destruct (py_max_cases 0 y) as [[? ->] | [? ->]]
    end; split; lra.
Qed.

Lemma bind_Raise {A B : Type} (e : PyErr) (f : A -> result B) :
  (Raise e ≫= f) = Raise e.
Proof. reflexivity. Qed.

(** The four ways [_calculate_severity_score] can end. *)
Lemma severity_score_cases (self : t) (d : Q) (speed variance : option Q) :
  (capacity_settings (config self) = None
   /\ _calculate_severity_score self d speed variance
      = Raise (KeyError "capacity_settings"))
  \/ (exists cap, capacity_settings (config self) = Some cap
                  /\ (absolute_max_density cap == 0)%Q
                  /\ _calculate_severity_score self d speed variance
                     = Raise ZeroDivisionError)
  \/ (exists cap, capacity_settings (config self) = Some cap
                  /\ ~ (absolute_max_density cap == 0)%Q
                  /\ is_Some speed /\ is_Some variance
                  /\ ((speed_fast (self_movement_thresholds self) == 0)%Q
                      \/ (direction_variance_panic
                            (self_movement_thresholds self) == 0)%Q)
                  /\ _calculate_severity_score self d speed variance
                     = Raise ZeroDivisionError)
  \/ (exists cap x, capacity_settings (config self) = Some cap
                    /\ ~ (absolute_max_density cap == 0)%Q
                    /\ (is_Some speed -> is_Some variance ->
                        ~ (speed_fast (self_movement_thresholds self) == 0)%Q
                        /\ ~ (direction_variance_panic
                                (self_movement_thresholds self) == 0)%Q)
                    /\ _calculate_severity_score self d speed variance
                       = Ok (py_max 0 (py_min 100 x))).
Proof.
  unfold _calculate_severity_score.
  destruct (capacity_settings (config self)) as [cap |];
    [| left; by split].
  right. cbn [section]. rewrite bind_Ok.
  destruct (Qeq_dec (absolute_max_density cap) 0) as [Hz | Hnz].
  { left. exists cap. rewrite py_div_zero by done.
    split; [done | split; [exact Hz | reflexivity]]. }
  right. rewrite (py_div_nonzero _ _ Hnz), bind_Ok.
  assert (forall x : Q,
            (is_Some speed -> is_Some variance ->
             ~ (speed_fast (self_movement_thresholds self) == 0)%Q
             /\ ~ (direction_variance_panic
                     (self_movement_thresholds self) == 0)%Q) ->
            (Ok x ≫= (fun severity => Ok (py_max 0 (py_min 100 severity))))
            = Ok (py_max 0 (py_min 100 x)) ->
            exists cap' x',
              Some cap = Some cap'
              /\ ~ (absolute_max_density cap' == 0)%Q
              /\ (is_Some speed -> is_Some variance ->
                  ~ (speed_fast (self_movement_thresholds self) == 0)%Q
                  /\ ~ (direction_variance_panic
                          (self_movement_thresholds self) == 0)%Q)
              /\ Ok (py_max 0 (py_min 100 x))
                 = Ok (py_max 0 (py_min 100 x'))) as Hok
    by (intros x Hmov _; by exists cap, x).
  destruct speed as [sp |], variance as [va |];
    try (right; rewrite bind_Ok; apply Hok; [| done];
         intros H1 H2; by (destruct H1 as [? [=]] || destruct H2 as [? [=]])).
  destruct (Qeq_dec (speed_fast (self_movement_thresholds self)) 0)
    as [Hs | Hs].
  { left. exists cap. rewrite (py_div_zero _ _ Hs).
    do 4 (split; [first [done | by eexists] |]).
    split; [by left | reflexivity]. }
  rewrite (py_div_nonzero _ _ Hs), bind_Ok.
  destruct (Qeq_dec (direction_variance_panic (self_movement_thresholds self)) 0)
    as [Hv | Hv].
  { left. exists cap. rewrite (py_div_zero _ _ Hv).
    do 4 (split; [first [done | by eexists] |]).
    split; [by right | reflexivity]. }
  right. rewrite (py_div_nonzero _ _ Hv), !bind_Ok.
  apply Hok; [by intros _ _ | done].
Qed.

Lemma score_in_range (self : t) (d : Q) (speed variance : option Q) (q : Q) :
  _calculate_severity_score self d speed variance = Ok q ->
  (0 <= q)%Q /\ (q <= 100)%Q.
Proof.
  destruct (severity_score_cases self d speed variance)
    as [[_ ->] | [(? & _ & _ & ->) | [(? & _ & _ & _ & _ & _ & ->) |
        (? & x & _ & _ & _ & ->)]]]; try discriminate.
  intros [= <-]. apply clamp_range.
Qed.

(** X12.  [_calculate_severity_score] returns a score exactly when the
    [capacity_settings] section is present with a non-zero
    [absolute_max_density] and, if speed and variance are both given, the
    fast speed and the panic variance of the movement thresholds are not
    zero; otherwise it raises [KeyError('capacity_settings')] or
    [ZeroDivisionError].  A score it returns lies between 0 and 100,
    whatever the weights are. *)
Theorem severity_score_defined_and_bounded (self : t) (d : Q)
    (speed variance : option Q) :
  ((exists s, _calculate_severity_score self d speed variance = Ok s)
   <-> (exists cap, capacity_settings (config self) = Some cap
                    /\ ~ (absolute_max_density cap == 0)%Q)
       /\ (is_Some speed -> is_Some variance ->
           ~ (speed_fast (self_movement_thresholds self) == 0)%Q
           /\ ~ (direction_variance_panic (self_movement_thresholds self)
                 == 0)%Q))
  /\ (forall s, _calculate_severity_score self d speed variance = Ok s ->
        (0 <= s)%Q /\ (s <= 100)%Q)
  /\ (forall e, _calculate_severity_score self d speed variance = Raise e ->
        e = KeyError "capacity_settings" \/ e = ZeroDivisionError).
Proof.
  destruct (severity_score_cases self d speed variance)
    as [[Hcap ->] | [(cap & Hcap & Hz & ->) |
        [(cap & Hcap & Hnz & Hsp & Hva & Hzero & ->) |
         (cap & x & Hcap & Hnz & Hmov & ->)]]].
  - split; [split; [intros [? [=]] |] | split; [intros ? [=] |]].
    + intros [(cap & Hcap' & _) _]. congruence.
    + intros ? [= <-]. by left.
  - split; [split; [intros [? [=]] |] | split; [intros ? [=] |]].
    + intros [(cap' & Hcap' & Hn) _].
      rewrite Hcap in Hcap'. injection Hcap' as <-. contradiction.
    + intros ? [= <-]. by right.
  - split; [split; [intros [? [=]] |] | split; [intros ? [=] |]].
    + intros [_ H]. destruct (H Hsp Hva) as [H1 H2].
      destruct Hzero; contradiction.
    + intros ? [= <-]. by right.
  - split; [split; [intros _ | intros _; by eexists] |
            split; [intros s [= <-]; apply clamp_range | intros ? [=]]].
    split; [by exists cap | exact Hmov].
Qed.

End SeverityScore.

(** ** Bands and levels *)

Section BandsAndLevels.
Import ZoneClassifier.

Lemma first_band_key (bands : list (string * LevelInfo)) (d : Q) :
  (exists th, In (first_band bands d, th) bands
              /\ (density_min th <= d)%Q /\ (d < density_max th)%Q)
  \/ (first_band bands d = "emergency"
      /\ forall level th, In (level, th) bands ->
           ~ ((density_min th <= d)%Q /\ (d < density_max th)%Q)).
Proof.
  induction bands as [| [level th] rest IH]; cbn [first_band].
  - right. split; [done | intros ? ? []].
  - destruct (Qle_bool (density_min th) d && Qlt_bool d (density_max th))
      eqn:E.
    + apply andb_prop in E as [E1 E2].
      apply Qle_bool_iff in E1. apply Qlt_bool_iff in E2.
      left. exists th. split; [by left | done].
    + destruct IH as [(th' & Hin & Hlo & Hhi) | [Hem Hnone]].
      * left. exists th'. split; [by right | done].
      * right. split; [done |]. intros level' th' [[= <- <-] | Hin].
        -- intros [Hlo Hhi]. apply Qle_bool_iff in Hlo.
           apply Qlt_bool_iff in Hhi. rewrite Hlo, Hhi in E. discriminate.
        -- by apply (Hnone level' th').
Qed.

(** X13.  When bands overlap or are listed out of order, the density
    classifier returns the level of the first band of the table, in the
    table's order, that contains the density; and whatever the table is,
    the result is the level of a band containing the density or
    ["emergency"]. *)
Theorem first_matching_band_wins (self : t) (d : Q) :
  (forall pre level th post,
     thresholds self = (pre ++ (level, th) :: post)%list ->
     (forall level' th', In (level', th') pre ->
        ~ ((density_min th' <= d)%Q /\ (d < density_max th')%Q)) ->
     (density_min th <= d)%Q -> (d < density_max th)%Q ->
     _classify_by_density self d = level)
  /\ ((exists th, In (_classify_by_density self d, th) (thresholds self)
                  /\ (density_min th <= d)%Q /\ (d < density_max th)%Q)
      \/ _classify_by_density self d = "emergency").
Proof.
  unfold _classify_by_density. split.
  - intros pre level th post -> Hpre Hlo Hhi.
    induction pre as [| [l0 th0] pre IH]; cbn [app first_band].
    + apply Qle_bool_iff in Hlo. apply Qlt_bool_iff in Hhi.
      by rewrite Hlo, Hhi.
    + destruct (Qle_bool (density_min th0) d && Qlt_bool d (density_max th0))
        eqn:E.
      * apply andb_prop in E as [E1 E2].
        apply Qle_bool_iff in E1. apply Qlt_bool_iff in E2.
        exfalso. apply (Hpre l0 th0); [by left | done].
      * apply IH. intros level' th' Hin. apply (Hpre level' th'). by right.
  - destruct (first_band_key (thresholds self) d) as [H | [H _]];
      [by left | by right].
Qed.

Lemma list_index_Ok (x : string) (l : list string) (i : Z) :
  list_index x l = Ok i ->
  (0 <= i < Z.of_nat (length l))%Z /\ nth_error l (Z.to_nat i) = Some x.
Proof.
  revert i. induction l as [| y l IH]; intros i; cbn; [discriminate |].
  destruct (String.eqb_spec y x) as [-> | Hne].
  - intros [= <-]. split; [lia | done].
  - destruct (list_index x l) as [j | e]; cbn; [| discriminate].
    intros [= <-]. destruct (IH j eq_refl) as [Hj Hnth]. split; [lia |].
    replace (Z.to_nat (j + 1)) with (S (Z.to_nat j)) by lia. done.
Qed.

Lemma list_index_Raise (x : string) (l : list string) (e : PyErr) :
  list_index x l = Raise e -> e = ValueError /\ ~ In x l.
Proof.
  induction l as [| y l IH]; cbn.
  - intros [= <-]. split; [done | intros []].
  - destruct (String.eqb_spec y x) as [-> | Hne]; [discriminate |].
    destruct (list_index x l) as [j | e']; cbn; [discriminate |].
    intros [= <-]. destruct (IH eq_refl) as [-> Hnin].
    split; [done |]. intros [? | ?]; contradiction.
Qed.

Lemma list_index_In (x : string) (l : list string) :
  In x l -> exists i, list_index x l = Ok i.
Proof.
  intros Hin. destruct (list_index x l) as [i | e] eqn:E; [by exists i |].
  apply list_index_Raise in E as [_ Hn]. contradiction.
Qed.

Lemma standard_getitem (j : Z) :
  (0 <= j <= 4)%Z ->
  exists l, list_getitem standard_level_order j = Ok l
            /\ list_index l standard_level_order = Ok j
            /\ In l standard_level_order.
Proof.
  intros Hj.
  assert (j = 0 \/ j = 1 \/ j = 2 \/ j = 3 \/ j = 4)%Z
    as [-> | [-> | [-> | [-> | ->]]]] by lia;
    eexists; (split; [reflexivity |]); (split; [reflexivity |]); cbn; tauto.
Qed.

Lemma standard_getitem_wraps (j : Z) :
  (-5 <= j < 0)%Z ->
  list_getitem standard_level_order j
  = list_getitem standard_level_order (j + 5).
Proof.
  intros Hj.
  assert (j = -5 \/ j = -4 \/ j = -3 \/ j = -2 \/ j = -1)%Z
    as [-> | [-> | [-> | [-> | ->]]]] by lia; reflexivity.
Qed.

Lemma standard_getitem_out (j : Z) :
  (j < -5)%Z -> list_getitem standard_level_order j = Raise IndexError.
Proof.
  intros Hj. unfold list_getitem. cbn [length standard_level_order].
  replace (j <? 0)%Z with true by (symmetry; apply Z.ltb_lt; lia).
  replace (0 <=? j + Z.of_nat 5)%Z with false
    by (symmetry; apply Z.leb_gt; lia).
  reflexivity.
Qed.

Lemma elevate_known (self : t) (current : string) (n i : Z) :
  level_order self = standard_level_order ->
  list_index current standard_level_order = Ok i ->
  _elevate_level self current n
  = list_getitem standard_level_order (Z.min (i + n) 4).
Proof.
  intros Ho Hi. unfold _elevate_level. by rewrite Ho, Hi.
Qed.

Lemma elevate_unknown (self : t) (current : string) (n : Z) :
  ~ In current (level_order self) ->
  _elevate_level self current n = Ok current.
Proof.
  intros Hnin. unfold _elevate_level.
  destruct (list_index current (level_order self)) as [i | e] eqn:E.
  - apply list_index_Ok in E as [_ E]. apply nth_error_In in E.
    contradiction.
  - by apply list_index_Raise in E as [-> _].
Qed.

(** X14.  With the level order of the constructor, [_elevate_level] leaves
    a level that is not in the order as it is; for the level at position
    [i] and an amount [n] it returns the level at position
    [min (i + n) 4] when [i + n >= 0], so never one above "emergency"; when
    [i + n] is negative the index wraps around and the level at position
    [i + n + 5] comes back (one step down from "safe" is "emergency"); and
    below [-5] it raises [IndexError]. *)
Theorem elevate_level_by_index (self : t) (current : string) (n : Z) :
  level_order self = standard_level_order ->
  (~ In current standard_level_order ->
   _elevate_level self current n = Ok current)
  /\ (forall i, list_index current standard_level_order = Ok i ->
        (0 <= i <= 4)%Z
        /\ ((0 <= i + n)%Z ->
            exists l, _elevate_level self current n = Ok l
                      /\ list_index l standard_level_order
                         = Ok (Z.min (i + n) 4))
        /\ ((-5 <= i + n < 0)%Z ->
            exists l, _elevate_level self current n = Ok l
                      /\ list_index l standard_level_order = Ok (i + n + 5)%Z)
        /\ ((i + n < -5)%Z ->
            _elevate_level self current n = Raise IndexError)).
Proof.
  intros Ho. split.
  - intros Hnin. apply elevate_unknown. by rewrite Ho.
  - intros i Hi. pose proof (list_index_Ok _ _ _ Hi) as [Hrange _].
    cbn in Hrange. rewrite (elevate_known self current n i Ho Hi).
    split; [lia |]. split; [| split].
    + intros Hpos.
      destruct (standard_getitem (Z.min (i + n) 4)) as (l & H1 & H2 & _);
        [lia | by exists l].
    + intros Hneg. replace (Z.min (i + n) 4) with (i + n)%Z by lia.
      rewrite standard_getitem_wraps by lia.
      destruct (standard_getitem (i + n + 5)) as (l & H1 & H2 & _);
        [lia | by exists l].
    + intros Hout. replace (Z.min (i + n) 4) with (i + n)%Z by lia.
      by apply standard_getitem_out.
Qed.

Lemma elevate_rank (self : t) (current : string) (n : Z) :
  level_order self = standard_level_order ->
  (0 <= n)%Z ->
  exists l,
    _elevate_level self current n = Ok l
    /\ forall i, list_index current standard_level_order = Ok i ->
         list_index l standard_level_order = Ok (Z.min (i + n) 4).
Proof.
  intros Ho Hn.
  destruct (list_index current standard_level_order) as [i | e] eqn:E.
  - pose proof (list_index_Ok _ _ _ E) as [Hrange _]. cbn in Hrange.
    destruct (standard_getitem (Z.min (i + n) 4)) as (l & G & I & _); [lia |].
    exists l. rewrite (elevate_known self current n i Ho E).
    split; [done |]. by intros i' [= <-].
  - apply list_index_Raise in E as [_ Hnin]. exists current.
    rewrite elevate_unknown by (by rewrite Ho). by split.
Qed.

(** X15.  With the level order of the constructor and amounts that are not
    negative, elevation never lowers a level, and elevating by [a] and then
    by [b] is elevating by [a + b]. *)
Theorem elevate_level_composes (self : t) (current : string) (a b : Z) :
  level_order self = standard_level_order ->
  (0 <= a)%Z -> (0 <= b)%Z ->
  exists l1 l2,
    _elevate_level self current a = Ok l1
    /\ _elevate_level self l1 b = Ok l2
    /\ _elevate_level self current (a + b) = Ok l2
    /\ (forall i, list_index current standard_level_order = Ok i ->
          exists j, list_index l1 standard_level_order = Ok j /\ (i <= j)%Z).
Proof.
  intros Ho Ha Hb.
  destruct (list_index current standard_level_order) as [i | e] eqn:E.
  - pose proof (list_index_Ok _ _ _ E) as [Hrange _]. cbn in Hrange.
    destruct (standard_getitem (Z.min (i + a) 4)) as (l1 & G1 & I1 & _);
      [lia |].
    destruct (standard_getitem (Z.min (Z.min (i + a) 4 + b) 4))
      as (l2 & G2 & I2 & _); [lia |].
    exists l1, l2.
    rewrite (elevate_known self current a i Ho E), G1.
    rewrite (elevate_known self l1 b _ Ho I1), G2.
    rewrite (elevate_known self current (a + b) i Ho E).
    replace (Z.min (i + (a + b)) 4) with (Z.min (Z.min (i + a) 4 + b) 4)
      by lia.
    repeat split; try done.
    intros i' [= <-]. exists (Z.min (i + a) 4). split; [done | lia].
  - apply list_index_Raise in E as [_ Hnin].
    exists current, current.
    rewrite !elevate_unknown by (by rewrite Ho).
    by repeat split.
Qed.

End BandsAndLevels.

(** ** The outcome of the movement adjuster *)

Section AdjusterOutcome.
Import ZoneClassifier.

Variable self : t.

Local Abbreviation panic := (panic_detection (self_elevation_rules self)).
Local Abbreviation orderly := (orderly_evacuation (self_elevation_rules self)).

Lemma elevate_raises_index_error (current : string) (n : Z) (e : PyErr) :
  _elevate_level self current n = Raise e -> e = IndexError.
Proof.
  unfold _elevate_level, list_getitem.
  destruct (list_index current (level_order self)) as [i | e'] eqn:E.
  - destruct (_ && _); [| by intros [= <-]].
    destruct (nth_error _ _); [discriminate | by intros [= <-]].
  - apply list_index_Raise in E as [-> _]. discriminate.
Qed.

Lemma panic_condition_dec (s v : Q) :
  panic_condition self s v \/ ~ panic_condition self s v.
Proof.
  unfold panic_condition.
  destruct (Qlt_le_dec s (panic_speed_threshold panic));
    destruct (Qlt_le_dec (panic_variance_threshold panic) v);
    first [left; split; assumption | right; intros [? ?]; lra].
Qed.

Lemma orderly_check_cases (base : string) (s v : Q) :
  (orderly_enabled orderly = true /\ orderly_condition self s v
   /\ orderly_check self base s v = (base, Some orderly_reason))
  \/ ((orderly_enabled orderly = false \/ ~ orderly_condition self s v)
      /\ orderly_check self base s v = (base, None)).
Proof.
  unfold orderly_check. destruct (orderly_enabled orderly); [| right; auto].
  destruct (Qlt_bool (orderly_speed_threshold orderly) s
            && Qlt_bool v (orderly_variance_threshold orderly)) eqn:E.
  - left. apply andb_prop in E as [E1 E2].
    repeat split; try done; by apply Qlt_bool_iff.
  - right. split; [| done]. right. intros [H1 H2].
    apply Qlt_bool_iff in H1, H2. by rewrite H1, H2 in E.
Qed.

(** The three ways [_adjust_by_movement] can end. *)
Lemma adjust_cases (base : string) (d s v : Q) :
  (exists l, panic_enabled panic = true /\ panic_condition self s v
             /\ _elevate_level self base (elevation_amount panic) = Ok l
             /\ l <> base
             /\ _adjust_by_movement self base d s v
                = Ok (l, Some panic_reason))
  \/ (panic_enabled panic = true /\ panic_condition self s v
      /\ _elevate_level self base (elevation_amount panic) = Raise IndexError
      /\ _adjust_by_movement self base d s v = Raise IndexError)
  \/ ((panic_enabled panic = false \/ ~ panic_condition self s v
       \/ _elevate_level self base (elevation_amount panic) = Ok base)
      /\ _adjust_by_movement self base d s v
         = Ok (orderly_check self base s v)).
Proof.
  destruct (panic_enabled panic) eqn:Hen;
    [| right; right; split; [by left | by apply adjust_no_panic; left]].
  destruct (panic_condition_dec s v) as [Hc | Hn];
    [| right; right; split; [right; by left | by apply adjust_no_panic; right]].
  destruct (_elevate_level self base (elevation_amount panic)) as [l | e]
    eqn:El.
  - rewrite (adjust_panic self base l d s v Hen Hc El).
    destruct (String.eqb_spec l base) as [-> | Hne].
    + right; right. split; [right; by right | done].
    + left. by exists l.
  - pose proof (elevate_raises_index_error _ _ _ El) as ->.
    right; left. do 3 (split; [done |]).
    unfold _adjust_by_movement.
    by rewrite Hen, (panic_test_true self _ _ Hc), El.
Qed.

Lemma adjust_level_reason (base : string) (d s v : Q) (l : string)
    (r : option string) :
  _adjust_by_movement self base d s v = Ok (l, r) ->
  l <> base <-> r = Some panic_reason.
Proof.
  intros Hadj.
  destruct (adjust_cases base d s v)
    as [(l' & _ & _ & _ & Hne & E) | [(_ & _ & _ & E) | [_ E]]];
    rewrite E in Hadj; [| discriminate |].
  - by injection Hadj as <- <-.
  - destruct (orderly_check_cases base s v) as [(_ & _ & Ec) | [_ Ec]];
      rewrite Ec in Hadj; injection Hadj as <- <-;
      (split; [done | discriminate]).
Qed.

(** X16.  When [_adjust_by_movement] returns, the level differs from the
    base level exactly when the reason is the panic reason, and then the
    panic rule is enabled, its condition holds and the level is the
    elevation of the base level; the orderly reason and no reason come with
    the base level itself.  It raises only [IndexError], from an elevation
    amount that indexes before the start of the level order.  With the
    level order of the constructor and a non-negative amount it always
    returns and never returns a level below the base level. *)
Theorem adjuster_outcome (base : string) (d s v : Q) :
  (forall l r,
     _adjust_by_movement self base d s v = Ok (l, r) ->
     (l <> base <-> r = Some panic_reason)
     /\ (r = Some panic_reason ->
         panic_enabled panic = true /\ panic_condition self s v
         /\ _elevate_level self base (elevation_amount panic) = Ok l)
     /\ (r = Some orderly_reason ->
         l = base /\ orderly_enabled orderly = true
         /\ orderly_condition self s v)
     /\ (r = None ->
         l = base
         /\ (orderly_enabled orderly = false \/ ~ orderly_condition self s v))
     /\ (r = None \/ r = Some panic_reason \/ r = Some orderly_reason))
  /\ (forall e,
        _adjust_by_movement self base d s v = Raise e ->
        e = IndexError /\ panic_enabled panic = true
        /\ panic_condition self s v)
  /\ (level_order self = standard_level_order ->
      (0 <= elevation_amount panic)%Z ->
      exists l r,
        _adjust_by_movement self base d s v = Ok (l, r)
        /\ forall i, list_index base standard_level_order = Ok i ->
             exists j, list_index l standard_level_order = Ok j
                       /\ (i <= j)%Z).
Proof.
  split; [| split].
  - intros l r Hadj.
    destruct (adjust_cases base d s v)
      as [(l' & Hen & Hc & El & Hne & E) | [(_ & _ & _ & E) | [_ E]]];
      rewrite E in Hadj; [| discriminate |].
    + injection Hadj as <- <-.
      repeat split; try done; try discriminate; auto; by destruct Hc.
    + destruct (orderly_check_cases base s v)
        as [(Hen & Hc & Ec) | [Hno Ec]]; rewrite Ec in Hadj;
        injection Hadj as <- <-;
        repeat split; try done; try discriminate; auto; by destruct Hc.
  - intros e Hadj.
    destruct (adjust_cases base d s v)
      as [(l' & _ & _ & _ & _ & E) | [(Hen & Hc & _ & E) | [_ E]]];
      rewrite E in Hadj; [discriminate | | discriminate].
    by injection Hadj as <-.
  - intros Ho Hamt.
    destruct (elevate_rank self base (elevation_amount panic) Ho Hamt)
      as (l1 & El & Hrank).
    destruct (adjust_cases base d s v)
      as [(l' & _ & _ & El' & _ & E) | [(_ & _ & El' & _) | [_ E]]].
    + exists l', (Some panic_reason). split; [done |].
      intros i Hi. rewrite El in El'. injection El' as <-.
      pose proof (list_index_Ok _ _ _ Hi) as [Hrange _]. cbn in Hrange.
      exists (Z.min (i + elevation_amount panic) 4).
      split; [by apply Hrank | lia].
    + congruence.
    + destruct (orderly_check_cases base s v) as [(_ & _ & Ec) | [_ Ec]];
        rewrite Ec in E; eexists _, _; (split; [exact E |]);
        intros i Hi; exists i; (split; [done | lia]).
Qed.

End AdjusterOutcome.

(** ** Classification of a zone *)

Section ZoneClassification.
Import ZoneClassifier.

Lemma round_half_even_near (x : Q) :
  round_half_even x = Qfloor x \/
  (round_half_even x = (Qfloor x + 1)%Z /\ (1 # 2 <= x - inject_Z (Qfloor x))%Q).
Proof.
  unfold round_half_even.
  destruct (Qlt_bool (x - inject_Z (Qfloor x)) (1 # 2)) eqn:E; [by left |].
  apply Qlt_bool_false in E.
  destruct (Qlt_bool (1 # 2) (x - inject_Z (Qfloor x))); [by right |].
  destruct (Z.even (Qfloor x)); [by left | by right].
Qed.

Lemma py_round2_range (q : Q) :
  (0 <= q)%Q -> (q <= 100)%Q ->
  (0 <= py_round2 q)%Q /\ (py_round2 q <= 100)%Q.
Proof.
  intros H0 H100. unfold py_round2.
  set (x := (q * 100)%Q).
  assert (0 <= x)%Q as Hx0 by (unfold x; lra).
  assert (x <= 10000)%Q as Hx1 by (unfold x; lra).
  assert (0 <= Qfloor x)%Z as Hf0
    by (change 0%Z with (Qfloor 0); by apply Qfloor_resp_le).
  pose proof (Qfloor_le x) as Hfl.
  assert (0 <= round_half_even x <= 10000)%Z as [Hr0 Hr1].
  { destruct (round_half_even_near x) as [-> | [-> Hhalf]].
    - split; [done |]. rewrite Zle_Qle. change (inject_Z 10000) with 10000%Q.
      lra.
    - split; [lia |].
      assert (Qfloor x < 10000)%Z; [| lia].
      rewrite Zlt_Qlt. change (inject_Z 10000) with 10000%Q. lra. }
  rewrite Zle_Qle in Hr0, Hr1.
  change (inject_Z 0) with 0%Q in Hr0.
  change (inject_Z 10000) with 10000%Q in Hr1.
  split.
  - apply Qle_shift_div_l; [done | lra].
  - apply Qle_shift_div_r; [done | lra].
Qed.

Lemma assoc_lookup_In {V : Type} (k : string) (v : V) (d : list (string * V)) :
  In (k, v) d -> exists v', assoc_lookup k d = Some v'.
Proof.
  induction d as [| [k' v'] d IH]; [intros [] |].
  cbn. destruct (String.eqb_spec k k') as [-> | Hne]; [by eexists |].
  intros [[= -> ->] | Hin]; [done | by apply IH].
Qed.

(** The level and the reason [classify_zone] obtains in its third step. *)
Local Abbreviation adjusted self density speed variance :=
  match speed, variance with
  | Some s, Some v =>
      _adjust_by_movement self (_classify_by_density self density) density s v
  | _, _ => Ok (_classify_by_density self density, @None string)
  end.

Local Abbreviation record_of self density speed variance zone_id q l r info :=
  {| c_zone_id := zone_id;
     c_level := l;
     c_base_level := _classify_by_density self density;
     c_color := color_hex info;
     c_color_name := color_name info;
     c_alert_level := alert_level info;
     c_severity_score := py_round2 q;
     c_requires_action := requires_action info;
     c_description := description info;
     c_density := density;
     c_speed := speed;
     c_variance := variance;
     c_elevated := negb (String.eqb l (_classify_by_density self density));
     c_elevation_reason := r |}.

Lemma classify_zone_steps (self : t) (d : Q) (speed variance : option Q)
    (zone_id : option string) (q : Q) (l : string) (r : option string)
    (info : LevelInfo) :
  _calculate_severity_score self d speed variance = Ok q ->
  adjusted self d speed variance = Ok (l, r) ->
  assoc_lookup l (thresholds self) = Some info ->
  classify_zone self d speed variance zone_id
  = Ok (record_of self d speed variance zone_id q l r info,
        with_history self
          (classification_history self
           ++ [record_of self d speed variance zone_id q l r info])).
Proof.
  intros Hq Hadj Hinfo. unfold classify_zone. rewrite Hq, bind_Ok.
  rewrite Hadj, bind_Ok. unfold dict_get. by rewrite Hinfo.
Qed.

Lemma classify_zone_inv (self self' : t) (d : Q) (speed variance : option Q)
    (zone_id : option string) (c : Classification) :
  classify_zone self d speed variance zone_id = Ok (c, self') ->
  exists q l r info,
    _calculate_severity_score self d speed variance = Ok q
    /\ adjusted self d speed variance = Ok (l, r)
    /\ assoc_lookup l (thresholds self) = Some info
    /\ c = record_of self d speed variance zone_id q l r info
    /\ self' = with_history self (classification_history self ++ [c]).
Proof.
  intros H.
  destruct (_calculate_severity_score self d speed variance) as [q | e] eqn:Hq;
    [| unfold classify_zone in H; by rewrite Hq in H].
  destruct (adjusted self d speed variance) as [[l r] | e] eqn:Hadj;
    [| unfold classify_zone in H; by rewrite Hq, bind_Ok, Hadj in H].
  destruct (assoc_lookup l (thresholds self)) as [info |] eqn:Hinfo.
  - rewrite (classify_zone_steps self d speed variance zone_id q l r info)
      in H by done.
    injection H as <- <-. by exists q, l, r, info.
  - unfold classify_zone in H. rewrite Hq, bind_Ok, Hadj, bind_Ok in H.
    unfold dict_get in H. by rewrite Hinfo in H.
Qed.

(** X17.  A record returned by [classify_zone] echoes the zone, the density
    and the movement values; its base level is the density class; its
    level has an entry in the threshold table and the colour, the alert
    level, the action flag and the description are those of that entry;
    [elevated] is true exactly when the level differs from the base level,
    which is exactly when the reason is the panic reason; the rounded
    severity lies between 0 and 100; and the object differs from the one
    before by this record appended to its history. *)
Theorem classify_zone_record (self self' : t) (d : Q)
    (speed variance : option Q) (zone_id : option string)
    (c : Classification) :
  classify_zone self d speed variance zone_id = Ok (c, self') ->
  (c_zone_id c = zone_id /\ c_density c = d
   /\ c_speed c = speed /\ c_variance c = variance)
  /\ c_base_level c = _classify_by_density self d
  /\ (exists info,
        assoc_lookup (c_level c) (thresholds self) = Some info
        /\ c_color c = color_hex info
        /\ c_color_name c = color_name info
        /\ c_alert_level c = alert_level info
        /\ c_requires_action c = requires_action info
        /\ c_description c = description info)
  /\ (c_elevated c = true <-> c_level c <> c_base_level c)
  /\ (c_elevated c = true <-> c_elevation_reason c = Some panic_reason)
  /\ ((0 <= c_severity_score c)%Q /\ (c_severity_score c <= 100)%Q)
  /\ self' = with_history self (classification_history self ++ [c]).
Proof.
  intros H.
  destruct (classify_zone_inv _ _ _ _ _ _ _ H)
    as (q & l & r & info & Hq & Hadj & Hinfo & -> & ->).
  cbn. split; [done |]. split; [done |].
  split; [by exists info |].
  assert (negb (String.eqb l (_classify_by_density self d)) = true
          <-> l <> _classify_by_density self d) as Hneq.
  { rewrite negb_true_iff. destruct (String.eqb_spec l (_classify_by_density self d));
      split; congruence. }
  split; [exact Hneq |]. split.
  - rewrite Hneq.
    destruct speed as [s |], variance as [v |];
      try (injection Hadj as <- <-; split; [congruence | discriminate]).
    by apply (adjust_level_reason self _ d s v).
  - split; [| done].
    apply py_round2_range; by apply (score_in_range self d speed variance).
Qed.

Lemma score_ignores_lone_value (self : t) (d : Q) (speed variance : option Q) :
  speed = None \/ variance = None ->
  _calculate_severity_score self d speed variance
  = _calculate_severity_score self d None None.
Proof.
  intros [-> | ->]; [by destruct variance | by destruct speed].
Qed.

(** X18.  When the speed or the variance is missing, [classify_zone] does
    not consult the movement rules and ignores the value that is present:
    provided the density-only score is defined and the density class has an
    entry in the threshold table, it returns a record whose level is the
    density class, not elevated, without a reason, and whose severity is
    the rounded density-only score. *)
Theorem classify_zone_without_movement (self : t) (d : Q)
    (speed variance : option Q) (zone_id : option string) (q : Q)
    (info : LevelInfo) :
  speed = None \/ variance = None ->
  _calculate_severity_score self d None None = Ok q ->
  assoc_lookup (_classify_by_density self d) (thresholds self) = Some info ->
  exists c self',
    classify_zone self d speed variance zone_id = Ok (c, self')
    /\ c_level c = _classify_by_density self d
    /\ c_base_level c = _classify_by_density self d
    /\ c_elevated c = false
    /\ c_elevation_reason c = None
    /\ c_severity_score c = py_round2 q
    /\ c_requires_action c = requires_action info.
Proof.
  intros Hmiss Hq Hinfo.
  rewrite <- (score_ignores_lone_value self d speed variance Hmiss) in Hq.
  assert (adjusted self d speed variance
          = Ok (_classify_by_density self d, None)) as Hadj.
  { destruct Hmiss as [-> | ->]; [done | by destruct speed]. }
  do 2 eexists.
  split; [by apply (classify_zone_steps self d speed variance zone_id q
                      (_classify_by_density self d) None info) |].
  cbn. by rewrite String.eqb_refl.
Qed.

Lemma configured_with_history (self : t) (h : list Classification) :
  configured self -> configured (with_history self h).
Proof. done. Qed.

Lemma elevate_configured (self : t) (current : string) (n : Z) :
  level_order self = standard_level_order ->
  (-5 <= n)%Z ->
  exists l, _elevate_level self current n = Ok l
            /\ (l = current \/ In l standard_level_order).
Proof.
  intros Ho Hn.
  destruct (list_index current standard_level_order) as [i | e] eqn:E.
  - pose proof (list_index_Ok _ _ _ E) as [Hrange _]. cbn in Hrange.
    rewrite (elevate_known self current n i Ho E).
    destruct (Z.le_gt_cases 0 (i + n)) as [Hpos | Hneg].
    + destruct (standard_getitem (Z.min (i + n) 4)) as (l & G & _ & Hin);
        [lia |]. exists l. split; [done | by right].
    + replace (Z.min (i + n) 4) with (i + n)%Z by lia.
      rewrite standard_getitem_wraps by lia.
      destruct (standard_getitem (i + n + 5)) as (l & G & _ & Hin); [lia |].
      exists l. split; [done | by right].
  - apply list_index_Raise in E as [_ Hnin]. exists current.
    rewrite elevate_unknown by (by rewrite Ho). split; [done | by left].
Qed.

Lemma classify_zone_configured (self : t) (d : Q) (speed variance : option Q)
    (zone_id : option string) :
  configured self ->
  exists c,
    classify_zone self d speed variance zone_id
    = Ok (c, with_history self (classification_history self ++ [c])).
Proof.
  intros (Ho & (cap & Hcap & Hmax) & Hfast & Hpanic & Hamt & Hlevels).
  assert (exists q, _calculate_severity_score self d speed variance = Ok q)
    as [q Hq].
  { destruct (severity_score_cases self d speed variance)
      as [[Hn _] | [(cap' & Hc' & Hz & _) |
          [(cap' & _ & _ & _ & _ & Hz & _) |
           (cap' & x & _ & _ & _ & ->)]]].
    - congruence.
    - rewrite Hcap in Hc'. injection Hc' as <-. contradiction.
    - destruct Hz; contradiction.
    - by eexists. }
  set (base := _classify_by_density self d).
  assert (exists info, assoc_lookup base (thresholds self) = Some info)
    as Hbase.
  { destruct (first_band_key (thresholds self) d)
      as [(th & Hin & _) | [Hem _]].
    - by apply (assoc_lookup_In _ th).
    - unfold base, _classify_by_density. rewrite Hem.
      apply Hlevels. cbn. tauto. }
  assert (exists l r, adjusted self d speed variance = Ok (l, r)
                      /\ (l = base \/ In l standard_level_order))
    as (l & r & Hadj & Hl).
  { destruct speed as [s |], variance as [v |];
      try (exists base, None; split; [done | by left]).
    destruct (elevate_configured self base
                (elevation_amount (panic_detection (self_elevation_rules self)))
                Ho Hamt) as (l & El & Hl).
    destruct (adjust_cases self base d s v)
      as [(l' & _ & _ & El' & _ & E) | [(_ & _ & El' & _) | [_ E]]].
    - exists l', (Some panic_reason). split; [done |]. congruence.
    - congruence.
    - destruct (orderly_check_cases self base s v)
        as [(_ & _ & Ec) | [_ Ec]]; rewrite Ec in E;
        eexists _, _; (split; [exact E | by left]). }
  assert (exists info, assoc_lookup l (thresholds self) = Some info)
    as [info Hinfo].
  { destruct Hl as [-> | Hin]; [exact Hbase | by apply Hlevels]. }
  eexists.
  by apply (classify_zone_steps self d speed variance zone_id q l r info).
Qed.

(** X19.  On a configured classifier -- the constructor's level order,
    non-zero divisors, an elevation amount of at least [-5] and a threshold
    entry for each of the five levels -- [classify_zone] returns a record
    for every density, speed, variance and zone, and the classifier it
    leaves is configured again. *)
Theorem classify_zone_total (self : t) (d : Q) (speed variance : option Q)
    (zone_id : option string) :
  configured self ->
  exists c self',
    classify_zone self d speed variance zone_id = Ok (c, self')
    /\ configured self'
    /\ classification_history self' = (classification_history self ++ [c])%list.
Proof.
  intros Hc.
  destruct (classify_zone_configured self d speed variance zone_id Hc)
    as [c E].
  by exists c, (with_history self (classification_history self ++ [c])).
Qed.

Lemma classify_zone_with_history (self : t) (h : list Classification) (d : Q)
    (speed variance : option Q) (zone_id : option string)
    (c : Classification) (self' : t) :
  classify_zone self d speed variance zone_id = Ok (c, self') ->
  classify_zone (with_history self h) d speed variance zone_id
  = Ok (c, with_history self (h ++ [c])).
Proof.
  intros H.
  destruct (classify_zone_inv _ _ _ _ _ _ _ H)
    as (q & l & r & info & Hq & Hadj & Hinfo & -> & _).
  by rewrite (classify_zone_steps (with_history self h) d speed variance
                zone_id q l r info).
Qed.

(** The row of a zone is built from the record that [classify_zone]
    returns for it on the classifier as it was before the batch. *)
Local Abbreviation classified_as self :=
  (fun (zone : Zone) (row : ClassifiedZone) =>
     exists c self',
       classify_zone self (z_density zone) (z_movement_speed zone)
                     (z_direction_variance zone) (z_zone_id zone)
       = Ok (c, self')
       /\ row = result_row zone c).

Lemma classify_loop_configured (self : t) (zones : list Zone) :
  configured self ->
  forall (h : list Classification) (acc : list ClassifiedZone),
    exists rows cs,
      classify_loop (with_history self h) zones acc
      = Ok ((acc ++ rows)%list, with_history self (h ++ cs))
      /\ Forall2 (classified_as self) zones rows
      /\ length cs = length zones.
Proof.
  intros Hc. induction zones as [| zone zones IH]; intros h acc.
  - exists [], []. cbn. rewrite !app_nil_r. repeat split; constructor.
  - cbn [classify_loop].
    destruct (classify_zone_configured self (z_density zone)
                (z_movement_speed zone) (z_direction_variance zone)
                (z_zone_id zone) Hc) as [c E].
    rewrite (classify_zone_with_history self h _ _ _ _ c _ E), bind_Ok.
    destruct (IH (h ++ [c])%list (append_result acc zone c))
      as (rows & cs & -> & HF & Hlen).
    exists (result_row zone c :: rows), (c :: cs).
    unfold append_result. rewrite <- !app_assoc. cbn.
    repeat split; try done; [| by rewrite Hlen].
    constructor; [| done]. by eexists c, _.
Qed.

(** X20.  On a configured classifier [classify_all_zones] returns a frame
    with one row per zone, in the order of the zones; each row is built
    from the record [classify_zone] returns for that zone alone, so it
    carries the zone's identifier and density; and the history of the
    classifier grows by the number of zones. *)
Theorem classify_all_zones_rows (self : t) (zones : list Zone) :
  configured self ->
  exists df self',
    classify_all_zones self zones = Ok (df, self')
    /\ Forall2 (classified_as self) zones (rows df)
    /\ length (rows df) = length zones
    /\ map r_zone_id (rows df) = map z_zone_id zones
    /\ map r_density (rows df) = map z_density zones
    /\ length (classification_history self')
       = (length (classification_history self) + length zones)%nat
    /\ configured self'.
Proof.
  intros Hc. unfold classify_all_zones.
  destruct (classify_loop_configured self zones Hc
              (classification_history self) [])
    as (rs & cs & E & HF & Hlen).
  assert (with_history self (classification_history self) = self) as Hself
    by (by destruct self).
  rewrite Hself in E. rewrite E, bind_Ok. cbn [app].
  do 2 eexists. split; [reflexivity |]. cbn [rows pd_DataFrame].
  split; [exact HF |].
  split; [symmetry; by apply (Forall2_length _ _ _ HF) |].
  split; [| split; [| split]].
  - clear E Hlen. induction HF as [| zone row zones rs' (c & s' & E & ->) _ IH];
      [done |].
    cbn. f_equal; [| exact IH].
    by destruct (classify_zone_inv _ _ _ _ _ _ _ E)
      as (? & ? & ? & ? & _ & _ & _ & -> & _).
  - clear E Hlen. induction HF as [| zone row zones rs' (c & s' & E & ->) _ IH];
      [done |].
    cbn. f_equal; [| exact IH].
    by destruct (classify_zone_inv _ _ _ _ _ _ _ E)
      as (? & ? & ? & ? & _ & _ & _ & -> & _).
  - cbn. rewrite length_app. lia.
  - by apply configured_with_history.
Qed.

End ZoneClassification.

(** ** The classification summary of a frame with rows *)

Section ClassificationSummary.
Import ZoneClassifier.

Lemma level_counts_add_up (col : list string) :
  (length (List.filter (String.eqb "safe") col)
   + length (List.filter (String.eqb "moderate") col)
   + length (List.filter (String.eqb "warning") col)
   + length (List.filter (String.eqb "critical") col)
   + length (List.filter (String.eqb "emergency") col))%nat
  = length (List.filter
              (fun level => existsb (String.eqb level) standard_level_order)
              col).
Proof.
  induction col as [| a col IH]; [done |].
  cbn [List.filter existsb standard_level_order].
  rewrite !(String.eqb_sym a).
  destruct (String.eqb_spec "safe" a) as [<- | H1]; [cbn in *; lia |].
  destruct (String.eqb_spec "moderate" a) as [<- | H2]; [cbn in *; lia |].
  destruct (String.eqb_spec "warning" a) as [<- | H3]; [cbn in *; lia |].
  destruct (String.eqb_spec "critical" a) as [<- | H4]; [cbn in *; lia |].
  destruct (String.eqb_spec "emergency" a) as [<- | H5]; cbn in *; lia.
Qed.

(** X21.  For a frame that has the result columns and a classifier with the
    constructor's level order, [get_classification_summary] returns a
    summary: [total_zones] is the number of rows; [level_counts] has the
    five levels as keys, in order, each with the number of rows of that
    level; the counts add up to the number of rows whose level is one of
    the five, hence to at most [total_zones]; the two flag counts are the
    numbers of rows with the flag set; and the mean severity is NaN exactly
    when the frame has no rows. *)
Theorem classification_summary_counts (self : t) (df : DataFrame) :
  level_order self = standard_level_order ->
  columns df = result_columns ->
  exists summary,
    get_classification_summary self df = Ok summary
    /\ total_zones summary = length (rows df)
    /\ map fst (level_counts summary) = standard_level_order
    /\ map fst (level_percentages summary) = standard_level_order
    /\ (forall level, In level standard_level_order ->
          assoc_lookup level (level_counts summary)
          = Some (length (List.filter (String.eqb level)
                                      (map r_level (rows df)))))
    /\ list_sum (map snd (level_counts summary))
       = length (List.filter
                   (fun r => existsb (String.eqb (r_level r))
                                     standard_level_order)
                   (rows df))
    /\ (list_sum (map snd (level_counts summary)) <= total_zones summary)%nat
    /\ zones_requiring_action summary
       = length (List.filter r_requires_action (rows df))
    /\ elevated_zones summary = length (List.filter r_elevated (rows df))
    /\ (average_severity summary = NaN <-> rows df = []).
Proof.
  intros Ho Hcols.
  assert (forall (A : Type) (name : string) (cell : ClassifiedZone -> A),
            existsb (String.eqb name) result_columns = true ->
            df_getitem df name cell = Ok (map cell (rows df))) as Hget.
  { intros A name cell Hin. unfold df_getitem. by rewrite Hcols, Hin. }
  unfold get_classification_summary.
  rewrite !Hget, !bind_Ok by reflexivity. rewrite Ho.
  cbn [count_levels standard_level_order].
  rewrite !Hget, !bind_Ok by reflexivity.
  cbn [count_levels level_counts level_percentages total_zones dict_set
       String.eqb Ascii.eqb Bool.eqb average_severity max_severity
       zones_requiring_action elevated_zones].
  eexists. split; [reflexivity |].
  cbn [total_zones level_counts level_percentages map fst snd list_sum
       average_severity zones_requiring_action elevated_zones].
  assert (forall (p : ClassifiedZone -> bool) (l : list ClassifiedZone),
            series_sum (map p l) = length (List.filter p l)) as Hsum.
  { intros p l. unfold series_sum. induction l as [| a l IH]; [done |].
    cbn. destruct (p a); cbn; by rewrite IH. }
  assert (forall l : list ClassifiedZone,
            length (List.filter
                      (fun level => existsb (String.eqb level)
                                            standard_level_order)
                      (map r_level l))
            = length (List.filter
                        (fun r => existsb (String.eqb (r_level r))
                                          standard_level_order) l)) as Hmap.
  { induction l as [| a l IH]; [done |]. cbn [map List.filter].
    destruct (existsb _ _); cbn [length]; by rewrite IH. }
  split; [done |]. split; [done |]. split; [done |]. split.
  { intros level Hin. cbn in Hin.
    destruct Hin as [<- | [<- | [<- | [<- | [<- | []]]]]]; reflexivity. }
  assert (list_sum
            [length (List.filter (String.eqb "safe") (map r_level (rows df)));
             length (List.filter (String.eqb "moderate") (map r_level (rows df)));
             length (List.filter (String.eqb "warning") (map r_level (rows df)));
             length (List.filter (String.eqb "critical") (map r_level (rows df)));
             length (List.filter (String.eqb "emergency") (map r_level (rows df)))]
          = length (List.filter
                      (fun r => existsb (String.eqb (r_level r))
                                        standard_level_order) (rows df)))
    as Hadd.
  { rewrite <- Hmap, <- level_counts_add_up.
    unfold list_sum. cbn [fold_right]. lia. }
  split; [exact Hadd |]. split.
  { eapply Nat.le_trans; [apply Nat.eq_le_incl; exact Hadd |].
    apply List.filter_length_le. }
  split; [apply Hsum |]. split; [apply Hsum |].
  unfold series_mean. destruct (rows df); cbn; split; done.
Qed.

End ClassificationSummary.

(** ** Regions and exits of the instruction generator *)

Section RegionsAndExits.
Import InstructionGenerator.

Lemma py_range_In (n z : Z) : In z (py_range n) <-> (0 <= z < n)%Z.
Proof.
  unfold py_range. rewrite in_map_iff. split.
  - intros (k & <- & Hk). apply in_seq in Hk. lia.
  - intros Hz. exists (Z.to_nat z). split; [lia |]. apply in_seq. lia.
Qed.

Lemma grid_cells_In (rows cols x y : Z) :
  In (x, y) (grid_cells rows cols)
  <-> (0 <= x < rows)%Z /\ (0 <= y < cols)%Z.
Proof.
  unfold grid_cells. rewrite in_flat_map. split.
  - intros (i & Hi & Hin). apply in_map_iff in Hin as (j & [= <- <-] & Hj).
    by rewrite <- !py_range_In.
  - intros [Hx Hy]. exists x. split; [by apply py_range_In |].
    apply in_map_iff. exists y. split; [done | by apply py_range_In].
Qed.

Lemma fold_left_flat_map {A B C : Type} (f : A -> C -> A) (g : B -> list C)
    (l : list B) (a : A) :
  fold_left f (flat_map g l) a
  = fold_left (fun a b => fold_left f (g b) a) l a.
Proof.
  revert a. induction l as [| b l IH]; intros a; [done |].
  cbn. by rewrite fold_left_app, IH.
Qed.

Lemma fold_left_map {A B C : Type} (f : A -> C -> A) (g : B -> C)
    (l : list B) (a : A) :
  fold_left f (map g l) a = fold_left (fun a b => f a (g b)) l a.
Proof.
  revert a. induction l as [| b l IH]; intros a; [done |]. cbn. apply IH.
Qed.

Lemma region_of_cell_cases (i j : Z) :
  region_of_cell i j = "North" \/ region_of_cell i j = "South"
  \/ region_of_cell i j = "East" \/ region_of_cell i j = "West"
  \/ region_of_cell i j = "Central".
Proof.
  unfold region_of_cell.
  destruct (i <=? 2)%Z; [tauto |]. destruct (7 <=? i)%Z; [tauto |].
  destruct (7 <=? j)%Z; [tauto |]. destruct (j <=? 2)%Z; tauto.
Qed.

Lemma append_cell (cells : list (Z * Z)) (c : Z * Z) :
  dict_append (regions_of_cells cells) (region_of_cell c.1 c.2) c
  = regions_of_cells (cells ++ [c]).
Proof.
  unfold regions_of_cells. cbn [map]. rewrite !List.filter_app.
  cbn [List.filter].
  destruct (region_of_cell_cases c.1 c.2) as [E | [E | [E | [E | E]]]];
    rewrite E; cbn; by rewrite ?app_nil_r.
Qed.

Lemma define_exit_regions_cells (rows cols : Z) :
  _define_exit_regions rows cols = regions_of_cells (grid_cells rows cols).
Proof.
  unfold _define_exit_regions.
  assert (forall cells pre,
            fold_left (fun d (c : Z * Z) =>
                         dict_append d (region_of_cell c.1 c.2) c)
                      cells (regions_of_cells pre)
            = regions_of_cells (pre ++ cells)) as Hfold.
  { induction cells as [| c cells IH]; intros pre; cbn [fold_left].
    - by rewrite app_nil_r.
    - rewrite append_cell, IH. by rewrite <- app_assoc. }
  change [("North", []); ("South", []); ("East", []); ("West", []);
          ("Central", [])] with (regions_of_cells []).
  etrans; [| apply (Hfold (grid_cells rows cols) [])]. unfold grid_cells.
  rewrite fold_left_flat_map.
  generalize (regions_of_cells []).
  induction (py_range rows) as [| i l IH]; intros d; [done |].
  cbn [fold_left]. rewrite IH. f_equal. by rewrite fold_left_map.
Qed.

Lemma existsb_region (cells : list (Z * Z)) (name : string) (x y : Z) :
  existsb (cell_eqb (x, y))
          (List.filter (fun c => String.eqb (region_of_cell c.1 c.2) name)
                       cells)
  = existsb (cell_eqb (x, y)) cells && String.eqb (region_of_cell x y) name.
Proof.
  induction cells as [| [i j] cells IH]; [done |].
  cbn [List.filter existsb fst snd].
  destruct (cell_eqb (x, y) (i, j)) eqn:E.
  - unfold cell_eqb in E. cbn in E. apply andb_prop in E as [E1 E2].
    apply Z.eqb_eq in E1, E2. subst i j. cbn [fst snd].
    destruct (String.eqb (region_of_cell x y) name) eqn:Er.
    + cbn [existsb]. unfold cell_eqb at 1. cbn. by rewrite !Z.eqb_refl.
    + rewrite IH. by rewrite !andb_false_r.
  - cbn [orb]. destruct (String.eqb (region_of_cell i j) name).
    + cbn [existsb]. by rewrite E, IH.
    + exact IH.
Qed.

Lemma existsb_cell_In (cells : list (Z * Z)) (x y : Z) :
  existsb (cell_eqb (x, y)) cells = true <-> In (x, y) cells.
Proof.
  rewrite existsb_exists. split.
  - intros ([i j] & Hin & E). unfold cell_eqb in E. cbn in E.
    apply andb_prop in E as [E1 E2]. apply Z.eqb_eq in E1, E2. by subst.
  - intros Hin. exists (x, y). split; [done |].
    unfold cell_eqb. cbn. by rewrite !Z.eqb_refl.
Qed.

(** X22.  On a generator constructed for a grid of [rows] by [cols],
    [get_zone_region] of a cell inside the grid is "North" for rows 0 to 2,
    otherwise "South" for rows from 7 on, otherwise "East" for columns from
    7 on, otherwise "West" for columns 0 to 2, otherwise "Central" -- the
    bounds 2 and 7 do not depend on the size of the grid -- and a cell
    outside the grid is "Central". *)
Theorem zone_region_closed_form (rows cols x y : Z) :
  ((0 <= x < rows)%Z -> (0 <= y < cols)%Z ->
   get_zone_region (__init__ (rows, cols)) x y
   = if (x <=? 2)%Z then "North"
     else if (7 <=? x)%Z then "South"
     else if (7 <=? y)%Z then "East"
     else if (y <=? 2)%Z then "West"
     else "Central")
  /\ (~ ((0 <= x < rows)%Z /\ (0 <= y < cols)%Z) ->
      get_zone_region (__init__ (rows, cols)) x y = "Central").
Proof.
  unfold get_zone_region, __init__. cbn [exit_map fst snd].
  rewrite define_exit_regions_cells. unfold regions_of_cells.
  cbn [map region_lookup]. rewrite !existsb_region.
  split.
  - intros Hx Hy.
    assert (existsb (cell_eqb (x, y)) (grid_cells rows cols) = true) as ->
      by (by apply existsb_cell_In, grid_cells_In).
    cbn [andb]. fold (region_of_cell x y).
    destruct (region_of_cell_cases x y) as [E | [E | [E | [E | E]]]];
      by rewrite E.
  - intros Hout.
    assert (existsb (cell_eqb (x, y)) (grid_cells rows cols) = false) as ->.
    { apply not_true_is_false. rewrite existsb_cell_In, grid_cells_In.
      exact Hout. }
    reflexivity.
Qed.

Lemma insert_stable_by_key {A : Type} (precedes : A -> A -> bool)
    (key : A -> Z) (x : A) (l : list A) :
  (forall a b, precedes a b = true -> (key a <= key b)%Z) ->
  (forall a b, precedes a b = false -> (key b <= key a)%Z) ->
  StronglySorted (fun a b => (key a <= key b)%Z) l ->
  StronglySorted (fun a b => (key a <= key b)%Z) (insert_stable precedes x l).
Proof.
  intros Ht Hf. induction 1 as [| y l Hl IH Hy]; cbn.
  - constructor; constructor.
  - destruct (precedes y x) eqn:E.
    + constructor; [exact IH |].
      rewrite insert_stable_perm. constructor; [by apply Ht | exact Hy].
    + constructor; [by constructor |].
      pose proof (Hf y x E) as Hxy. constructor; [exact Hxy |].
      eapply Forall_impl; [exact Hy |]. cbn. intros z Hz. lia.
Qed.

Lemma py_sorted_by_key {A : Type} (precedes : A -> A -> bool)
    (key : A -> Z) (l : list A) :
  (forall a b, precedes a b = true -> (key a <= key b)%Z) ->
  (forall a b, precedes a b = false -> (key b <= key a)%Z) ->
  StronglySorted (fun a b => (key a <= key b)%Z) (py_sorted precedes l).
Proof.
  intros Ht Hf. induction l as [| x l IH]; cbn; [constructor |].
  by apply insert_stable_by_key.
Qed.

Lemma sorted_app_le {A : Type} (key : A -> Z) (l1 l2 : list A) :
  StronglySorted (fun a b => (key a <= key b)%Z) (l1 ++ l2) ->
  forall a b, In a l1 -> In b l2 -> (key a <= key b)%Z.
Proof.
  induction l1 as [| x l1 IH]; cbn; [intros _ a b [] |].
  intros Hs a b [<- | Ha] Hb.
  - apply StronglySorted_inv in Hs as [_ Hall].
    rewrite Forall_forall in Hall. apply Hall.
    apply elem_of_app. right. by apply list_elem_of_In.
  - apply StronglySorted_inv in Hs as [Hs _]. by apply IH.
Qed.

Lemma firstn_incl {A : Type} (n : nat) (l : list A) (a : A) :
  In a (firstn n l) -> In a l.
Proof.
  revert l. induction n as [| n IH]; intros [| b l]; cbn; try tauto.
  intros [-> | H]; [by left | right; by apply IH].
Qed.

Lemma StronglySorted_map_in {A B : Type} (R : A -> A -> Prop)
    (R' : B -> B -> Prop) (f : A -> B) (l : list A) :
  StronglySorted R l ->
  (forall a b, In a l -> In b l -> R a b -> R' (f a) (f b)) ->
  StronglySorted R' (map f l).
Proof.
  induction 1 as [| x l Hl IH Hx]; intros HR; cbn; [constructor |].
  constructor.
  - apply IH. intros a b Ha Hb. apply HR; by right.
  - rewrite Forall_forall in Hx. apply Forall_forall. intros z Hz.
    apply list_elem_of_In, in_map_iff in Hz as (a & <- & Ha).
    apply HR; [by left | by right |]. by apply Hx, list_elem_of_In.
Qed.

Local Abbreviation exit_distances x y :=
  (map (fun e : string * (Z * Z) => (manhattan x y e.2, e.1)) exit_locations).

Lemma exit_location_unique (name : string) (loc loc' : Z * Z) :
  In (name, loc) exit_locations -> In (name, loc') exit_locations ->
  loc = loc'.
Proof.
  cbn. intros [[= <- <-] | [[= <- <-] | [[= <- <-] | [[= <- <-] | []]]]];
    intros [[= <-] | [[= <-] | [[= <-] | [[= <-] | []]]]]; reflexivity.
Qed.

(** X23.  [get_nearest_exits] returns distinct names among North, South,
    East and West, [min(max_exits, 4)] of them when [max_exits] is not
    negative, in order of non-decreasing Manhattan distance from the cell
    to the exit's location; every exit it returns is at most as far as
    every exit it leaves out. *)
Theorem nearest_exits_are_nearest (x y max_exits : Z) :
  ((0 <= max_exits)%Z ->
   length (get_nearest_exits x y max_exits)
   = Z.to_nat (Z.min max_exits 4))
  /\ NoDup (get_nearest_exits x y max_exits)
  /\ (forall e, In e (get_nearest_exits x y max_exits) ->
        exists loc, In (e, loc) exit_locations)
  /\ (forall e e' loc loc',
        In e (get_nearest_exits x y max_exits) ->
        In (e, loc) exit_locations ->
        In (e', loc') exit_locations ->
        ~ In e' (get_nearest_exits x y max_exits) ->
        (manhattan x y loc <= manhattan x y loc')%Z)
  /\ StronglySorted
       (fun e e' =>
          forall loc loc',
            In (e, loc) exit_locations -> In (e', loc') exit_locations ->
            (manhattan x y loc <= manhattan x y loc')%Z)
       (get_nearest_exits x y max_exits).
Proof.
  unfold get_nearest_exits.
  set (sorted := py_sorted distance_lt (exit_distances x y)).
  assert (sorted ≡ₚ exit_distances x y) as Hperm by apply py_sorted_perm.
  assert (StronglySorted (fun a b : Z * string => (a.1 <= b.1)%Z) sorted)
    as Hsorted.
  { apply (py_sorted_by_key distance_lt fst).
    - intros a b H. unfold distance_lt in H.
      apply orb_prop in H as [H | H]; [apply Z.ltb_lt in H; lia |].
      apply andb_prop in H as [H _]. apply Z.eqb_eq in H. lia.
    - intros a b H. unfold distance_lt in H.
      apply orb_false_iff in H as [H _]. apply Z.ltb_ge in H. lia. }
  assert (exists n, py_slice_to sorted max_exits = firstn n sorted
                    /\ ((0 <= max_exits)%Z -> n = Z.to_nat max_exits))
    as (n & -> & Hn).
  { unfold py_slice_to. destruct (max_exits <? 0)%Z eqn:E.
    - eexists. split; [reflexivity |]. apply Z.ltb_lt in E. lia.
    - eexists. split; [reflexivity | done]. }
  assert (forall d e, In (d, e) sorted ->
            exists loc, In (e, loc) exit_locations /\ d = manhattan x y loc)
    as Hentry.
  { intros d e Hin. rewrite <- list_elem_of_In, Hperm, list_elem_of_In in Hin.
    apply in_map_iff in Hin as ([e0 loc] & [= <- <-] & Hin). by exists loc. }
  assert (NoDup (map snd sorted)) as Hnodup.
  { assert (map snd sorted ≡ₚ map snd (exit_distances x y)) as ->
      by (by apply Permutation_map).
    apply NoDup_ListNoDup. cbn.
    repeat (constructor; [cbn; intros H;
                          repeat (destruct H as [[=] | H]); done |]).
    constructor. }
  split; [| split; [| split; [| split]]].
  - intros Hk. rewrite length_map, length_firstn, (Permutation_length Hperm).
    cbn [length map exit_locations]. rewrite (Hn Hk). lia.
  - rewrite <- firstn_map.
    exact (sublist_NoDup _ _ Hnodup (sublist_take _ _)).
  - intros e He. apply in_map_iff in He as ([d e0] & <- & Hin).
    apply firstn_incl in Hin.
    destruct (Hentry d e0 Hin) as (loc & Hloc & _). by exists loc.
  - intros e e' loc loc' He Hloc Hloc' Hnot.
    apply in_map_iff in He as ([d e0] & Heq & Hin). cbn in Heq. subst e0.
    destruct (Hentry d e (firstn_incl _ _ _ Hin)) as (loc0 & Hloc0 & ->).
    rewrite (exit_location_unique e loc loc0 Hloc Hloc0).
    assert (In (manhattan x y loc', e') sorted) as Hin'.
    { rewrite <- list_elem_of_In, Hperm, list_elem_of_In.
      apply in_map_iff. by exists (e', loc'). }
    rewrite <- (firstn_skipn n sorted) in Hin'.
    apply in_app_or in Hin' as [Hin' | Hin'].
    + exfalso. apply Hnot. apply in_map_iff.
      by exists (manhattan x y loc', e').
    + rewrite <- (firstn_skipn n sorted) in Hsorted.
      apply (sorted_app_le fst _ _ Hsorted _ _ Hin Hin').
  - assert (StronglySorted (fun a b : Z * string => (a.1 <= b.1)%Z)
                           (firstn n sorted)) as Hs.
    { rewrite <- (firstn_skipn n sorted) in Hsorted.
      clear -Hsorted. induction (firstn n sorted) as [| a l IH];
        [constructor |].
      cbn in Hsorted. apply StronglySorted_inv in Hsorted as [Hs Hall].
      constructor; [by apply IH |].
      apply Forall_app in Hall. tauto. }
    apply (StronglySorted_map_in _ _ snd _ Hs).
    intros [d e] [d' e'] Hin Hin' Hle loc loc' Hloc Hloc'. cbn in *.
    destruct (Hentry d e (firstn_incl _ _ _ Hin)) as (loc0 & Hloc0 & ->).
    destruct (Hentry d' e' (firstn_incl _ _ _ Hin')) as (loc0' & Hloc0' & ->).
    rewrite (exit_location_unique e loc loc0 Hloc Hloc0).
    by rewrite (exit_location_unique e' loc' loc0' Hloc' Hloc0').
Qed.

End RegionsAndExits.

(** ** Reports and priorities of the instruction generator *)

Section InstructionReports.
Import InstructionGenerator.

Lemma with_priority_cons (p : string) (inst : Instruction)
    (l : list Instruction) :
  with_priority p (inst :: l)
  = ((if String.eqb (priority inst) p then 1 else 0)
     + with_priority p l)%nat.
Proof.
  unfold with_priority. cbn [List.filter].
  by destruct (String.eqb (priority inst) p).
Qed.

Lemma initial_priority_counts_known (p : string) :
  In p known_priorities -> initial_priority_counts !! p = Some 0%nat.
Proof.
  intros H. cbn in H.
  destruct H as [<- | [<- | [<- | [<- | [<- | []]]]]]; reflexivity.
Qed.

Lemma initial_priority_counts_unknown (p : string) :
  ~ In p known_priorities -> initial_priority_counts !! p = None.
Proof.
  intros H. unfold initial_priority_counts.
  rewrite !lookup_insert_ne; [apply lookup_empty | ..];
    intros <-; apply H; cbn; tauto.
Qed.

(** The first loop returns the counters raised by the number of
    instructions of each priority, when every priority is a key. *)
Lemma count_priorities_ok (l : list Instruction) (d : gmap string nat) :
  Forall (fun i => is_Some (d !! priority i)) l ->
  exists d',
    count_priorities l d = Ok d'
    /\ forall p, d' !! p
                 = (fun n => (n + with_priority p l)%nat) <$> (d !! p).
Proof.
  revert d. induction l as [| inst l IH]; intros d Hall.
  - exists d. split; [done |]. intros p. unfold with_priority. cbn.
    destruct (d !! p); cbn; [f_equal; lia | done].
  - apply Forall_cons in Hall as [[n Hn] Hall].
    destruct (IH (<[priority inst := S n]> d)) as (d' & Hd' & Hlook).
    { eapply Forall_impl; [exact Hall |]. intros i Hi. cbn in *.
      destruct (decide (priority inst = priority i)) as [-> | Hne].
      - rewrite lookup_insert_eq. by eexists.
      - by rewrite lookup_insert_ne. }
    exists d'. split.
    + cbn [count_priorities]. unfold counts_get. rewrite Hn.
      exact Hd'.
    + intros p. rewrite Hlook, with_priority_cons.
      destruct (String.eqb (priority inst) p) eqn:E.
      * apply String.eqb_eq in E. subst p.
        rewrite lookup_insert_eq, Hn. cbn. f_equal. lia.
      * apply String.eqb_neq in E. by rewrite lookup_insert_ne.
Qed.

(** The first loop raises at the first priority that is not a key. *)
Lemma count_priorities_raise (pre : list Instruction) (inst : Instruction)
    (post : list Instruction) (d : gmap string nat) :
  Forall (fun i => is_Some (d !! priority i)) pre ->
  d !! priority inst = None ->
  count_priorities (pre ++ inst :: post) d = Raise (KeyError (priority inst)).
Proof.
  revert d. induction pre as [| i pre IH]; intros d Hall Hnone.
  - cbn. unfold counts_get. by rewrite Hnone.
  - apply Forall_cons in Hall as [[n Hn] Hall].
    cbn [app count_priorities]. unfold counts_get at 1. rewrite Hn.
    apply IH.
    + eapply Forall_impl; [exact Hall |]. intros j Hj. cbn in *.
      destruct (decide (priority i = priority j)) as [-> | Hne].
      * rewrite lookup_insert_eq. by eexists.
      * by rewrite lookup_insert_ne.
    + rewrite lookup_insert_ne; [done |]. intros E. rewrite E in Hn.
      rewrite Hn in Hnone. discriminate.
Qed.

Lemma known_priority_counted (l : list Instruction) :
  Forall (fun i => In (priority i) known_priorities) l ->
  Forall (fun i => is_Some (initial_priority_counts !! priority i)) l.
Proof.
  intros Hall. eapply Forall_impl; [exact Hall |]. intros i Hi. cbn beta.
  rewrite (initial_priority_counts_known _ Hi). by eexists.
Qed.

(** The five known priorities partition a list whose priorities are all
    known. *)
Lemma known_priorities_partition (l : list Instruction) :
  Forall (fun i => In (priority i) known_priorities) l ->
  (with_priority "EMERGENCY" l + with_priority "CRITICAL" l
   + (with_priority "MEDIUM" l + with_priority "LOW" l)
   + with_priority "HIGH" l)%nat
  = length l.
Proof.
  induction 1 as [| i l Hi Hl IH]; [done |].
  rewrite !with_priority_cons. cbn [length]. rewrite <- IH.
  cbn in Hi.
  destruct Hi as [<- | [<- | [<- | [<- | [<- | []]]]]]; cbn; lia.
Qed.

Lemma count_exits_total (l : list Instruction) (d : gmap string nat) :
  AlertManager.sum_counts
    (fold_left
       (fun exit_usage inst =>
          <[primary_exit inst :=
              (default 0%nat (exit_usage !! primary_exit inst) + 1)%nat]>
            exit_usage)
       l d)
  = (length l + AlertManager.sum_counts d)%nat.
Proof.
  revert d. induction l as [| i l IH]; intros d; [done |].
  cbn [fold_left length]. rewrite IH, Nat.add_1_r, sum_counts_incr. lia.
Qed.

(** X24.  [generate_summary_report] on instructions whose priorities are
    all among EMERGENCY, CRITICAL, HIGH, MEDIUM and LOW returns a report:
    its total is the number of instructions, its breakdown gives for each
    of the five priorities the number of instructions of that priority, the
    immediate actions are the EMERGENCY and CRITICAL ones, the monitored
    zones the MEDIUM and LOW ones, these two with the HIGH ones make up the
    total, and the exit usage counts sum to the total.  On any other list
    the call raises [KeyError] at the first instruction whose priority is
    not one of the five. *)
Theorem summary_report_counts (instructions : list Instruction) :
  (Forall (fun i => In (priority i) known_priorities) instructions ->
   exists r,
     generate_summary_report instructions = Ok r
     /\ total_instructions r = length instructions
     /\ (forall p, In p known_priorities ->
           priority_breakdown r !! p = Some (with_priority p instructions))
     /\ (forall p, ~ In p known_priorities -> priority_breakdown r !! p = None)
     /\ requires_immediate_action r
        = (with_priority "EMERGENCY" instructions
           + with_priority "CRITICAL" instructions)%nat
     /\ zones_monitored r
        = (with_priority "MEDIUM" instructions
           + with_priority "LOW" instructions)%nat
     /\ (requires_immediate_action r + zones_monitored r
         + with_priority "HIGH" instructions)%nat = length instructions
     /\ AlertManager.sum_counts (exit_usage r) = length instructions)
  /\ (forall pre inst post,
        instructions = (pre ++ inst :: post)%list ->
        Forall (fun i => In (priority i) known_priorities) pre ->
        ~ In (priority inst) known_priorities ->
        generate_summary_report instructions
        = Raise (KeyError (priority inst))).
Proof.
  split.
  - intros Hall.
    destruct (count_priorities_ok instructions initial_priority_counts
                (known_priority_counted _ Hall)) as (d' & Hd' & Hlook).
    assert (forall p, In p known_priorities ->
              d' !! p = Some (with_priority p instructions)) as Hknown.
    { intros p Hp. by rewrite Hlook, (initial_priority_counts_known p Hp). }
    unfold generate_summary_report. rewrite Hd'. cbn [mbind result_bind].
    unfold counts_get.
    rewrite (Hknown "EMERGENCY"), (Hknown "CRITICAL"), (Hknown "MEDIUM"),
      (Hknown "LOW") by (cbn; tauto).
    cbn [mbind result_bind]. eexists. split; [reflexivity |].
    cbn [total_instructions priority_breakdown exit_usage
         requires_immediate_action zones_monitored].
    repeat split.
    + exact Hknown.
    + intros p Hp.
      by rewrite Hlook, (initial_priority_counts_unknown p Hp).
    + by apply known_priorities_partition.
    + unfold count_exits. rewrite count_exits_total. unfold AlertManager.sum_counts.
      rewrite map_fold_empty. lia.
  - intros pre inst post -> Hpre Hbad.
    unfold generate_summary_report.
    rewrite (count_priorities_raise pre inst post initial_priority_counts
               (known_priority_counted _ Hpre)
               (initial_priority_counts_unknown _ Hbad)).
    reflexivity.
Qed.

(** Sorting decorated elements by their key is sorting the elements by the
    key function. *)
Lemma insert_stable_decorated {A K : Type} (lt : K -> K -> bool)
    (k : A -> K) (a : A) (l : list A) :
  insert_stable (fun y x : K * A => lt y.1 x.1) (k a, a)
                (map (fun i => (k i, i)) l)
  = map (fun i => (k i, i)) (insert_stable (fun y x => lt (k y) (k x)) a l).
Proof.
  induction l as [| b l IH]; [done |].
  cbn [map insert_stable fst]. destruct (lt (k b) (k a)); [| done].
  by rewrite IH.
Qed.

Lemma py_sorted_decorated {A K : Type} (lt : K -> K -> bool) (k : A -> K)
    (l : list A) :
  map snd (py_sorted (fun y x : K * A => lt y.1 x.1)
                     (map (fun i => (k i, i)) l))
  = py_sorted (fun y x => lt (k y) (k x)) l.
Proof.
  assert (py_sorted (fun y x : K * A => lt y.1 x.1)
                    (map (fun i => (k i, i)) l)
          = map (fun i => (k i, i))
                (py_sorted (fun y x => lt (k y) (k x)) l)) as ->.
  { induction l as [| a l IH]; [done |].
    cbn [map py_sorted]. by rewrite IH, insert_stable_decorated. }
  rewrite map_map. cbn. apply map_id.
Qed.

(** The key of an instruction whose priority is a key of
    [priority_order]. *)
Local Abbreviation rank_of inst :=
  (default 0%Z (assoc_lookup (priority inst) priority_order)).
Local Abbreviation key_of inst := (rank_of inst, Qopp (severity inst)).

Lemma actionable_priority (inst : Instruction) :
  actionable inst = true
  <-> In (priority inst) ["EMERGENCY"; "CRITICAL"; "HIGH"].
Proof.
  unfold actionable. rewrite existsb_exists. split.
  - intros (p & Hp & E). apply String.eqb_eq in E. by subst.
  - intros H. exists (priority inst). split; [done | apply String.eqb_refl].
Qed.

Lemma actionable_rank (inst : Instruction) :
  actionable inst = true ->
  (assoc_lookup (priority inst) priority_order = Some 0%Z
   /\ priority inst = "EMERGENCY")
  \/ (assoc_lookup (priority inst) priority_order = Some 1%Z
      /\ priority inst = "CRITICAL")
  \/ (assoc_lookup (priority inst) priority_order = Some 2%Z
      /\ priority inst = "HIGH").
Proof.
  intros H. apply actionable_priority in H. cbn in H.
  destruct H as [<- | [<- | [<- | []]]]; cbn; tauto.
Qed.

Lemma decorate_actionable (l : list Instruction) :
  Forall (fun i => actionable i = true) l ->
  decorate sort_key l = Ok (map (fun i => (key_of i, i)) l).
Proof.
  induction 1 as [| i l Hi Hl IH]; [done |].
  cbn [decorate map]. rewrite IH. unfold sort_key, dict_get.
  destruct (actionable_rank i Hi) as [[-> _] | [[-> _] | [-> _]]];
    reflexivity.
Qed.

(** X25.  [get_priority_instructions] never raises, although it indexes
    [priority_order] with the priority of each instruction it sorts: the
    filter keeps only EMERGENCY, CRITICAL and HIGH instructions, all of
    them keys.  The result is a rearrangement of the filtered instructions
    with EMERGENCY first, then CRITICAL, then HIGH, severities not
    increasing within one priority, and instructions of equal priority and
    severity in their input order. *)
Theorem priority_instructions_order (instructions : list Instruction) :
  exists out,
    get_priority_instructions instructions = Ok out
    /\ out ≡ₚ List.filter actionable instructions
    /\ Forall (fun i => In (priority i) ["EMERGENCY"; "CRITICAL"; "HIGH"]) out
    /\ StronglySorted
         (fun a b =>
            exists ra rb,
              assoc_lookup (priority a) priority_order = Some ra
              /\ assoc_lookup (priority b) priority_order = Some rb
              /\ ((ra < rb)%Z \/ (ra = rb /\ (severity b <= severity a)%Q)))
         out
    /\ (forall p sev,
          List.filter (fun i => String.eqb (priority i) p
                                && Qeq_bool (severity i) sev) out
          = List.filter (fun i => String.eqb (priority i) p
                                  && Qeq_bool (severity i) sev)
                        (List.filter actionable instructions)).
Proof.
  unfold get_priority_instructions.
  set (kept := List.filter actionable instructions).
  assert (Forall (fun i => actionable i = true) kept) as Hkept.
  { apply Forall_forall. intros i Hi.
    apply list_elem_of_In, filter_In in Hi. tauto. }
  rewrite (decorate_actionable kept Hkept). cbn [mbind result_bind].
  rewrite (py_sorted_decorated AlertManager.key_lt (fun i => key_of i)).
  set (precedes := fun y x : Instruction =>
                     AlertManager.key_lt (key_of y) (key_of x)).
  assert (py_sorted precedes kept ≡ₚ kept) as Hperm by apply py_sorted_perm.
  assert (Forall (fun i => actionable i = true) (py_sorted precedes kept))
    as Hout by (by rewrite Hperm).
  eexists. split; [reflexivity |]. split; [exact Hperm |].
  split; [| split].
  - eapply Forall_impl; [exact Hout |]. intros i Hi.
    by apply actionable_priority.
  - assert (StronglySorted (fun a b => precedes b a = false)
                           (py_sorted precedes kept)) as Hs.
    { apply py_sorted_in_order.
      - intros a b H. apply key_lt_true in H. apply key_lt_false.
        destruct H as [H | [H1 H2]]; [by left | right; split; [done | lra]].
      - intros a b c H1 H2. apply key_lt_false in H1, H2.
        apply key_lt_false.
        destruct H1 as [H1 | [H1 H1']], H2 as [H2 | [H2 H2']];
          first [left; lia | right; split; [congruence | lra]]. }
    revert Hs Hout. generalize (py_sorted precedes kept). clear.
    induction 1 as [| a l Hl IH Ha]; intros Hact; [constructor |].
    apply Forall_cons in Hact as [Hact_a Hact].
    constructor; [by apply IH |].
    rewrite Forall_forall in Ha, Hact. apply Forall_forall. intros b Hb.
    specialize (Ha b Hb). specialize (Hact b Hb). cbn beta in Ha.
    apply key_lt_false in Ha. cbn [fst snd] in Ha.
    destruct (actionable_rank a Hact_a) as [[Ea _] | [[Ea _] | [Ea _]]],
      (actionable_rank b Hact) as [[Eb _] | [[Eb _] | [Eb _]]];
      rewrite Ea, Eb in Ha |- *; cbn [from_option id] in Ha;
      eexists _, _; (split; [reflexivity |]); (split; [reflexivity |]);
      (destruct Ha as [Ha | [Ha1 Ha2]];
       [left; lia | right; split; [lia | lra]]).
  - intros p sev. apply py_sorted_filter.
    intros a b Ha Hb. apply andb_prop in Ha as [Ha1 Ha2].
    apply andb_prop in Hb as [Hb1 Hb2].
    apply String.eqb_eq in Ha1, Hb1. apply Qeq_bool_iff in Ha2, Hb2.
    apply key_lt_false. right. cbn [fst snd]. split; [| lra].
    by rewrite Ha1, Hb1.
Qed.

End InstructionReports.

(** ** Instances of the further properties *)

Section FurtherInstances.
Import MoreSamples.

Lemma cooldown_after_trigger_witness :
  AlertManager.trigger_alert new_manager 1000 1000 1000 "warning" "Z1" 50
  = Ok (Some first_warning, after_first_warning)
  /\ ((exists alert' self'',
         AlertManager.trigger_alert after_first_warning 1001 1001 1001
           "warning" "Z1" 50 = Ok (Some alert', self''))
      <-> (5 # 2 <= 1001 - 1000)%Q).
Proof.
  split; [reflexivity |].
  apply (proj1 (cooldown_after_trigger new_manager after_first_warning
                  1000 1000 1000 "warning" "Z1" 50 first_warning
                  eq_refl eq_refl) 1001%Q 1001%Q 1001%Q 50%Q).
Defined.

Lemma process_classified_zones_effects_witness :
  exists triggered self',
    AlertManager.process_classified_zones new_manager sample_clock sample_rows
    = Ok (triggered, self')
    /\ AlertManager.active_alerts self'
       = (AlertManager.active_alerts new_manager ++ triggered)%list
    /\ (length triggered <= length sample_rows)%nat.
Proof.
  destruct (process_classified_zones_effects new_manager sample_clock
              sample_rows eq_refl)
    as (triggered & self' & E & Hact & _ & _ & _ & _ & Hlen).
  by exists triggered, self'.
Defined.

Lemma clear_old_alerts_window_witness :
  (5 <= 10)%Q
  /\ AlertManager.clear_old_alerts
       (AlertManager.clear_old_alerts after_first_warning 1008 10) 1008 5
     = AlertManager.clear_old_alerts after_first_warning 1008 5.
Proof.
  assert (5 <= 10)%Q as Hle by discriminate.
  split; [exact Hle |].
  apply (clear_old_alerts_window after_first_warning 1008 10), Hle.
Defined.

Lemma reset_alerts_reopens_witness :
  AlertManager.alert_config after_first_warning
  = AlertManager._initialize_alert_config
  /\ In "warning" ["warning"; "critical"; "emergency"]
  /\ ((exists alert self',
         AlertManager.trigger_alert (AlertManager.reset_alerts after_first_warning)
           1001 1001 1001 "warning" "Z1" 50 = Ok (Some alert, self'))
      <-> (5 # 2 <= 1001)%Q).
Proof.
  assert (In "warning" ["warning"; "critical"; "emergency"]) as Hin
    by (by left).
  split; [reflexivity |]. split; [exact Hin |].
  apply (proj2 (proj2 (proj2 (proj2 (proj2 (proj2
           (reset_alerts_reopens after_first_warning)))))) eq_refl
           1001%Q 1001%Q 1001%Q "warning" "Z1" 50%Q Hin).
Defined.

Lemma visual_alert_phase_witness :
  AlertManager.flash (AlertManager.a_visual first_warning) = true
  /\ (0 < AlertManager.flash_rate (AlertManager.a_visual first_warning))%Q
  /\ exists v,
       AlertManager.generate_visual_alert first_warning (4003 # 4) = Ok v
       /\ AlertManager.v_flash_on v
          = AlertManager.first_half
              (((4003 # 4) - AlertManager.timestamp first_warning)
               * AlertManager.flash_rate (AlertManager.a_visual first_warning))
       /\ AlertManager.v_color v
          = (if AlertManager.v_flash_on v
             then AlertManager.color (AlertManager.a_visual first_warning)
             else "#FFFFFF")
       /\ forall k : Z,
            AlertManager.generate_visual_alert first_warning
              ((4003 # 4) + inject_Z k
               / AlertManager.flash_rate (AlertManager.a_visual first_warning))
            = Ok v.
Proof.
  assert (0 < AlertManager.flash_rate (AlertManager.a_visual first_warning))%Q
    as Hrate by reflexivity.
  split; [reflexivity |]. split; [exact Hrate |].
  apply (proj2 (proj2 (visual_alert_phase first_warning (4003 # 4)))
           eq_refl Hrate).
Defined.

Lemma triggered_alert_renders_witness :
  AlertManager.trigger_alert new_manager 1000 1000 1000 "warning" "Z1" 50
  = Ok (Some first_warning, after_first_warning)
  /\ (2 <= AlertManager.a_priority first_warning <= 4)%Z
  /\ exists audio,
       AlertManager.generate_audio_alert first_warning = Some audio
       /\ AlertManager.au_level audio = "warning"
       /\ Z.of_nat (AlertManager.au_beeps audio)
          = (AlertManager.a_priority first_warning - 1)%Z.
Proof.
  split; [reflexivity |].
  destruct (triggered_alert_renders new_manager after_first_warning
              1000 1000 1000 "warning" "Z1" 50 first_warning
              eq_refl eq_refl) as (Hprio & _ & Haudio).
  by split.
Defined.

Lemma severity_indicator_bar_witness :
  (0 <= 68)%Q /\ (68 <= 100)%Q
  /\ (0 <= AlertManager.i_bar_filled (AlertManager.get_severity_indicator 68)
       <= 50)%Z.
Proof.
  assert (0 <= 68)%Q as H0 by discriminate.
  assert (68 <= 100)%Q as H1 by discriminate.
  split; [exact H0 |]. split; [exact H1 |].
  apply (proj1 (proj2 severity_indicator_bar) 68%Q H0 H1).
Defined.

Lemma summary_extremes_witness :
  In (AlertManager.sample_alert "emergency" "Zone_5_5" 40 4)
     AlertManager.emergency_then_warning
  /\ (AlertManager.severity (AlertManager.sample_alert "emergency" "Zone_5_5" 40 4)
      <= AlertManager.highest_severity
           (AlertManager.generate_alert_summary
              AlertManager.emergency_then_warning))%Q.
Proof.
  assert (In (AlertManager.sample_alert "emergency" "Zone_5_5" 40 4)
             AlertManager.emergency_then_warning) as Hin by (by left).
  split; [exact Hin |].
  apply (proj1 (proj2 (proj2 (proj2
           (summary_extremes AlertManager.emergency_then_warning)))) _ Hin).
Defined.

Lemma sample_classifier_configured :
  ZoneClassifier.configured Samples.sample_classifier.
Proof.
  unfold ZoneClassifier.configured. split; [reflexivity |].
  split; [eexists; split; [reflexivity | discriminate] |].
  split; [discriminate |]. split; [discriminate |]. split; [discriminate |].
  intros level Hin. cbn in Hin.
  destruct Hin as [<- | [<- | [<- | [<- | [<- | []]]]]];
    eexists; reflexivity.
Qed.

Lemma severity_score_defined_and_bounded_witness :
  exists s,
    ZoneClassifier._calculate_severity_score Samples.sample_classifier
      (39 # 5) (Some (3 # 10)) (Some 150%Q) = Ok s
    /\ (0 <= s)%Q /\ (s <= 100)%Q.
Proof.
  pose proof (severity_score_defined_and_bounded Samples.sample_classifier
                (39 # 5) (Some (3 # 10)) (Some 150%Q)) as (Hdef & Hrange & _).
  destruct (proj2 Hdef) as [s Hs].
  { split; [eexists; split; [reflexivity | discriminate] |].
    intros _ _. split; discriminate. }
  exists s. split; [exact Hs | by apply Hrange].
Defined.

Lemma first_matching_band_wins_witness :
  (0 <= 5 # 2)%Q /\ (5 # 2 < 3)%Q /\ (2 <= 5 # 2)%Q /\ (5 # 2 < 4)%Q
  /\ ZoneClassifier._classify_by_density
       (Samples.classifier_of overlapping_thresholds (Samples.sample_rules 2))
       (5 # 2) = "safe".
Proof.
  assert (0 <= 5 # 2)%Q as Hlo by discriminate.
  assert (5 # 2 < 3)%Q as Hhi by reflexivity.
  split; [exact Hlo |]. split; [exact Hhi |].
  split; [discriminate |]. split; [reflexivity |].
  apply (proj1 (first_matching_band_wins
                  (Samples.classifier_of overlapping_thresholds
                     (Samples.sample_rules 2)) (5 # 2))
           [] "safe"
           (Samples.band 0 3 "#00FF00" "Green" "none" false "Normal flow")
           [("moderate",
             Samples.band 2 4 "#7FFF00" "Yellow-Green" "low" false
               "Increased density")]
           eq_refl);
    [intros ? ? [] | exact Hlo | exact Hhi].
Defined.

Lemma elevate_level_by_index_witness :
  ZoneClassifier.level_order Samples.sample_classifier
  = ZoneClassifier.standard_level_order
  /\ list_index "safe" ZoneClassifier.standard_level_order = Ok 0%Z
  /\ (exists l,
        ZoneClassifier._elevate_level Samples.sample_classifier "safe" (-1)
        = Ok l
        /\ list_index l ZoneClassifier.standard_level_order
           = Ok (0 + -1 + 5)%Z)
  /\ ZoneClassifier._elevate_level Samples.sample_classifier "safe" (-6)
     = Raise IndexError.
Proof.
  split; [reflexivity |]. split; [reflexivity |]. split.
  - apply (proj2 (elevate_level_by_index Samples.sample_classifier "safe"
                    (-1) eq_refl) 0%Z eq_refl). lia.
  - apply (proj2 (elevate_level_by_index Samples.sample_classifier "safe"
                    (-6) eq_refl) 0%Z eq_refl). lia.
Defined.

Lemma elevate_level_composes_witness :
  exists l1 l2,
    ZoneClassifier._elevate_level Samples.sample_classifier "moderate" 1 = Ok l1
    /\ ZoneClassifier._elevate_level Samples.sample_classifier l1 2 = Ok l2
    /\ ZoneClassifier._elevate_level Samples.sample_classifier "moderate" (1 + 2)
       = Ok l2.
Proof.
  destruct (elevate_level_composes Samples.sample_classifier "moderate" 1 2
              eq_refl ltac:(lia) ltac:(lia)) as (l1 & l2 & H1 & H2 & H3 & _).
  by exists l1, l2.
Defined.

Lemma adjuster_outcome_witness :
  ZoneClassifier._adjust_by_movement Samples.sample_classifier "moderate"
    (19 # 5) (2 # 5) 135
  = Ok ("critical", Some ZoneClassifier.panic_reason)
  /\ ("critical" <> "moderate"
      <-> Some ZoneClassifier.panic_reason = Some ZoneClassifier.panic_reason)
  /\ exists l r,
       ZoneClassifier._adjust_by_movement Samples.sample_classifier "moderate"
         (19 # 5) (2 # 5) 135 = Ok (l, r)
       /\ forall i,
            list_index "moderate" ZoneClassifier.standard_level_order = Ok i ->
            exists j, list_index l ZoneClassifier.standard_level_order = Ok j
                      /\ (i <= j)%Z.
Proof.
  pose proof (adjuster_outcome Samples.sample_classifier "moderate"
                (19 # 5) (2 # 5) 135) as (Hret & _ & Htotal).
  split; [reflexivity |]. split.
  - apply (Hret "critical" (Some ZoneClassifier.panic_reason) eq_refl).
  - apply (Htotal eq_refl). discriminate.
Defined.

Lemma classify_zone_record_witness :
  exists c self',
    ZoneClassifier.classify_zone Samples.sample_classifier (19 # 5)
      (Some (2 # 5)) (Some 135%Q) (Some "Zone_0_0") = Ok (c, self')
    /\ ZoneClassifier.c_base_level c = "moderate"
    /\ (ZoneClassifier.c_elevated c = true
        <-> ZoneClassifier.c_elevation_reason c
            = Some ZoneClassifier.panic_reason)
    /\ (0 <= ZoneClassifier.c_severity_score c)%Q
    /\ (ZoneClassifier.c_severity_score c <= 100)%Q.
Proof.
  destruct (classify_zone_configured Samples.sample_classifier (19 # 5)
              (Some (2 # 5)) (Some 135%Q) (Some "Zone_0_0")
              sample_classifier_configured) as [c E].
  destruct (classify_zone_record _ _ _ _ _ _ _ E)
    as (_ & Hbase & _ & _ & Hreason & [H0 H100] & _).
  eexists c, _. split; [exact E |]. repeat split; try done; by apply Hreason.
Defined.

Lemma classify_zone_without_movement_witness :
  exists c self',
    ZoneClassifier.classify_zone Samples.sample_classifier (3 # 2)
      (Some (6 # 5)) None (Some "Zone_0_1") = Ok (c, self')
    /\ ZoneClassifier.c_level c = "safe"
    /\ ZoneClassifier.c_elevated c = false
    /\ ZoneClassifier.c_elevation_reason c = None.
Proof.
  destruct (classify_zone_without_movement Samples.sample_classifier (3 # 2)
              (Some (6 # 5)) None (Some "Zone_0_1") _ _
              (or_intror eq_refl) eq_refl eq_refl)
    as (c & self' & E & Hl & _ & He & Hr & _).
  by exists c, self'.
Defined.

Lemma classify_zone_total_witness :
  ZoneClassifier.configured Samples.sample_classifier
  /\ exists c self',
       ZoneClassifier.classify_zone Samples.sample_classifier (39 # 5)
         (Some (3 # 10)) (Some 150%Q) None = Ok (c, self')
       /\ ZoneClassifier.configured self'.
Proof.
  split; [exact sample_classifier_configured |].
  destruct (classify_zone_total Samples.sample_classifier (39 # 5)
              (Some (3 # 10)) (Some 150%Q) None sample_classifier_configured)
    as (c & self' & E & Hc & _).
  by exists c, self'.
Defined.

Lemma classify_all_zones_rows_witness :
  ZoneClassifier.configured Samples.sample_classifier
  /\ exists df self',
       ZoneClassifier.classify_all_zones Samples.sample_classifier sample_zones
       = Ok (df, self')
       /\ length (ZoneClassifier.rows df) = length sample_zones
       /\ map ZoneClassifier.r_zone_id (ZoneClassifier.rows df)
          = map ZoneClassifier.z_zone_id sample_zones.
Proof.
  split; [exact sample_classifier_configured |].
  destruct (classify_all_zones_rows Samples.sample_classifier sample_zones
              sample_classifier_configured)
    as (df & self' & E & _ & Hlen & Hids & _).
  by exists df, self'.
Defined.

Lemma classification_summary_counts_witness :
  ZoneClassifier.level_order Samples.sample_classifier
  = ZoneClassifier.standard_level_order
  /\ ZoneClassifier.columns one_row_frame = ZoneClassifier.result_columns
  /\ exists summary,
       ZoneClassifier.get_classification_summary Samples.sample_classifier
         one_row_frame = Ok summary
       /\ ZoneClassifier.total_zones summary
          = length (ZoneClassifier.rows one_row_frame)
       /\ (list_sum (map snd (ZoneClassifier.level_counts summary))
           <= ZoneClassifier.total_zones summary)%nat.
Proof.
  split; [reflexivity |]. split; [reflexivity |].
  destruct (classification_summary_counts Samples.sample_classifier
              one_row_frame eq_refl eq_refl)
    as (summary & E & Htot & _ & _ & _ & _ & Hle & _).
  by exists summary.
Defined.

Lemma zone_region_closed_form_witness :
  (0 <= 5 < 10)%Z /\ (0 <= 8 < 10)%Z
  /\ InstructionGenerator.get_zone_region
       (InstructionGenerator.__init__ (10, 10)%Z) 5 8 = "East"
  /\ ~ ((0 <= 12 < 10)%Z /\ (0 <= 8 < 10)%Z)
  /\ InstructionGenerator.get_zone_region
       (InstructionGenerator.__init__ (10, 10)%Z) 12 8 = "Central".
Proof.
  assert (0 <= 5 < 10)%Z as H5 by lia.
  assert (0 <= 8 < 10)%Z as H8 by lia.
  assert (~ ((0 <= 12 < 10)%Z /\ (0 <= 8 < 10)%Z)) as Hout by lia.
  split; [exact H5 |]. split; [exact H8 |].
  split; [exact (proj1 (zone_region_closed_form 10 10 5 8) H5 H8) |].
  split; [exact Hout |].
  exact (proj2 (zone_region_closed_form 10 10 12 8) Hout).
Defined.

Lemma nearest_exits_are_nearest_witness :
  (0 <= 2)%Z
  /\ InstructionGenerator.get_nearest_exits 5 5 2 = ["East"; "South"]
  /\ length (InstructionGenerator.get_nearest_exits 5 5 2) = 2%nat.
Proof.
  assert (0 <= 2)%Z as H by lia.
  split; [exact H |]. split; [reflexivity |].
  exact (proj1 (nearest_exits_are_nearest 5 5 2) H).
Defined.

Lemma summary_report_counts_witness :
  Forall (fun i => In (InstructionGenerator.priority i)
                      InstructionGenerator.known_priorities)
         sample_instructions
  /\ ~ In (InstructionGenerator.priority urgent_instruction)
         InstructionGenerator.known_priorities
  /\ (exists r,
        InstructionGenerator.generate_summary_report sample_instructions
        = Ok r
        /\ InstructionGenerator.total_instructions r = 2%nat
        /\ InstructionGenerator.requires_immediate_action r = 1%nat
        /\ InstructionGenerator.zones_monitored r = 1%nat
        /\ AlertManager.sum_counts (InstructionGenerator.exit_usage r)
           = 2%nat)
  /\ InstructionGenerator.generate_summary_report
       (sample_instructions ++ [urgent_instruction])%list
     = Raise (KeyError "URGENT").
Proof.
  assert (Forall (fun i => In (InstructionGenerator.priority i)
                              InstructionGenerator.known_priorities)
                 sample_instructions) as Hall.
  { repeat constructor; cbn; tauto. }
  assert (~ In (InstructionGenerator.priority urgent_instruction)
               InstructionGenerator.known_priorities) as Hbad.
  { cbn. intros H. repeat (destruct H as [[=] | H]). exact H. }
  split; [exact Hall |]. split; [exact Hbad |]. split.
  - destruct (proj1 (summary_report_counts sample_instructions) Hall)
      as (r & Hr & Htot & _ & _ & Hreq & Hmon & _ & Hexits).
    exists r. repeat split; assumption.
  - exact (proj2 (summary_report_counts
                    (sample_instructions ++ [urgent_instruction])%list)
                 sample_instructions urgent_instruction [] eq_refl Hall Hbad).
Defined.

End FurtherInstances.
